(** * Academic records backend: grades, attendance, transcripts

    A shallow embedding of the grade / enrollment computation core of the
    backend (models/enrollment.py, models/class_group.py, routes/grades.py,
    routes/classes.py, routes/reports.py) together with the properties its
    specification states about it.

    Conventions of the embedding.

    - Numbers.  Scores, weights and grades are SQL [Numeric] columns that the
      code converts with [float(...)] before it computes.  They are modelled
      as exact rationals [Q]: binary rounding error of the float operations
      is idealised away.  Python's [round(x, 2)] is [round2], rounding to the
      nearest hundredth with ties to the even neighbour.  A value written to
      a [Numeric] column is taken to fit the scale of the column, so that
      storing it does not change it.
    - Rows are records, tables are lists of rows in storage order.
    - The ORM session is explicit ([Session]): the committed store, the view
      of the open transaction, and the relationship collections that were
      already lazy-loaded in this session.
    - [datetime.utcnow()] is a parameter [now] of the handlers. *)

From Stdlib Require Import ZArith QArith Qround Lqa String List Bool Lia.
Import ListNotations.
Open Scope Z_scope.

(** ** Numbers *)

Module Num.

(** [x < y] on floats, as a boolean. *)
Definition Qlt_bool (x y : Q) : bool := negb (Qle_bool y x).

(** Nearest integer, ties to even: the rule of Python's [round]. *)
Definition round_half_even (x : Q) : Z :=
  let n := Qfloor x in
  match Qcompare (x - inject_Z n) (1 # 2) with
  | Lt => n
  | Gt => n + 1
  | Eq => if Z.even n then n else n + 1
  end.

(** [round(x, 2)]. *)
Definition round2 (x : Q) : Q := round_half_even (x * 100) # 100.

(** Truth value of a number or [None]: [None] and every zero are falsy. *)
Definition truthy (x : option Q) : bool :=
  match x with
  | Some q => negb (Qeq_bool q 0)
  | None => false
  end.

(** [float(x) if x else None]. *)
Definition float_or_none (x : option Q) : option Q :=
  if truthy x then x else None.

(** Sum of a list of numbers. *)
Definition Qsum (l : list Q) : Q := fold_right Qplus 0%Q l.

End Num.
Import Num.

(** ** Rows

    One record per table, with the columns the computations read or write.
    Dates of creation and update, names and descriptions are left out. *)

Module Role.
Inductive t := admin | coordinator | teacher | student.
Definition eqb (a b : t) : bool :=
  match a, b with
  | admin, admin | coordinator, coordinator
  | teacher, teacher | student, student => true
  | _, _ => false
  end.
End Role.

Module EnrollmentStatus.
Inductive t := enrolled | dropped | completed | failed.
Definition eqb (a b : t) : bool :=
  match a, b with
  | enrolled, enrolled | dropped, dropped
  | completed, completed | failed, failed => true
  | _, _ => false
  end.
End EnrollmentStatus.

Module FinalStatus.
Inductive t := approved | failed | incomplete | in_progress.
Definition eqb (a b : t) : bool :=
  match a, b with
  | approved, approved | failed, failed
  | incomplete, incomplete | in_progress, in_progress => true
  | _, _ => false
  end.
End FinalStatus.

Module AttendanceStatus.
Inductive t := present | absent | late | justified.
Definition eqb (a b : t) : bool :=
  match a, b with
  | present, present | absent, absent
  | late, late | justified, justified => true
  | _, _ => false
  end.
End AttendanceStatus.

Module ClassStatus.
Inductive t := planned | active | completed | cancelled.
Definition eqb (a b : t) : bool :=
  match a, b with
  | planned, planned | active, active
  | completed, completed | cancelled, cancelled => true
  | _, _ => false
  end.
End ClassStatus.

Module User.
Record t := mk { id : Z; role : Role.t }.
End User.

Module Teacher.
Record t := mk { id : Z; user_id : Z }.
End Teacher.

Module Student.
Record t := mk { id : Z; user_id : Z }.
End Student.

Module Subject.
Record t := mk { id : Z; credits : Z }.
End Subject.

Module ClassGroup.
Record t := mk {
  id : Z;
  subject_id : Z;
  teacher_id : Z;
  max_students : option Z;
  status : ClassStatus.t
}.
End ClassGroup.

Module Enrollment.
Record t := mk {
  id : Z;
  student_id : Z;
  class_group_id : Z;
  status : EnrollmentStatus.t;
  final_grade : option Q;
  final_status : FinalStatus.t
}.
Definition set_final_grade (v : option Q) (e : t) : t :=
  mk (id e) (student_id e) (class_group_id e) (status e) v (final_status e).
End Enrollment.

Module Evaluation.
Record t := mk {
  id : Z;
  class_group_id : Z;
  weight : Q;
  max_score : Q
}.
End Evaluation.

Module Grade.
Record t := mk {
  id : Z;
  enrollment_id : Z;
  evaluation_id : Z;
  score : option Q;
  comments : option string;
  graded_by : option Z;
  graded_at : option Z
}.
Definition set_score (v : option Q) (g : t) : t :=
  mk (id g) (enrollment_id g) (evaluation_id g) v (comments g)
     (graded_by g) (graded_at g).
Definition set_comments (v : option string) (g : t) : t :=
  mk (id g) (enrollment_id g) (evaluation_id g) (score g) v
     (graded_by g) (graded_at g).
Definition set_graded_by (v : option Z) (g : t) : t :=
  mk (id g) (enrollment_id g) (evaluation_id g) (score g) (comments g)
     v (graded_at g).
Definition set_graded_at (v : option Z) (g : t) : t :=
  mk (id g) (enrollment_id g) (evaluation_id g) (score g) (comments g)
     (graded_by g) v.
(** The pair under the unique constraint [_enrollment_evaluation_uc]. *)
Definition key (g : t) : Z * Z := (enrollment_id g, evaluation_id g).
End Grade.

Module Attendance.
Record t := mk {
  id : Z;
  enrollment_id : Z;
  status : AttendanceStatus.t
}.
End Attendance.

(** ** Attendance Calculator: [Enrollment.attendance_percentage] *)

Definition is_attended (a : Attendance.t) : bool :=
  match Attendance.status a with
  | AttendanceStatus.present | AttendanceStatus.late => true
  | _ => false
  end.

Definition attendance_percentage (attendance_records : list Attendance.t) : Q :=
  match attendance_records with
  | [] => 0%Q
  | _ =>
    let total_classes := length attendance_records in
    let present_classes := length (filter is_attended attendance_records) in
    if (0 <? Z.of_nat total_classes)
    then round2 (inject_Z (Z.of_nat present_classes)
                 / inject_Z (Z.of_nat total_classes) * 100)
    else 0%Q
  end.

(** ** Grade Aggregator: [Enrollment.calculate_final_grade]

    [grades] is the collection [self.grades]; [evaluation] resolves the
    relationship [grade.evaluation]. *)

Definition accumulate (evaluation : Grade.t -> option Evaluation.t)
    (acc : Q * Q) (grade : Grade.t) : Q * Q :=
  let '(total_weighted_score, total_weight) := acc in
  match Grade.score grade, evaluation grade with
  | Some score, Some ev =>
      ((total_weighted_score + score * Evaluation.weight ev)%Q,
       (total_weight + Evaluation.weight ev)%Q)
  | _, _ => acc
  end.

Definition calculate_final_grade (evaluation : Grade.t -> option Evaluation.t)
    (grades : list Grade.t) : option Q :=
  match grades with
  | [] => None
  | _ =>
    let '(total_weighted_score, total_weight) :=
      fold_left (accumulate evaluation) grades (0%Q, 0%Q) in
    if Qlt_bool 0 total_weight
    then Some (round2 (total_weighted_score / total_weight))
    else None
  end.

(** ** The record store and the ORM session *)

Record Tables := mkTables {
  students : list Student.t;
  teachers : list Teacher.t;
  subjects : list Subject.t;
  class_groups : list ClassGroup.t;
  enrollments : list Enrollment.t;
  evaluations : list Evaluation.t;
  grades : list Grade.t;
  attendance : list Attendance.t
}.

Definition with_enrollments (l : list Enrollment.t) (db : Tables) : Tables :=
  mkTables (students db) (teachers db) (subjects db) (class_groups db)
           l (evaluations db) (grades db) (attendance db).

Definition with_grades (l : list Grade.t) (db : Tables) : Tables :=
  mkTables (students db) (teachers db) (subjects db) (class_groups db)
           (enrollments db) (evaluations db) l (attendance db).

(** [Model.query.get(id)]. *)
Definition get_student (db : Tables) (id : Z) : option Student.t :=
  find (fun x => Student.id x =? id) (students db).
Definition get_subject (db : Tables) (id : Z) : option Subject.t :=
  find (fun x => Subject.id x =? id) (subjects db).
Definition get_class_group (db : Tables) (id : Z) : option ClassGroup.t :=
  find (fun x => ClassGroup.id x =? id) (class_groups db).
Definition get_enrollment (db : Tables) (id : Z) : option Enrollment.t :=
  find (fun x => Enrollment.id x =? id) (enrollments db).
Definition get_evaluation (db : Tables) (id : Z) : option Evaluation.t :=
  find (fun x => Evaluation.id x =? id) (evaluations db).
Definition get_grade (db : Tables) (id : Z) : option Grade.t :=
  find (fun x => Grade.id x =? id) (grades db).

(** [Teacher.query.filter_by(user_id=...).first()]. *)
Definition teacher_of_user (db : Tables) (user_id : Z) : option Teacher.t :=
  find (fun x => Teacher.user_id x =? user_id) (teachers db).

(** [Grade.query.filter_by(enrollment_id=..., evaluation_id=...).first()]. *)
Definition grade_first (db : Tables) (enrollment_id evaluation_id : Z)
  : option Grade.t :=
  find (fun g => (Grade.enrollment_id g =? enrollment_id)
                 && (Grade.evaluation_id g =? evaluation_id)) (grades db).

(** [Enrollment.query.filter_by(student_id=..., class_group_id=...).first()]. *)
Definition enrollment_first (db : Tables) (student_id class_group_id : Z)
  : option Enrollment.t :=
  find (fun e => (Enrollment.student_id e =? student_id)
                 && (Enrollment.class_group_id e =? class_group_id))
       (enrollments db).

(** Rows of the relationships [Enrollment.grades],
    [Enrollment.attendance_records] and [ClassGroup.enrollments] when they
    are loaded from the tables. *)
Definition grades_of (db : Tables) (enrollment_id : Z) : list Grade.t :=
  filter (fun g => Grade.enrollment_id g =? enrollment_id) (grades db).
Definition attendance_of (db : Tables) (enrollment_id : Z)
  : list Attendance.t :=
  filter (fun a => Attendance.enrollment_id a =? enrollment_id)
         (attendance db).
Definition enrollments_of (db : Tables) (class_group_id : Z)
  : list Enrollment.t :=
  filter (fun e => Enrollment.class_group_id e =? class_group_id)
         (enrollments db).

(** Writes: attribute assignments on a loaded object change the columns of
    the row with its primary key; [db.session.add] appends a row;
    [db.session.delete] removes it. *)
Definition update_grade_row (id : Z) (f : Grade.t -> Grade.t) (db : Tables)
  : Tables :=
  with_grades (map (fun g => if Grade.id g =? id then f g else g) (grades db))
              db.
Definition update_enrollment_row (id : Z) (f : Enrollment.t -> Enrollment.t)
    (db : Tables) : Tables :=
  with_enrollments
    (map (fun e => if Enrollment.id e =? id then f e else e) (enrollments db))
    db.
Definition add_grade (g : Grade.t) (db : Tables) : Tables :=
  with_grades (grades db ++ [g]) db.
Definition delete_grade_row (id : Z) (db : Tables) : Tables :=
  with_grades (filter (fun g => negb (Grade.id g =? id)) (grades db)) db.
Definition add_enrollment (e : Enrollment.t) (db : Tables) : Tables :=
  with_enrollments (enrollments db ++ [e]) db.

(** Primary keys are assigned by the store: one more than the largest. *)
Definition next_id (ids : list Z) : Z := fold_right Z.max 0 ids + 1.

(** The session of one request ([db = SQLAlchemy()], with the default
    session options: autoflush and expire on commit).

    - [store] holds the committed rows.
    - [txn] is what queries of this session see: the committed rows with
      the changes of the open transaction (pending objects are flushed
      before each query).
    - [loaded_grades] records the [Enrollment.grades] collections that were
      lazy-loaded ([lazy=True]) since the last commit or rollback, as the
      ids of the [Grade] objects they hold.  A loaded collection is not
      queried again; a [Grade] created with [enrollment_id=...] and added
      to the session does not enter it.  Commit and rollback expire every
      object and so empty the record. *)
Record Session := mkSession {
  store : Tables;
  txn : Tables;
  loaded_grades : list (Z * list Z)
}.

Definition begin (db : Tables) : Session := mkSession db db [].
Definition commit (s : Session) : Session := mkSession (txn s) (txn s) [].
Definition rollback (s : Session) : Session :=
  mkSession (store s) (store s) [].
Definition modify (f : Tables -> Tables) (s : Session) : Session :=
  mkSession (store s) (f (txn s)) (loaded_grades s).

Definition lookup_loaded (enrollment_id : Z) (l : list (Z * list Z))
  : option (list Z) :=
  option_map snd (find (fun p => fst p =? enrollment_id) l).

(** The objects of a loaded collection, with their current attributes. *)
Definition collection (db : Tables) (ids : list Z) : list Grade.t :=
  flat_map (fun i => match get_grade db i with
                     | Some g => [g]
                     | None => []
                     end) ids.

(** [enrollment.grades]. *)
Definition enrollment_grades (enrollment_id : Z) (s : Session)
  : list Grade.t * Session :=
  match lookup_loaded enrollment_id (loaded_grades s) with
  | Some ids => (collection (txn s) ids, s)
  | None =>
    let rows := grades_of (txn s) enrollment_id in
    (rows, mkSession (store s) (txn s)
             ((enrollment_id, map Grade.id rows) :: loaded_grades s))
  end.

(** [enrollment.final_grade = enrollment.calculate_final_grade()]. *)
Definition recompute_final_grade (enrollment_id : Z) (s : Session) : Session :=
  let '(grades, s1) := enrollment_grades enrollment_id s in
  let final_grade :=
    calculate_final_grade
      (fun g => get_evaluation (txn s1) (Grade.evaluation_id g)) grades in
  modify (update_enrollment_row enrollment_id
           (Enrollment.set_final_grade final_grade)) s1.

(** The output of the Grade Aggregator over the rows of a store. *)
Definition aggregate (db : Tables) (enrollment_id : Z) : option Q :=
  calculate_final_grade
    (fun g => get_evaluation db (Grade.evaluation_id g))
    (grades_of db enrollment_id).

(** ** Requests and responses *)

Module GradeData.
(** The JSON object of a grade: [None] is an absent key, [Some None] a key
    with value null. *)
Record t := mk {
  enrollment_id : option Z;
  evaluation_id : option Z;
  score : option (option Q);
  comments : option (option string)
}.
(** [data.get('comments')]. *)
Definition get_comments (d : t) : option string :=
  match comments d with Some c => c | None => None end.
End GradeData.

(** The error answers of the handlers.  [Exception] is an exception caught
    by a handler, with the key or attribute whose access raised it. *)
Inductive Error :=
| FieldRequired (field : string)
| GradesArrayRequired
| ScoreOutOfRange (max_score : Q)
| AlreadyEnrolled
| ClassFull
| EnrollmentNotFound
| EvaluationNotFound
| GradeNotFound
| ClassNotFound
| StudentNotFound
| PermissionDenied
| Exception (message : string).

Definition status_code (e : Error) : Z :=
  match e with
  | FieldRequired _ | GradesArrayRequired | ScoreOutOfRange _
  | AlreadyEnrolled | ClassFull => 400
  | EnrollmentNotFound | EvaluationNotFound | GradeNotFound
  | ClassNotFound | StudentNotFound => 404
  | PermissionDenied => 403
  | Exception _ => 500
  end.

(** The answers of the handlers that write. *)
Inductive Response :=
| GradeCreated (grade : Grade.t)
| GradeUpdated (grade : Grade.t)
| GradeDeleted
| GradesProcessed (created updated : nat)
| StudentEnrolled (enrollment : Enrollment.t)
| Failed (error : Error)
| BatchFailed (errors : list (nat * Error)).

(** A request runs in a session of its own; what it leaves in the store is
    what it committed. *)
Definition run (handler : Session -> Session * Response) (db : Tables)
  : Tables * Response :=
  let '(s, r) := handler (begin db) in (store s, r).

(** Handlers end a failed [try] with [db.session.rollback()] and a 500. *)
Definition raise (message : string) (s : Session) : Session * Response :=
  (rollback s, Failed (Exception message)).

(** ** routes/grades.py *)

(** Outcome of a permission test: passed, denied, or an attribute of a
    missing row was read. *)
Inductive Check := Pass | Deny | Raise.

(** The teacher check of [create_grade], [update_grade] and [delete_grade]:
    [if current_user.role == 'teacher': ... if not teacher or
    evaluation.class_group.teacher_id != teacher.id]. *)
Definition teacher_check (db : Tables) (current_user : User.t)
    (class_group_id : Z) : Check :=
  if Role.eqb (User.role current_user) Role.teacher then
    match teacher_of_user db (User.id current_user) with
    | None => Deny
    | Some teacher =>
      match get_class_group db class_group_id with
      | None => Raise
      | Some class_group =>
        if ClassGroup.teacher_id class_group =? Teacher.id teacher
        then Pass else Deny
      end
    end
  else Pass.

(** [score < 0 or score > float(evaluation.max_score)], for a score that is
    not null. *)
Definition out_of_range (score : option Q) (max_score : Q) : bool :=
  match score with
  | Some x => Qlt_bool x 0 || Qlt_bool max_score x
  | None => false
  end.

(** [if current_user.role == 'teacher': grade.graded_by = teacher.id if
    teacher else None]; other roles leave the column as it is. *)
Definition stamp_grader (db : Tables) (current_user : User.t) (g : Grade.t)
  : Grade.t :=
  if Role.eqb (User.role current_user) Role.teacher then
    Grade.set_graded_by
      (option_map Teacher.id (teacher_of_user db (User.id current_user))) g
  else g.

Definition create_grade (current_user : User.t) (now : Z) (data : GradeData.t)
    (s : Session) : Session * Response :=
  match GradeData.enrollment_id data with
  | None => (s, Failed (FieldRequired "enrollment_id"))
  | Some enrollment_id =>
  match GradeData.evaluation_id data with
  | None => (s, Failed (FieldRequired "evaluation_id"))
  | Some evaluation_id =>
  match GradeData.score data with
  | None => (s, Failed (FieldRequired "score"))
  | Some score =>
  match get_enrollment (txn s) enrollment_id with
  | None => (s, Failed EnrollmentNotFound)
  | Some enrollment =>
  match get_evaluation (txn s) evaluation_id with
  | None => (s, Failed EvaluationNotFound)
  | Some evaluation =>
  match teacher_check (txn s) current_user
          (Evaluation.class_group_id evaluation) with
  | Raise => raise "class_group" s
  | Deny => (s, Failed PermissionDenied)
  | Pass =>
  if out_of_range score (Evaluation.max_score evaluation)
  then (s, Failed (ScoreOutOfRange (Evaluation.max_score evaluation)))
  else
  match grade_first (txn s) enrollment_id evaluation_id with
  | Some existing_grade =>
    let assign := fun g =>
      Grade.set_graded_at (Some now)
        (stamp_grader (txn s) current_user
           (Grade.set_comments (GradeData.get_comments data)
              (Grade.set_score score g))) in
    let s := modify (update_grade_row (Grade.id existing_grade) assign) s in
    let s := commit s in
    let s := recompute_final_grade (Enrollment.id enrollment) s in
    let s := commit s in
    (s, GradeUpdated (assign existing_grade))
  | None =>
    let grade :=
      stamp_grader (txn s) current_user
        (Grade.mk (next_id (map Grade.id (grades (txn s))))
                  enrollment_id evaluation_id score
                  (GradeData.get_comments data) None (Some now)) in
    let s := modify (add_grade grade) s in
    let s := commit s in
    let s := recompute_final_grade (Enrollment.id enrollment) s in
    let s := commit s in
    (s, GradeCreated grade)
  end
  end end end end end end.

(** State of the loop of [create_grades_batch]. *)
Record Batch := mkBatch {
  session : Session;
  created_grades : nat;
  updated_grades : nat;
  errors : list (nat * Error)
}.

Definition append_errors (l : list (nat * Error)) (b : Batch) : Batch :=
  mkBatch (session b) (created_grades b) (updated_grades b) (errors b ++ l).

(** The inner loop over [required_fields]: its [continue] goes on with the
    next field, so one entry is appended per absent key and the item is
    processed further. *)
Definition missing_fields (grade_data : GradeData.t) : list string :=
  (match GradeData.enrollment_id grade_data with
   | None => ["enrollment_id"%string] | Some _ => [] end)
  ++ (match GradeData.evaluation_id grade_data with
      | None => ["evaluation_id"%string] | Some _ => [] end)
  ++ (match GradeData.score grade_data with
      | None => ["score"%string] | Some _ => [] end).

(** [if teacher and evaluation.class_group.teacher_id != teacher.id]. *)
Definition batch_check (db : Tables) (teacher : option Teacher.t)
    (class_group_id : Z) : Check :=
  match teacher with
  | None => Pass
  | Some teacher =>
    match get_class_group db class_group_id with
    | None => Raise
    | Some class_group =>
      if ClassGroup.teacher_id class_group =? Teacher.id teacher
      then Pass else Deny
    end
  end.

(** One turn of the loop, for the item at 0-based position [i]. *)
Definition batch_item (teacher : option Teacher.t) (now : Z) (i : nat)
    (grade_data : GradeData.t) (b : Batch) : Batch :=
  let n := S i in
  let b := append_errors
             (map (fun field => (n, FieldRequired field))
                  (missing_fields grade_data)) b in
  let s := session b in
  match GradeData.enrollment_id grade_data with
  | None => append_errors [(n, Exception "enrollment_id")] b
  | Some enrollment_id =>
  match GradeData.evaluation_id grade_data with
  | None => append_errors [(n, Exception "evaluation_id")] b
  | Some evaluation_id =>
  match get_enrollment (txn s) enrollment_id with
  | None => append_errors [(n, EnrollmentNotFound)] b
  | Some enrollment =>
  match get_evaluation (txn s) evaluation_id with
  | None => append_errors [(n, EvaluationNotFound)] b
  | Some evaluation =>
  match batch_check (txn s) teacher (Evaluation.class_group_id evaluation) with
  | Raise => append_errors [(n, Exception "class_group")] b
  | Deny => append_errors [(n, PermissionDenied)] b
  | Pass =>
  match GradeData.score grade_data with
  | None => append_errors [(n, Exception "score")] b
  | Some score =>
  if out_of_range score (Evaluation.max_score evaluation)
  then append_errors
         [(n, ScoreOutOfRange (Evaluation.max_score evaluation))] b
  else
  match grade_first (txn s) enrollment_id evaluation_id with
  | Some existing_grade =>
    let assign := fun g =>
      Grade.set_graded_at (Some now)
        (Grade.set_graded_by (option_map Teacher.id teacher)
           (Grade.set_comments (GradeData.get_comments grade_data)
              (Grade.set_score score g))) in
    let s := modify (update_grade_row (Grade.id existing_grade) assign) s in
    let s := recompute_final_grade (Enrollment.id enrollment) s in
    mkBatch s (created_grades b) (S (updated_grades b)) (errors b)
  | None =>
    let grade :=
      Grade.mk (next_id (map Grade.id (grades (txn s))))
               enrollment_id evaluation_id score
               (GradeData.get_comments grade_data)
               (option_map Teacher.id teacher) (Some now) in
    let s := modify (add_grade grade) s in
    let s := recompute_final_grade (Enrollment.id enrollment) s in
    mkBatch s (S (created_grades b)) (updated_grades b) (errors b)
  end
  end end end end end end.

Fixpoint batch_loop (teacher : option Teacher.t) (now : Z) (i : nat)
    (items : list GradeData.t) (b : Batch) : Batch :=
  match items with
  | [] => b
  | grade_data :: rest =>
    batch_loop teacher now (S i) rest (batch_item teacher now i grade_data b)
  end.

Definition create_grades_batch (current_user : User.t) (now : Z)
    (grades : list GradeData.t) (s : Session) : Session * Response :=
  match grades with
  | [] => (s, Failed GradesArrayRequired)
  | _ =>
    let teacher :=
      if Role.eqb (User.role current_user) Role.teacher
      then teacher_of_user (txn s) (User.id current_user)
      else None in
    let b := batch_loop teacher now 0 grades (mkBatch s 0 0 []) in
    match errors b with
    | _ :: _ => (rollback (session b), BatchFailed (errors b))
    | [] => (commit (session b),
             GradesProcessed (created_grades b) (updated_grades b))
    end
  end.

Definition update_grade (current_user : User.t) (now : Z) (grade_id : Z)
    (data : GradeData.t) (s : Session) : Session * Response :=
  match get_grade (txn s) grade_id with
  | None => (s, Failed GradeNotFound)
  | Some grade =>
  let evaluation := get_evaluation (txn s) (Grade.evaluation_id grade) in
  let check :=
    if Role.eqb (User.role current_user) Role.teacher then
      match teacher_of_user (txn s) (User.id current_user), evaluation with
      | None, _ => Deny
      | Some _, None => Raise
      | Some _, Some ev =>
        teacher_check (txn s) current_user (Evaluation.class_group_id ev)
      end
    else Pass in
  match check with
  | Raise => raise "evaluation" s
  | Deny => (s, Failed PermissionDenied)
  | Pass =>
  let validated : option Error + (Grade.t -> Grade.t) :=
    match GradeData.score data with
    | None => inr (fun g => g)
    | Some None => inr (Grade.set_score None)
    | Some (Some x) =>
      match evaluation with
      | None => inl None
      | Some ev =>
        if out_of_range (Some x) (Evaluation.max_score ev)
        then inl (Some (ScoreOutOfRange (Evaluation.max_score ev)))
        else inr (Grade.set_score (Some x))
      end
    end in
  match validated with
  | inl None => raise "evaluation" s
  | inl (Some e) => (s, Failed e)
  | inr assign_score =>
    let assign := fun g =>
      stamp_grader (txn s) current_user
        (Grade.set_graded_at (Some now)
           ((match GradeData.comments data with
             | Some c => Grade.set_comments c
             | None => fun g => g
             end) (assign_score g))) in
    let s := modify (update_grade_row grade_id assign) s in
    let s := commit s in
    match get_enrollment (txn s) (Grade.enrollment_id grade) with
    | None => raise "enrollment" s
    | Some enrollment =>
      let s := recompute_final_grade (Enrollment.id enrollment) s in
      let s := commit s in
      (s, GradeUpdated (assign grade))
    end
  end
  end
  end.

Definition delete_grade (current_user : User.t) (grade_id : Z) (s : Session)
  : Session * Response :=
  match get_grade (txn s) grade_id with
  | None => (s, Failed GradeNotFound)
  | Some grade =>
  let check :=
    if Role.eqb (User.role current_user) Role.teacher then
      match teacher_of_user (txn s) (User.id current_user),
            get_evaluation (txn s) (Grade.evaluation_id grade) with
      | None, _ => Deny
      | Some _, None => Raise
      | Some _, Some ev =>
        teacher_check (txn s) current_user (Evaluation.class_group_id ev)
      end
    else Pass in
  match check with
  | Raise => raise "evaluation" s
  | Deny => (s, Failed PermissionDenied)
  | Pass =>
    let enrollment := get_enrollment (txn s) (Grade.enrollment_id grade) in
    let s := modify (delete_grade_row grade_id) s in
    let s := commit s in
    match enrollment with
    | None => raise "enrollment" s
    | Some enrollment =>
      let s := recompute_final_grade (Enrollment.id enrollment) s in
      let s := commit s in
      (s, GradeDeleted)
    end
  end
  end.

(** ** routes/classes.py *)

(** [ClassGroup.enrolled_students_count]. *)
Definition enrolled_students_count (db : Tables) (class_group : ClassGroup.t)
  : Z :=
  Z.of_nat
    (length
       (filter (fun e => EnrollmentStatus.eqb (Enrollment.status e)
                           EnrollmentStatus.enrolled)
               (enrollments_of db (ClassGroup.id class_group)))).

(** The row that [Enrollment(student_id=..., class_group_id=...)] inserts:
    the status columns take their defaults. *)
Definition new_enrollment (db : Tables) (student_id class_group_id : Z)
  : Enrollment.t :=
  Enrollment.mk (next_id (map Enrollment.id (enrollments db)))
                student_id class_group_id EnrollmentStatus.enrolled None
                FinalStatus.in_progress.

(** [student_id] is the value of [data.get('student_id')]. *)
Definition enroll_student (class_id : Z) (student_id : option Z) (s : Session)
  : Session * Response :=
  match get_class_group (txn s) class_id with
  | None => (s, Failed ClassNotFound)
  | Some class_group =>
  match student_id with
  | None => (s, Failed (FieldRequired "student_id"))
  | Some student_id =>
  if student_id =? 0 then (s, Failed (FieldRequired "student_id")) else
  match get_student (txn s) student_id with
  | None => (s, Failed StudentNotFound)
  | Some student =>
  match enrollment_first (txn s) student_id class_id with
  | Some existing_enrollment => (s, Failed AlreadyEnrolled)
  | None =>
  match ClassGroup.max_students class_group with
  | None => raise "max_students" s
  | Some max_students =>
  if max_students <=? enrolled_students_count (txn s) class_group
  then (s, Failed ClassFull)
  else
    let enrollment := new_enrollment (txn s) student_id class_id in
    let s := modify (add_enrollment enrollment) s in
    let s := commit s in
    (s, StudentEnrolled enrollment)
  end end end end end.

(** The [enrollment] entry of [get_class_students], of [get_my_classes] and
    of [get_class_gradebook], and the same fields of [Enrollment.to_dict]. *)
Record EnrollmentDict := mkEnrollmentDict {
  dict_id : Z;
  dict_status : EnrollmentStatus.t;
  dict_final_grade : option Q;
  dict_final_status : FinalStatus.t;
  dict_attendance_percentage : Q
}.

(** [Enrollment.to_dict], fields of the enrollment itself. *)
Definition to_dict (db : Tables) (e : Enrollment.t) : EnrollmentDict :=
  mkEnrollmentDict
    (Enrollment.id e)
    (Enrollment.status e)
    (float_or_none (Enrollment.final_grade e))
    (Enrollment.final_status e)
    (attendance_percentage (attendance_of db (Enrollment.id e))).

(** [get_class_students]: the [enrollment] entries, one per enrollment of
    the class with the requested status. *)
Definition get_class_students (db : Tables) (class_id : Z)
    (status : EnrollmentStatus.t) : Error + list (Z * EnrollmentDict) :=
  match get_class_group db class_id with
  | None => inl ClassNotFound
  | Some class_group =>
    let enrollments :=
      filter (fun e => EnrollmentStatus.eqb (Enrollment.status e) status)
             (enrollments_of db (ClassGroup.id class_group)) in
    inr (map (fun enrollment =>
                (Enrollment.student_id enrollment,
                 mkEnrollmentDict
                   (Enrollment.id enrollment)
                   (Enrollment.status enrollment)
                   (float_or_none (Enrollment.final_grade enrollment))
                   (Enrollment.final_status enrollment)
                   (attendance_percentage
                      (attendance_of db (Enrollment.id enrollment)))))
             enrollments)
  end.

(** ** routes/grades.py: the gradebook *)

Record GradeCell := mkGradeCell {
  cell_score : option Q;
  cell_comments : option string;
  cell_graded_at : option Z
}.

Record StudentData := mkStudentData {
  sd_student_id : Z;
  sd_enrollment : EnrollmentDict;
  sd_grades : list (Z * GradeCell)
}.

Definition grade_cell (grade : option Grade.t) : GradeCell :=
  mkGradeCell
    (match grade with
     | Some g => float_or_none (Grade.score g)
     | None => None
     end)
    (match grade with Some g => Grade.comments g | None => None end)
    (match grade with Some g => Grade.graded_at g | None => None end).

Definition get_class_gradebook (db : Tables) (current_user : User.t)
    (class_id : Z) : Error + list StudentData :=
  match get_class_group db class_id with
  | None => inl ClassNotFound
  | Some class_group =>
  let denied :=
    if Role.eqb (User.role current_user) Role.teacher then
      match teacher_of_user db (User.id current_user) with
      | None => true
      | Some teacher =>
        negb (ClassGroup.teacher_id class_group =? Teacher.id teacher)
      end
    else false in
  if denied then inl PermissionDenied else
  let evaluations :=
    filter (fun ev => Evaluation.class_group_id ev =? class_id)
           (evaluations db) in
  let enrollments :=
    filter (fun e => (Enrollment.class_group_id e =? class_id)
                     && EnrollmentStatus.eqb (Enrollment.status e)
                          EnrollmentStatus.enrolled)
           (enrollments db) in
  inr (map (fun enrollment =>
         mkStudentData
           (Enrollment.student_id enrollment)
           (mkEnrollmentDict
              (Enrollment.id enrollment)
              (Enrollment.status enrollment)
              (float_or_none (Enrollment.final_grade enrollment))
              (Enrollment.final_status enrollment)
              (attendance_percentage
                 (attendance_of db (Enrollment.id enrollment))))
           (map (fun evaluation =>
                   (Evaluation.id evaluation,
                    grade_cell (grade_first db (Enrollment.id enrollment)
                                  (Evaluation.id evaluation))))
                evaluations))
       enrollments)
  end.

(** ** routes/reports.py *)

(** The summary of [get_student_transcript]; the grouping of the rows by
    semester is left out. *)
Record Summary := mkSummary {
  total_credits_attempted : Z;
  total_credits_earned : Z;
  gpa : Q;
  total_subjects : nat;
  approved_subjects : nat;
  failed_subjects : nat
}.

Record Totals := mkTotals {
  summary : Summary;
  total_grade_points : Q;
  total_credits_for_gpa : Z
}.

(** One turn of the loop over the enrollments, on an enrollment and the
    credits of the subject of its class group. *)
Definition transcript_step (t : Totals) (row : Enrollment.t * Z) : Totals :=
  let '(enrollment, credits) := row in
  let '(points, for_gpa) :=
    if truthy (Enrollment.final_grade enrollment) && negb (credits =? 0)
    then ((total_grade_points t
           + match Enrollment.final_grade enrollment with
             | Some g => g | None => 0
             end * inject_Z credits)%Q,
          total_credits_for_gpa t + credits)
    else (total_grade_points t, total_credits_for_gpa t) in
  let sm := summary t in
  let attempted := total_credits_attempted sm + credits in
  let sm :=
    match Enrollment.final_status enrollment with
    | FinalStatus.approved =>
      mkSummary attempted (total_credits_earned sm + credits) (gpa sm)
                (total_subjects sm) (S (approved_subjects sm))
                (failed_subjects sm)
    | FinalStatus.failed =>
      mkSummary attempted (total_credits_earned sm) (gpa sm)
                (total_subjects sm) (approved_subjects sm)
                (S (failed_subjects sm))
    | _ =>
      mkSummary attempted (total_credits_earned sm) (gpa sm)
                (total_subjects sm) (approved_subjects sm)
                (failed_subjects sm)
    end in
  mkTotals sm points for_gpa.

Definition transcript_summary (rows : list (Enrollment.t * Z)) : Summary :=
  let t := fold_left transcript_step rows
             (mkTotals (mkSummary 0 0 0 (length rows) 0 0) 0 0) in
  let sm := summary t in
  if 0 <? total_credits_for_gpa t
  then mkSummary (total_credits_attempted sm) (total_credits_earned sm)
         (round2 (total_grade_points t / inject_Z (total_credits_for_gpa t)))
         (total_subjects sm) (approved_subjects sm) (failed_subjects sm)
  else sm.

(** [enrollment.class_group.subject.credits] for each enrollment of the
    student; [None] when a class group or subject is missing (the handler
    then answers 500). *)
Fixpoint transcript_rows (db : Tables) (l : list Enrollment.t)
  : option (list (Enrollment.t * Z)) :=
  match l with
  | [] => Some []
  | enrollment :: rest =>
    match get_class_group db (Enrollment.class_group_id enrollment) with
    | None => None
    | Some class_group =>
      match get_subject db (ClassGroup.subject_id class_group) with
      | None => None
      | Some subject =>
        option_map (cons (enrollment, Subject.credits subject))
                   (transcript_rows db rest)
      end
    end
  end.

Definition get_student_transcript (db : Tables) (current_user : User.t)
    (student_id : Z) : Error + Summary :=
  match get_student db student_id with
  | None => inl StudentNotFound
  | Some student =>
    if Role.eqb (User.role current_user) Role.student
       && negb (Student.user_id student =? User.id current_user)
    then inl PermissionDenied
    else
      match transcript_rows db
              (filter (fun e => Enrollment.student_id e =? student_id)
                      (enrollments db)) with
      | None => inl (Exception "class_group")
      | Some rows => inr (transcript_summary rows)
      end
  end.

(** The count of pending grades of one class in [get_teacher_workload]. *)
Definition pending_grades (db : Tables) (class_group : ClassGroup.t) : nat :=
  let evaluations :=
    filter (fun ev => Evaluation.class_group_id ev
                      =? ClassGroup.id class_group) (evaluations db) in
  fold_left
    (fun pending evaluation =>
       fold_left
         (fun pending enrollment =>
            if EnrollmentStatus.eqb (Enrollment.status enrollment)
                 EnrollmentStatus.enrolled
            then match grade_first db (Enrollment.id enrollment)
                         (Evaluation.id evaluation) with
                 | None => S pending
                 | Some _ => pending
                 end
            else pending)
         (enrollments_of db (ClassGroup.id class_group)) pending)
    evaluations 0%nat.

(** The count of [get_dashboard_stats] for administrators and
    coordinators, over all evaluations. *)
Definition dashboard_pending_grades (db : Tables) : nat :=
  fold_left
    (fun total_pending evaluation =>
       fold_left
         (fun total_pending enrollment =>
            match grade_first db (Enrollment.id enrollment)
                    (Evaluation.id evaluation) with
            | None => S total_pending
            | Some _ => total_pending
            end)
         (filter (fun e => (Enrollment.class_group_id e
                            =? Evaluation.class_group_id evaluation)
                           && EnrollmentStatus.eqb (Enrollment.status e)
                                EnrollmentStatus.enrolled)
                 (enrollments db))
         total_pending)
    (evaluations db) 0%nat.

(** The count of [get_dashboard_stats] for a teacher, over the active
    classes of the teacher. *)
Definition teacher_pending_grades (db : Tables) (teacher : Teacher.t) : nat :=
  let teacher_classes :=
    filter (fun c => (ClassGroup.teacher_id c =? Teacher.id teacher)
                     && ClassStatus.eqb (ClassGroup.status c)
                          ClassStatus.active)
           (class_groups db) in
  fold_left
    (fun pending_grades class_group =>
       let evaluations :=
         filter (fun ev => Evaluation.class_group_id ev
                           =? ClassGroup.id class_group) (evaluations db) in
       let enrollments :=
         filter (fun e => (Enrollment.class_group_id e
                           =? ClassGroup.id class_group)
                          && EnrollmentStatus.eqb (Enrollment.status e)
                               EnrollmentStatus.enrolled)
                (enrollments db) in
       fold_left
         (fun pending_grades evaluation =>
            fold_left
              (fun pending_grades enrollment =>
                 match grade_first db (Enrollment.id enrollment)
                         (Evaluation.id evaluation) with
                 | None => S pending_grades
                 | Some _ => pending_grades
                 end)
              enrollments pending_grades)
         evaluations pending_grades)
    teacher_classes 0%nat.

(** ** The specification's vocabulary

    The quantities and predicates in which the properties are stated. *)

(** The aggregate in the words of the specification: sums over the grades
    that carry a score. *)

Definition has_score (g : Grade.t) : bool :=
  match Grade.score g with Some _ => true | None => false end.

Definition scored_grades (grades : list Grade.t) : list Grade.t :=
  filter has_score grades.

Definition score_of (g : Grade.t) : Q :=
  match Grade.score g with Some s => s | None => 0%Q end.

Definition weight_of (evaluation : Grade.t -> option Evaluation.t)
    (g : Grade.t) : Q :=
  match evaluation g with Some ev => Evaluation.weight ev | None => 0%Q end.

Definition weighted_score_sum (evaluation : Grade.t -> option Evaluation.t)
    (grades : list Grade.t) : Q :=
  Qsum (map (fun g => (score_of g * weight_of evaluation g)%Q)
            (scored_grades grades)).

Definition weight_sum (evaluation : Grade.t -> option Evaluation.t)
    (grades : list Grade.t) : Q :=
  Qsum (map (weight_of evaluation) (scored_grades grades)).

Definition weighted_mean (evaluation : Grade.t -> option Evaluation.t)
    (grades : list Grade.t) : option Q :=
  if Qlt_bool 0 (weight_sum evaluation grades)
  then Some (round2 (weighted_score_sum evaluation grades
                     / weight_sum evaluation grades))
  else None.

(** Every grade is joined to its evaluation (the foreign key
    [grades.evaluation_id] is not nullable). *)
Definition all_joined (evaluation : Grade.t -> option Evaluation.t)
    (grades : list Grade.t) : bool :=
  forallb (fun g => match evaluation g with Some _ => true | None => false end)
          grades.


(** The GPA in the words of the specification: the credit-weighted mean
    over the enrollments with a non-null final grade, 0 without any. *)
Definition graded_rows (rows : list (Enrollment.t * Z))
  : list (Enrollment.t * Z) :=
  filter (fun r => match Enrollment.final_grade (fst r) with
                   | Some _ => true | None => false end) rows.

Definition graded_credits (rows : list (Enrollment.t * Z)) : Z :=
  fold_right Z.add 0 (map snd (graded_rows rows)).

Definition graded_points (rows : list (Enrollment.t * Z)) : Q :=
  Qsum (map (fun r => (match Enrollment.final_grade (fst r) with
                       | Some g => g | None => 0 end
                       * inject_Z (snd r))%Q) (graded_rows rows)).

Definition specified_gpa (rows : list (Enrollment.t * Z)) : Q :=
  match graded_rows rows with
  | [] => 0%Q
  | _ => round2 (graded_points rows / inject_Z (graded_credits rows))
  end.

(** Rows of a transcript on which a truth test and a null test of the
    final grade agree: positive credits and no final grade equal to 0. *)
Definition no_zero_grade (rows : list (Enrollment.t * Z)) : bool :=
  forallb (fun r => (0 <? snd r)
                    && match Enrollment.final_grade (fst r) with
                       | Some g => negb (Qeq_bool g 0)
                       | None => true
                       end) rows.

(** Pending grades in the words of the specification: the pairs of an
    enrolled enrollment and an evaluation of the class for which the grades
    table has no row. *)
Definition has_grade_row (db : Tables) (enrollment_id evaluation_id : Z)
  : bool :=
  existsb (fun g => (Grade.enrollment_id g =? enrollment_id)
                    && (Grade.evaluation_id g =? evaluation_id)) (grades db).

Definition class_pairs (db : Tables) (class_id : Z)
  : list (Evaluation.t * Enrollment.t) :=
  list_prod
    (filter (fun ev => Evaluation.class_group_id ev =? class_id)
            (evaluations db))
    (filter (fun e => (Enrollment.class_group_id e =? class_id)
                      && EnrollmentStatus.eqb (Enrollment.status e)
                           EnrollmentStatus.enrolled)
            (enrollments db)).

Definition pairs_without_row (db : Tables) (class_id : Z) : nat :=
  length
    (filter (fun p => negb (has_grade_row db (Enrollment.id (snd p))
                                          (Evaluation.id (fst p))))
            (class_pairs db class_id)).

Definition enrolled_in (class_id : Z) (e : Enrollment.t) : bool :=
  (Enrollment.class_group_id e =? class_id)
  && EnrollmentStatus.eqb (Enrollment.status e) EnrollmentStatus.enrolled.

(** Overwriting the scores of the grade rows, row by row. *)
Definition rescore (f : Grade.t -> option Q) (db : Tables) : Tables :=
  with_grades (map (fun g => Grade.set_score (f g) g) (grades db)) db.

(** The error kinds of the specification and the responses they name. *)
Inductive ErrorKind :=
| NotFound | Conflict | InvalidInput | Denied | CapacityExceeded | Internal.

Definition error_kind (e : Error) : ErrorKind :=
  match e with
  | FieldRequired _ | GradesArrayRequired | ScoreOutOfRange _ => InvalidInput
  | AlreadyEnrolled => Conflict
  | ClassFull => CapacityExceeded
  | EnrollmentNotFound | EvaluationNotFound | GradeNotFound
  | ClassNotFound | StudentNotFound => NotFound
  | PermissionDenied => Denied
  | Exception _ => Internal
  end.

Definition fails_with (k : ErrorKind) (r : Response) : Prop :=
  exists e, r = Failed e /\ error_kind e = k.

Definition succeeded (r : Response) : bool :=
  match r with
  | Failed _ | BatchFailed _ => false
  | _ => true
  end.

(** The stored final grade of every enrollment with this id is the output
    of the Grade Aggregator over the rows of the store. *)
Definition final_grade_current (db : Tables) (enrollment_id : Z) : Prop :=
  forall e, In e (enrollments db) -> Enrollment.id e = enrollment_id ->
            Enrollment.final_grade e = aggregate db enrollment_id.

(** Uniqueness of (enrollment_id, evaluation_id) over the Grade rows. *)
Definition unique_pairs (db : Tables) : Prop :=
  NoDup (map Grade.key (grades db)).

(** Number of Grade rows of a pair. *)
Definition rows_of_pair (db : Tables) (enrollment_id evaluation_id : Z) : nat :=
  length (filter (fun g => (Grade.enrollment_id g =? enrollment_id)
                           && (Grade.evaluation_id g =? evaluation_id))
                 (grades db)).

(** The student has an enrollment in the class group, of any status. *)
Definition already_enrolled (db : Tables) (student_id class_id : Z) : bool :=
  existsb (fun e => (Enrollment.student_id e =? student_id)
                    && (Enrollment.class_group_id e =? class_id))
          (enrollments db).

(** The class group's count of enrollments with status enrolled. *)
Definition enrolled_count (db : Tables) (class_id : Z) : Z :=
  Z.of_nat (length (filter (enrolled_in class_id) (enrollments db))).

(** The teacher on whose behalf a batch is graded. *)
Definition batch_teacher (db : Tables) (current_user : User.t)
  : option Teacher.t :=
  if Role.eqb (User.role current_user) Role.teacher
  then teacher_of_user db (User.id current_user)
  else None.

(** An item of a batch passes validation: no field is missing, both
    entities exist, the teacher may grade the class, and the score is null
    or in range. *)
Definition item_valid (db : Tables) (teacher : option Teacher.t)
    (item : GradeData.t) : bool :=
  match GradeData.enrollment_id item, GradeData.evaluation_id item,
        GradeData.score item with
  | Some enrollment_id, Some evaluation_id, Some score =>
    match get_enrollment db enrollment_id,
          get_evaluation db evaluation_id with
    | Some _, Some evaluation =>
      match batch_check db teacher (Evaluation.class_group_id evaluation) with
      | Pass => negb (out_of_range score (Evaluation.max_score evaluation))
      | _ => false
      end
    | _, _ => false
    end
  | _, _, _ => false
  end.

(** No key of the item is absent. *)
Definition complete (item : GradeData.t) : bool :=
  match GradeData.enrollment_id item, GradeData.evaluation_id item,
        GradeData.score item with
  | Some _, Some _, Some _ => true
  | _, _, _ => false
  end.

(** What [commit; recompute the final grade; commit] leaves in the store,
    from the rows [db] of the transaction. *)
Definition settle (enrollment_id : Z) (db : Tables) : Tables :=
  update_enrollment_row enrollment_id
    (Enrollment.set_final_grade (aggregate db enrollment_id)) db.

(** The score of a grade request is outside [0, max_score]. *)
Definition score_rejected (score : option Q) (max_score : Q) : Prop :=
  exists x, score = Some x /\ ((x < 0)%Q \/ (max_score < x)%Q).

(** The grader a single-grade call stamps on a row: the teacher row of the
    caller when the caller has the teacher role; other callers do not touch
    the column ([None]). *)
Definition call_grader (db : Tables) (current_user : User.t)
  : option (option Z) :=
  if Role.eqb (User.role current_user) Role.teacher
  then Some (option_map Teacher.id
               (teacher_of_user db (User.id current_user)))
  else None.

(** A Grade row after an update in place by a call. *)
Definition overwritten (score : option Q) (comments : option string)
    (grader : option (option Z)) (now : Z) (g : Grade.t) : Grade.t :=
  Grade.mk (Grade.id g) (Grade.enrollment_id g) (Grade.evaluation_id g)
           score comments
           (match grader with Some t => t | None => Grade.graded_by g end)
           (Some now).

(** The entries that one item of a batch adds to the error list, as a
    function of the committed rows: the checks of an item read tables that
    the batch does not change (and the presence of enrollments). *)
Definition item_errors (db : Tables) (teacher : option Teacher.t) (i : nat)
    (item : GradeData.t) : list (nat * Error) :=
  map (fun field => (S i, FieldRequired field)) (missing_fields item)
  ++ match GradeData.enrollment_id item with
     | None => [(S i, Exception "enrollment_id")]
     | Some enrollment_id =>
     match GradeData.evaluation_id item with
     | None => [(S i, Exception "evaluation_id")]
     | Some evaluation_id =>
     match get_enrollment db enrollment_id with
     | None => [(S i, EnrollmentNotFound)]
     | Some _ =>
     match get_evaluation db evaluation_id with
     | None => [(S i, EvaluationNotFound)]
     | Some evaluation =>
     match batch_check db teacher (Evaluation.class_group_id evaluation) with
     | Raise => [(S i, Exception "class_group")]
     | Deny => [(S i, PermissionDenied)]
     | Pass =>
     match GradeData.score item with
     | None => [(S i, Exception "score")]
     | Some score =>
       if out_of_range score (Evaluation.max_score evaluation)
       then [(S i, ScoreOutOfRange (Evaluation.max_score evaluation))]
       else []
     end end end end end end.

Fixpoint batch_errors (db : Tables) (teacher : option Teacher.t) (i : nat)
    (items : list GradeData.t) : list (nat * Error) :=
  match items with
  | [] => []
  | item :: rest =>
    item_errors db teacher i item ++ batch_errors db teacher (S i) rest
  end.

(** Two states of the tables that the checks of a batch item cannot tell
    apart. *)
Definition same_static (a b : Tables) : Prop :=
  evaluations a = evaluations b
  /\ class_groups a = class_groups b
  /\ teachers a = teachers b
  /\ forall id, (get_enrollment a id = None <-> get_enrollment b id = None).

(** ** Example stores and requests *)

(** The scenario of the specification: evaluation A (weight 2, maximum 10)
    graded 8 and evaluation B (weight 1, maximum 5) graded 5. *)
Definition scenario_evaluations : list Evaluation.t :=
  [Evaluation.mk 1 1 2 10; Evaluation.mk 2 1 1 5].

Definition scenario_grades : list Grade.t :=
  [Grade.mk 1 1 1 (Some 8%Q) None None None;
   Grade.mk 2 1 2 (Some 5%Q) None None None].

Definition scenario_evaluation (g : Grade.t) : option Evaluation.t :=
  find (fun ev => Evaluation.id ev =? Grade.evaluation_id g)
       scenario_evaluations.

(** A class with one enrolled student and two evaluations; the only Grade
    row has a null score. *)
Definition workload_class : ClassGroup.t :=
  ClassGroup.mk 1 1 1 (Some 50) ClassStatus.active.

Definition workload_db : Tables :=
  mkTables
    [Student.mk 1 11]
    [Teacher.mk 1 21]
    [Subject.mk 1 4]
    [workload_class]
    [Enrollment.mk 1 1 1 EnrollmentStatus.enrolled None
                   FinalStatus.in_progress]
    [Evaluation.mk 1 1 2 10; Evaluation.mk 2 1 1 5]
    [Grade.mk 1 1 1 None None None None]
    [].

(** A store in which the student of enrollment 1 scored 0 on the only
    evaluation, so that the final grade is 0.00. *)
Definition zero_enrollment : Enrollment.t :=
  Enrollment.mk 1 1 1 EnrollmentStatus.enrolled (Some (0 # 100)%Q)
                FinalStatus.in_progress.

Definition zero_db : Tables :=
  mkTables
    [Student.mk 1 11]
    [Teacher.mk 1 21]
    [Subject.mk 1 4]
    [ClassGroup.mk 1 1 1 (Some 50) ClassStatus.active]
    [zero_enrollment]
    [Evaluation.mk 1 1 1 10]
    [Grade.mk 1 1 1 (Some 0%Q) None (Some 1) (Some 1000)]
    [].

Definition an_admin : User.t := User.mk 1 Role.admin.

(** The example of the specification: grades 8.0 and 6.0 on subjects of 4
    and 2 credits. *)
Definition gpa_rows : list (Enrollment.t * Z) :=
  [(Enrollment.mk 1 1 1 EnrollmentStatus.completed (Some 8%Q)
                  FinalStatus.approved, 4);
   (Enrollment.mk 2 1 2 EnrollmentStatus.completed (Some 6%Q)
                  FinalStatus.approved, 2)].

(** A student who failed a subject of 4 credits with final grade 0.00 and
    passed one of 2 credits with 6.00. *)
Definition failed_with_zero_db : Tables :=
  mkTables
    [Student.mk 1 11]
    [Teacher.mk 1 21]
    [Subject.mk 1 4; Subject.mk 2 2]
    [ClassGroup.mk 1 1 1 (Some 50) ClassStatus.completed;
     ClassGroup.mk 2 2 1 (Some 50) ClassStatus.completed]
    [Enrollment.mk 1 1 1 EnrollmentStatus.failed (Some (0 # 100)%Q)
                   FinalStatus.failed;
     Enrollment.mk 2 1 2 EnrollmentStatus.completed (Some (600 # 100)%Q)
                   FinalStatus.approved]
    []
    []
    [].

Definition failed_with_zero_rows : list (Enrollment.t * Z) :=
  [(Enrollment.mk 1 1 1 EnrollmentStatus.failed (Some (0 # 100)%Q)
                  FinalStatus.failed, 4);
   (Enrollment.mk 2 1 2 EnrollmentStatus.completed (Some (600 # 100)%Q)
                  FinalStatus.approved, 2)].

(** One class taught by teacher 1 (user 21), with evaluations A (weight 2,
    maximum 10) and B (weight 1, maximum 5), students 1 to 6 enrolled in it
    and no grades yet; teacher 2 (user 22) teaches elsewhere. *)
Definition class_db : Tables :=
  mkTables
    [Student.mk 1 11; Student.mk 2 12; Student.mk 3 13;
     Student.mk 4 14; Student.mk 5 15; Student.mk 6 16; Student.mk 7 17]
    [Teacher.mk 1 21; Teacher.mk 2 22]
    [Subject.mk 1 4]
    [ClassGroup.mk 1 1 1 (Some 6) ClassStatus.active]
    [Enrollment.mk 1 1 1 EnrollmentStatus.enrolled None
                   FinalStatus.in_progress;
     Enrollment.mk 2 2 1 EnrollmentStatus.enrolled None
                   FinalStatus.in_progress;
     Enrollment.mk 3 3 1 EnrollmentStatus.enrolled None
                   FinalStatus.in_progress;
     Enrollment.mk 4 4 1 EnrollmentStatus.enrolled None
                   FinalStatus.in_progress;
     Enrollment.mk 5 5 1 EnrollmentStatus.enrolled None
                   FinalStatus.in_progress;
     Enrollment.mk 6 6 1 EnrollmentStatus.enrolled None
                   FinalStatus.in_progress]
    [Evaluation.mk 1 1 2 10; Evaluation.mk 2 1 1 5]
    []
    [].

Definition the_teacher : User.t := User.mk 21 Role.teacher.
Definition another_teacher : User.t := User.mk 22 Role.teacher.

Definition grade_data (enrollment_id evaluation_id : Z) (score : Q)
  : GradeData.t :=
  GradeData.mk (Some enrollment_id) (Some evaluation_id) (Some (Some score))
               None.

(** Two new grades of the same enrollment in one batch. *)
Definition two_new_grades : list GradeData.t :=
  [grade_data 1 1 8; grade_data 1 2 5].

(** Five valid items and one score above the maximum of 10. *)
Definition five_valid_one_invalid : list GradeData.t :=
  [grade_data 1 1 8; grade_data 2 1 7; grade_data 3 1 11;
   grade_data 4 1 9; grade_data 5 1 6; grade_data 6 1 10].

(** A grade recorded by teacher 1 for enrollment 1 on evaluation A. *)
Definition graded_db : Tables :=
  with_grades [Grade.mk 1 1 1 (Some 8%Q) None (Some 1) (Some 1000)]
    (update_enrollment_row 1 (Enrollment.set_final_grade (Some (800 # 100)%Q))
       class_db).

(** * More of the code

    The other computations of the models and handlers, their vocabulary and
    example data. *)

From Stdlib Require Import Permutation.

(** ** models/grade.py and models/evaluation.py *)

(** [Grade.percentage_score]; [evaluation] resolves [self.evaluation]. *)
Definition percentage_score (evaluation : Grade.t -> option Evaluation.t)
    (grade : Grade.t) : option Q :=
  match Grade.score grade, evaluation grade with
  | Some score, Some ev =>
    if truthy (Some (Evaluation.max_score ev))
    then Some (round2 (score / Evaluation.max_score ev * 100))
    else None
  | _, _ => None
  end.

(** [Evaluation.grades_count], on the collection [self.grades]. *)
Definition grades_count (grades : list Grade.t) : nat := length grades.

(** [[float(g.score) for g in grades if g.score is not None]]. *)
Definition valid_scores (grades : list Grade.t) : list Q :=
  flat_map (fun g => match Grade.score g with
                     | Some s => [s]
                     | None => []
                     end) grades.

(** [round(sum(scores) / len(scores), 2)]. *)
Definition rounded_mean (scores : list Q) : Q :=
  round2 (fold_left Qplus scores 0%Q / inject_Z (Z.of_nat (length scores))).

(** [Evaluation.average_score], on the collection [self.grades]. *)
Definition average_score (grades : list Grade.t) : option Q :=
  match grades with
  | [] => None
  | _ =>
    match valid_scores grades with
    | [] => None
    | scores => Some (rounded_mean scores)
    end
  end.

(** ** utils/decorators.py

    [user] is [User.query.get(get_jwt_identity())]; a role is one of the
    four of [Role.t]. *)

Definition admin_required (user : option User.t) : bool :=
  match user with
  | Some u => Role.eqb (User.role u) Role.admin
  | None => false
  end.

Definition coordinator_or_admin_required (user : option User.t) : bool :=
  match user with
  | Some u => Role.eqb (User.role u) Role.admin
              || Role.eqb (User.role u) Role.coordinator
  | None => false
  end.

Definition teacher_or_above_required (user : option User.t) : bool :=
  match user with
  | Some u => Role.eqb (User.role u) Role.admin
              || Role.eqb (User.role u) Role.coordinator
              || Role.eqb (User.role u) Role.teacher
  | None => false
  end.

(** All scored grades have a score between two integers. *)
Definition scores_between (a b : Z) (grades : list Grade.t) : bool :=
  forallb (fun g => match Grade.score g with
                    | Some s => Qle_bool (inject_Z a) s
                                && Qle_bool s (inject_Z b)
                    | None => true
                    end) grades.

(** No grade is joined to an evaluation of negative weight. *)
Definition weights_nonnegative (evaluation : Grade.t -> option Evaluation.t)
    (grades : list Grade.t) : bool :=
  forallb (fun g => match evaluation g with
                    | Some ev => Qle_bool 0 (Evaluation.weight ev)
                    | None => true
                    end) grades.


(** Every record counts as attended (present or late), every record does
    not. *)
Definition all_attended (attendance_records : list Attendance.t) : bool :=
  forallb is_attended attendance_records.

Definition none_attended (attendance_records : list Attendance.t) : bool :=
  forallb (fun a => negb (is_attended a)) attendance_records.

(** All valid scores lie between two integers. *)
Definition valid_scores_between (a b : Z) (scores : list Q) : bool :=
  forallb (fun s => Qle_bool (inject_Z a) s && Qle_bool s (inject_Z b)) scores.

(** ** routes/classes.py: leaving and cancelling *)

Definition set_enrollment_status (v : EnrollmentStatus.t) (e : Enrollment.t)
  : Enrollment.t :=
  Enrollment.mk (Enrollment.id e) (Enrollment.student_id e)
                (Enrollment.class_group_id e) v (Enrollment.final_grade e)
                (Enrollment.final_status e).

Definition set_class_status (v : ClassStatus.t) (c : ClassGroup.t)
  : ClassGroup.t :=
  ClassGroup.mk (ClassGroup.id c) (ClassGroup.subject_id c)
                (ClassGroup.teacher_id c) (ClassGroup.max_students c) v.

Definition with_class_groups (l : list ClassGroup.t) (db : Tables) : Tables :=
  mkTables (students db) (teachers db) (subjects db) l
           (enrollments db) (evaluations db) (grades db) (attendance db).

Definition update_class_group_row (id : Z) (f : ClassGroup.t -> ClassGroup.t)
    (db : Tables) : Tables :=
  with_class_groups
    (map (fun c => if ClassGroup.id c =? id then f c else c) (class_groups db))
    db.

(** Answers of [unenroll_student] and [delete_class]. *)
Inductive Outcome :=
| Done (message : string)
| NotDone (error : Error)
| CannotDelete (enrolled_students_count : Z).

Definition run_outcome (handler : Session -> Session * Outcome) (db : Tables)
  : Tables * Outcome :=
  let '(s, r) := handler (begin db) in (store s, r).

(** [unenroll_student] and [delete_class], for a user who has passed
    [coordinator_or_admin_required]. *)
Definition unenroll_student (class_id student_id : Z) (s : Session)
  : Session * Outcome :=
  match enrollment_first (txn s) student_id class_id with
  | None => (s, NotDone EnrollmentNotFound)
  | Some enrollment =>
    let s := modify (update_enrollment_row (Enrollment.id enrollment)
                       (set_enrollment_status EnrollmentStatus.dropped)) s in
    let s := commit s in
    (s, Done "Student unenrolled successfully")
  end.

Definition delete_class (class_id : Z) (s : Session) : Session * Outcome :=
  match get_class_group (txn s) class_id with
  | None => (s, NotDone ClassNotFound)
  | Some class_group =>
    let enrolled_students_count :=
      enrolled_students_count (txn s) class_group in
    if 0 <? enrolled_students_count
    then (s, CannotDelete enrolled_students_count)
    else
      let s := modify (update_class_group_row (ClassGroup.id class_group)
                         (set_class_status ClassStatus.cancelled)) s in
      let s := commit s in
      (s, Done "Class deleted successfully")
  end.

(** The pair under the unique constraint [_student_class_uc]. *)
Definition enrollment_key (e : Enrollment.t) : Z * Z :=
  (Enrollment.student_id e, Enrollment.class_group_id e).

(** Uniqueness of (student_id, class_group_id) over the enrollments. *)
Definition unique_enrollments (db : Tables) : Prop :=
  NoDup (map enrollment_key (enrollments db)).

(** The class of [class_db] with room for 30 students. *)
Definition open_class_db : Tables :=
  with_class_groups [ClassGroup.mk 1 1 1 (Some 30) ClassStatus.active]
                    class_db.

(** ** routes/grades.py: example data *)

(** [graded_db] with a grade whose enrollment row is missing. *)
Definition orphan_db : Tables :=
  with_grades (grades graded_db
               ++ [Grade.mk 2 99 1 (Some 5%Q) None None (Some 1000)])
              graded_db.

(** A request that carries only a comment. *)
Definition comment_only (c : string) : GradeData.t :=
  GradeData.mk None None None (Some (Some c)).

(** The row of [graded_db] after teacher 1 has commented on it. *)
Definition commented_grade : Grade.t :=
  Grade.mk 1 1 1 (Some 8%Q) (Some "late"%string) (Some 1) (Some 2000).

(** The row that teacher 1 creates in [graded_db] for enrollment 1 on
    evaluation B. *)
Definition second_grade : Grade.t :=
  Grade.mk 2 1 2 (Some 4%Q) None (Some 1) (Some 2000).

(** ** routes/grades.py: what the stored scores satisfy *)

(** The score of a Grade row is null or within [0, max_score] of the
    row's evaluation, by the test of the handlers. *)
Definition score_in_range (db : Tables) (g : Grade.t) : bool :=
  match get_evaluation db (Grade.evaluation_id g) with
  | Some ev => negb (out_of_range (Grade.score g) (Evaluation.max_score ev))
  | None => true
  end.

Definition scores_in_range (db : Tables) : bool :=
  forallb (score_in_range db) (grades db).

(** Primary keys of the Grade rows are distinct and every score is in
    range. *)
Definition grades_well_formed (db : Tables) : Prop :=
  NoDup (map Grade.id (grades db)) /\ scores_in_range db = true.

(** An enrollment moved to another class group. *)
Definition set_enrollment_class (v : Z) (e : Enrollment.t) : Enrollment.t :=
  Enrollment.mk (Enrollment.id e) (Enrollment.student_id e) v
                (Enrollment.status e) (Enrollment.final_grade e)
                (Enrollment.final_status e).

(** ** routes/reports.py: statistics over the rows of a query *)

(** [round((count / total) * 100, 2)]. *)
Definition rate (count total : nat) : Q :=
  round2 (inject_Z (Z.of_nat count) / inject_Z (Z.of_nat total) * 100).




(** The credits of the rows of a transcript are not negative and the final
    grades lie between two integers. *)
Definition transcript_rows_between (a b : Z) (rows : list (Enrollment.t * Z))
  : bool :=
  forallb (fun r => (0 <=? snd r)
                    && match Enrollment.final_grade (fst r) with
                       | Some g => Qle_bool (inject_Z a) g
                                   && Qle_bool g (inject_Z b)
                       | None => true
                       end) rows.

(** ** routes/reports.py: [get_class_summary] *)

(** The numbers of the summary of a class; the [class] entry and the counts
    of published evaluations and of evaluations by type are left out. *)
Record ClassSummary := mkClassSummary {
  total_enrolled : nat;
  max_capacity : Z;
  capacity_percentage : Q;
  completed_students : nat;
  total_evaluations : nat;
  evaluations_average_score : Q;
  grade_distribution_approved : nat;
  grade_distribution_failed : nat;
  grade_distribution_in_progress : nat;
  average_attendance_rate : Q
}.

(** [class_summary['grade_distribution'][enrollment.final_status] += 1] on
    a dictionary with the keys approved, failed and in_progress: another
    key raises. *)
Definition count_final_status (d : nat * nat * nat) (e : Enrollment.t)
  : option (nat * nat * nat) :=
  let '(approved, failed, in_progress) := d in
  match Enrollment.final_status e with
  | FinalStatus.approved => Some (S approved, failed, in_progress)
  | FinalStatus.failed => Some (approved, S failed, in_progress)
  | FinalStatus.in_progress => Some (approved, failed, S in_progress)
  | FinalStatus.incomplete => None
  end.

Fixpoint grade_distribution (enrollments : list Enrollment.t)
    (d : nat * nat * nat) : option (nat * nat * nat) :=
  match enrollments with
  | [] => Some d
  | enrollment :: rest =>
    match count_final_status d enrollment with
    | None => None
    | Some d => grade_distribution rest d
    end
  end.

Definition is_completed (e : Enrollment.t) : bool :=
  FinalStatus.eqb (Enrollment.final_status e) FinalStatus.approved
  || FinalStatus.eqb (Enrollment.final_status e) FinalStatus.failed.

Definition get_class_summary (db : Tables) (current_user : User.t)
    (class_id : Z) : Error + ClassSummary :=
  match get_class_group db class_id with
  | None => inl ClassNotFound
  | Some class_group =>
  let denied :=
    if Role.eqb (User.role current_user) Role.teacher then
      match teacher_of_user db (User.id current_user) with
      | None => true
      | Some teacher =>
        negb (ClassGroup.teacher_id class_group =? Teacher.id teacher)
      end
    else false in
  if denied then inl PermissionDenied else
  let enrollments := enrollments_of db class_id in
  let evaluations :=
    filter (fun ev => Evaluation.class_group_id ev =? class_id)
           (evaluations db) in
  let enrolled_students :=
    filter (fun e => EnrollmentStatus.eqb (Enrollment.status e)
                       EnrollmentStatus.enrolled) enrollments in
  let completed_students := filter is_completed enrollments in
  match ClassGroup.max_students class_group with
  | None => inl (Exception "max_students")
  | Some max_students =>
  let capacity_percentage :=
    if 0 <? max_students
    then round2 (inject_Z (Z.of_nat (length enrolled_students))
                 / inject_Z max_students * 100)
    else 0%Q in
  let all_grades :=
    flat_map (fun evaluation =>
                valid_scores
                  (filter (fun g => Grade.evaluation_id g
                                    =? Evaluation.id evaluation)
                          (grades db)))
             evaluations in
  let average_score :=
    match all_grades with
    | [] => 0%Q
    | _ => rounded_mean all_grades
    end in
  match grade_distribution enrollments (0, 0, 0)%nat with
  | None => inl (Exception "incomplete")
  | Some (approved, failed, in_progress) =>
    let average_attendance_rate :=
      match enrolled_students with
      | [] => 0%Q
      | _ =>
        rounded_mean
          (map (fun e => attendance_percentage
                           (attendance_of db (Enrollment.id e)))
               enrolled_students)
      end in
    inr (mkClassSummary (length enrolled_students) max_students
           capacity_percentage (length completed_students)
           (length evaluations) average_score
           approved failed in_progress average_attendance_rate)
  end
  end
  end.

(** An enrollment of the class has the final status incomplete. *)
Definition has_incomplete (db : Tables) (class_id : Z) : bool :=
  existsb (fun e => FinalStatus.eqb (Enrollment.final_status e)
                      FinalStatus.incomplete)
          (enrollments_of db class_id).

(** [class_db] after enrollment 2 was marked incomplete. *)
Definition incomplete_db : Tables :=
  update_enrollment_row 2
    (fun e => Enrollment.mk (Enrollment.id e) (Enrollment.student_id e)
                (Enrollment.class_group_id e) (Enrollment.status e)
                (Enrollment.final_grade e) FinalStatus.incomplete)
    class_db.

(** ** routes/reports.py: [get_academic_performance] *)















(** The class group of [class_db] and, in [graded_db], its first
    enrollment. *)
Definition the_class : ClassGroup.t :=
  ClassGroup.mk 1 1 1 (Some 6) ClassStatus.active.

Definition first_enrollment : Enrollment.t :=
  Enrollment.mk 1 1 1 EnrollmentStatus.enrolled (Some (800 # 100)%Q)
                FinalStatus.in_progress.

(** * Properties *)

(** ** Tactics *)

Ltac innermost t k :=
  lazymatch t with
  | match ?x with _ => _ end => innermost x k
  | _ => k t
  end.

(** Case analysis on the scrutinee that decides the next branch of a
    handler. *)
Ltac case_step :=
  lazymatch goal with
  | |- match ?x with _ => _ end =>
    innermost x ltac:(fun y => destruct y eqn:?); cbn beta iota
  end.

(** ** Arithmetic of rounding *)

Lemma Qlt_bool_iff (x y : Q) : Qlt_bool x y = true <-> (x < y)%Q.
Proof.
  unfold Qlt_bool. rewrite negb_true_iff.
  split; intro H.
  - apply Qnot_le_lt. intro Hle. apply Qle_bool_iff in Hle. congruence.
  - destruct (Qle_bool y x) eqn:E; [|reflexivity].
    apply Qle_bool_iff in E. exfalso. apply (Qlt_not_le _ _ H E).
Qed.

Lemma Qlt_bool_compat (x x' y y' : Q) :
  (x == x')%Q -> (y == y')%Q -> Qlt_bool x y = Qlt_bool x' y'.
Proof. intros Hx Hy. unfold Qlt_bool. now rewrite Hx, Hy. Qed.

Lemma Qfloor_compat (x y : Q) : (x == y)%Q -> Qfloor x = Qfloor y.
Proof.
  intro H. apply Z.le_antisymm; apply Qfloor_resp_le; rewrite H; apply Qle_refl.
Qed.

Lemma round_half_even_compat (x y : Q) :
  (x == y)%Q -> round_half_even x = round_half_even y.
Proof.
  intro H. unfold round_half_even.
  rewrite (Qfloor_compat x y H).
  assert (E : (x - inject_Z (Qfloor y) == y - inject_Z (Qfloor y))%Q)
    by now rewrite H.
  now rewrite (Qcompare_comp _ _ E (1 # 2) (1 # 2) (Qeq_refl _)).
Qed.

Lemma round2_compat (x y : Q) : (x == y)%Q -> round2 x = round2 y.
Proof.
  intro H. unfold round2.
  rewrite (round_half_even_compat (x * 100) (y * 100)); [reflexivity|].
  now rewrite H.
Qed.

(** An integer is its own rounding. *)
Lemma round_half_even_Z (z : Z) : round_half_even (inject_Z z) = z.
Proof.
  unfold round_half_even. rewrite Qfloor_Z.
  assert (E : (inject_Z z - inject_Z z ?= 1 # 2)%Q = Lt).
  { rewrite <- Qlt_alt. generalize (inject_Z z). intro q. lra. }
  now rewrite E.
Qed.

(** Rounding stays between integer bounds of its argument. *)
Lemma round_half_even_bounds (a b : Z) (x : Q) :
  (inject_Z a <= x)%Q -> (x <= inject_Z b)%Q ->
  a <= round_half_even x <= b.
Proof.
  intros Ha Hb.
  assert (Hfa : a <= Qfloor x).
  { rewrite <- (Qfloor_Z a). now apply Qfloor_resp_le. }
  assert (Hfb : Qfloor x <= b).
  { rewrite <- (Qfloor_Z b). now apply Qfloor_resp_le. }
  unfold round_half_even.
  destruct (Qcompare (x - inject_Z (Qfloor x)) (1 # 2)) eqn:E.
  - destruct (Z.even (Qfloor x)); [lia|].
    rewrite <- Qeq_alt in E.
    destruct (Z.eq_dec (Qfloor x) b) as [Heq|Hne]; [|lia].
    exfalso. rewrite Heq in E. revert E Hb.
    generalize (inject_Z b). intros q E Hb. lra.
  - lia.
  - rewrite <- Qgt_alt in E.
    destruct (Z.eq_dec (Qfloor x) b) as [Heq|Hne]; [|lia].
    exfalso. rewrite Heq in E. revert E Hb.
    generalize (inject_Z b). intros q E Hb. lra.
Qed.

Lemma round2_bounds (a b : Z) (x : Q) :
  (inject_Z a <= x)%Q -> (x <= inject_Z b)%Q ->
  (inject_Z a <= round2 x)%Q /\ (round2 x <= inject_Z b)%Q.
Proof.
  intros Ha Hb.
  destruct (round_half_even_bounds (a * 100) (b * 100) (x * 100)) as [H1 H2].
  - rewrite inject_Z_mult. change (inject_Z 100) with 100%Q.
    revert Ha. generalize (inject_Z a). intros q Ha. lra.
  - rewrite inject_Z_mult. change (inject_Z 100) with 100%Q.
    revert Hb. generalize (inject_Z b). intros q Hb. lra.
  - unfold round2, Qle. simpl. split; lia.
Qed.

Lemma truthy_zero (q : Q) : (q == 0)%Q -> truthy (Some q) = false.
Proof.
  intro H. simpl. apply negb_false_iff. now apply Qeq_bool_iff.
Qed.

Lemma float_or_none_zero (q : Q) : (q == 0)%Q -> float_or_none (Some q) = None.
Proof. intro H. unfold float_or_none. now rewrite truthy_zero. Qed.

Example round2_7_33 : round2 (44 / 6) = (733 # 100)%Q.
Proof. reflexivity. Qed.

Example round2_66_67 : round2 (2 / 3 * 100) = (6667 # 100)%Q.
Proof. reflexivity. Qed.

Example round2_tie_even : round2 (2125 # 1000) = (212 # 100)%Q.
Proof. reflexivity. Qed.


(** ** Attendance Calculator *)





(** ** Grade Aggregator *)

Lemma fold_accumulate (evaluation : Grade.t -> option Evaluation.t)
    (grades : list Grade.t) :
  all_joined evaluation grades = true ->
  forall a b : Q,
    (fst (fold_left (accumulate evaluation) grades (a, b))
     == a + weighted_score_sum evaluation grades)%Q
    /\ (snd (fold_left (accumulate evaluation) grades (a, b))
        == b + weight_sum evaluation grades)%Q.
Proof.
  unfold weighted_score_sum, weight_sum, scored_grades.
  induction grades as [|g grades IH]; intros Hj a b.
  - simpl. split; lra.
  - simpl in Hj. apply andb_true_iff in Hj. destruct Hj as [Hg Hj].
    cbn [fold_left filter].
    destruct (Grade.score g) as [s|] eqn:Es.
    + destruct (evaluation g) as [ev|] eqn:Ev; [|discriminate].
      assert (Hacc : accumulate evaluation (a, b) g
                     = ((a + s * Evaluation.weight ev)%Q,
                        (b + Evaluation.weight ev)%Q)).
      { unfold accumulate. now rewrite Es, Ev. }
      assert (Hs : has_score g = true) by (unfold has_score; now rewrite Es).
      rewrite Hacc, Hs.
      destruct (IH Hj (a + s * Evaluation.weight ev)%Q
                      (b + Evaluation.weight ev)%Q) as [H1 H2].
      rewrite H1, H2. unfold Qsum. cbn [map fold_right].
      unfold score_of, weight_of. rewrite Es, Ev. split; ring.
    + assert (Hacc : accumulate evaluation (a, b) g = (a, b)).
      { unfold accumulate. now rewrite Es. }
      assert (Hs : has_score g = false) by (unfold has_score; now rewrite Es).
      rewrite Hacc, Hs. apply (IH Hj a b).
Qed.

Lemma calculate_final_grade_eq (evaluation : Grade.t -> option Evaluation.t)
    (grades : list Grade.t) :
  all_joined evaluation grades = true ->
  calculate_final_grade evaluation grades = weighted_mean evaluation grades.
Proof.
  intro Hj. unfold calculate_final_grade, weighted_mean.
  destruct grades as [|g grades]; [reflexivity|].
  destruct (fold_accumulate evaluation (g :: grades) Hj 0 0) as [H1 H2].
  destruct (fold_left (accumulate evaluation) (g :: grades) (0%Q, 0%Q))
    as [tws tw].
  simpl fst in H1. simpl snd in H2.
  rewrite Qplus_0_l in H1, H2.
  rewrite (Qlt_bool_compat 0 0 tw (weight_sum evaluation (g :: grades))
             (Qeq_refl 0) H2).
  destruct (Qlt_bool 0 (weight_sum evaluation (g :: grades))) eqn:E;
    [|reflexivity].
  f_equal. apply round2_compat.
  apply Qlt_bool_iff in E.
  rewrite H1, H2. reflexivity.
Qed.



Example scenario_final_grade :
  calculate_final_grade scenario_evaluation scenario_grades
  = Some (700 # 100)%Q.
Proof. reflexivity. Qed.

(** A grade without a score does not enter the mean. *)
Example ungraded_is_skipped :
  calculate_final_grade scenario_evaluation
    (scenario_grades ++ [Grade.mk 3 1 2 None None None None])
  = Some (700 # 100)%Q.
Proof. reflexivity. Qed.

(** Weight 0 on the only scored grade: no final grade. *)
Example zero_weight_only :
  calculate_final_grade (fun _ => Some (Evaluation.mk 1 1 0 10))
    [Grade.mk 1 1 1 (Some 8%Q) None None None] = None.
Proof. reflexivity. Qed.

(** ** Counting loops *)

Section Counting.
Context {A : Type}.

Lemma fold_left_count (f : nat -> A -> nat) (c : A -> bool) (l : list A) :
  (forall p x, f p x = if c x then S p else p) ->
  forall p, fold_left f l p = (p + length (filter c l))%nat.
Proof.
  intro Hf. induction l as [|x l IH]; intro p; simpl.
  - lia.
  - rewrite IH, Hf. destruct (c x); simpl; lia.
Qed.

Lemma fold_left_sum (f : nat -> A -> nat) (g : A -> nat) (l : list A) :
  (forall p x, f p x = (p + g x)%nat) ->
  forall p, fold_left f l p = (p + fold_right Nat.add 0%nat (map g l))%nat.
Proof.
  intro Hf. induction l as [|x l IH]; intro p; simpl.
  - lia.
  - rewrite IH, Hf. lia.
Qed.

Lemma find_existsb (c : A -> bool) (l : list A) :
  existsb c l = match find c l with Some _ => true | None => false end.
Proof.
  induction l as [|x l IH]; simpl; [reflexivity|].
  destruct (c x); [reflexivity|exact IH].
Qed.

Lemma filter_filter (p q : A -> bool) (l : list A) :
  filter p (filter q l) = filter (fun x => q x && p x) l.
Proof.
  induction l as [|x l IH]; simpl; [reflexivity|].
  destruct (q x); simpl; [destruct (p x)|]; now rewrite IH.
Qed.

Lemma filter_ext_eq (p q : A -> bool) (l : list A) :
  (forall x, p x = q x) -> filter p l = filter q l.
Proof. intro H. apply filter_ext. exact H. Qed.

End Counting.

Lemma filter_list_prod_length {A B : Type} (q : A * B -> bool)
    (l : list A) (l' : list B) :
  length (filter q (list_prod l l'))
  = fold_right Nat.add 0%nat
      (map (fun a => length (filter (fun b => q (a, b)) l')) l).
Proof.
  induction l as [|a l IH]; simpl; [reflexivity|].
  rewrite filter_app, length_app, IH. f_equal.
  clear IH. induction l' as [|b l' IH]; simpl; [reflexivity|].
  destruct (q (a, b)); simpl; now rewrite IH.
Qed.

(** ** Workload reporter: pending grades *)

Lemma grade_first_has_row (db : Tables) (enrollment_id evaluation_id : Z) :
  has_grade_row db enrollment_id evaluation_id
  = match grade_first db enrollment_id evaluation_id with
    | Some _ => true
    | None => false
    end.
Proof. unfold has_grade_row, grade_first. apply find_existsb. Qed.

Lemma pending_grades_count (db : Tables) (class_group : ClassGroup.t) :
  pending_grades db class_group
  = pairs_without_row db (ClassGroup.id class_group).
Proof.
  unfold pending_grades, pairs_without_row, class_pairs.
  rewrite filter_list_prod_length.
  rewrite (fold_left_sum _
    (fun ev => length
       (filter (fun e => negb (has_grade_row db (Enrollment.id e)
                                             (Evaluation.id ev)))
          (filter (enrolled_in (ClassGroup.id class_group))
                  (enrollments db))))); [reflexivity|].
  intros p ev.
  rewrite (fold_left_count _
    (fun e => EnrollmentStatus.eqb (Enrollment.status e)
                EnrollmentStatus.enrolled
              && negb (has_grade_row db (Enrollment.id e)
                                     (Evaluation.id ev)))).
  - f_equal. unfold enrollments_of, enrolled_in.
    rewrite !filter_filter. f_equal. apply filter_ext_eq.
    intro e. now rewrite andb_assoc.
  - intros q e. rewrite grade_first_has_row.
    destruct (EnrollmentStatus.eqb _ _); [|reflexivity].
    now destruct (grade_first db _ _).
Qed.

Lemma teacher_pending_grades_count (db : Tables) (teacher : Teacher.t) :
  teacher_pending_grades db teacher
  = fold_right Nat.add 0%nat
      (map (fun c => pairs_without_row db (ClassGroup.id c))
           (filter (fun c => (ClassGroup.teacher_id c =? Teacher.id teacher)
                             && ClassStatus.eqb (ClassGroup.status c)
                                  ClassStatus.active)
                   (class_groups db))).
Proof.
  unfold teacher_pending_grades.
  rewrite (fold_left_sum _
             (fun c => pairs_without_row db (ClassGroup.id c)));
    [reflexivity|].
  intros p c. unfold pairs_without_row, class_pairs.
  rewrite filter_list_prod_length.
  apply fold_left_sum. intros q ev.
  apply (fold_left_count _
    (fun e => negb (has_grade_row db (Enrollment.id e) (Evaluation.id ev)))).
  intros r e. rewrite grade_first_has_row.
  now destruct (grade_first db _ _).
Qed.

Lemma dashboard_pending_grades_count (db : Tables) :
  dashboard_pending_grades db
  = fold_right Nat.add 0%nat
      (map (fun ev =>
              length
                (filter (fun e => negb (has_grade_row db (Enrollment.id e)
                                                      (Evaluation.id ev)))
                   (filter (enrolled_in (Evaluation.class_group_id ev))
                           (enrollments db))))
           (evaluations db)).
Proof.
  unfold dashboard_pending_grades.
  rewrite (fold_left_sum _
    (fun ev => length
       (filter (fun e => negb (has_grade_row db (Enrollment.id e)
                                             (Evaluation.id ev)))
          (filter (enrolled_in (Evaluation.class_group_id ev))
                  (enrollments db))))); [reflexivity|].
  intros p ev.
  apply (fold_left_count _
    (fun e => negb (has_grade_row db (Enrollment.id e) (Evaluation.id ev)))).
  intros r e. rewrite grade_first_has_row.
  now destruct (grade_first db _ _).
Qed.

Lemma has_grade_row_rescore (f : Grade.t -> option Q) (db : Tables)
    (enrollment_id evaluation_id : Z) :
  has_grade_row (rescore f db) enrollment_id evaluation_id
  = has_grade_row db enrollment_id evaluation_id.
Proof.
  unfold has_grade_row, rescore. simpl.
  induction (grades db) as [|g l IH]; simpl; [reflexivity|].
  now rewrite IH.
Qed.

Lemma pairs_without_row_rescore (f : Grade.t -> option Q) (db : Tables)
    (class_id : Z) :
  pairs_without_row (rescore f db) class_id = pairs_without_row db class_id.
Proof.
  unfold pairs_without_row. f_equal.
  apply filter_ext_eq. intro p. now rewrite has_grade_row_rescore.
Qed.

(** C8.  The pending grades reported for a class group are the number of
    pairs of an enrolled enrollment and an evaluation of the class for
    which no Grade row exists; the scores of the rows play no part, so a
    row with a null score counts as graded.  The teacher's dashboard adds
    the same count over the teacher's active classes. *)
Theorem pending_grades_spec (db : Tables) (class_group : ClassGroup.t)
    (teacher : Teacher.t) (f : Grade.t -> option Q) :
  pending_grades db class_group
  = pairs_without_row db (ClassGroup.id class_group)
  /\ pending_grades (rescore f db) class_group = pending_grades db class_group
  /\ teacher_pending_grades db teacher
     = fold_right Nat.add 0%nat
         (map (fun c => pairs_without_row db (ClassGroup.id c))
              (filter (fun c => (ClassGroup.teacher_id c =? Teacher.id teacher)
                                && ClassStatus.eqb (ClassGroup.status c)
                                     ClassStatus.active)
                      (class_groups db)))
  /\ pending_grades workload_db workload_class = 1%nat.
Proof.
  split; [apply pending_grades_count|].
  split; [now rewrite !pending_grades_count, pairs_without_row_rescore|].
  split; [apply teacher_pending_grades_count|reflexivity].
Qed.

(** ** Read paths *)

Lemma find_id_eq {A : Type} (key : A -> Z) (id : Z) (l : list A) (x : A) :
  find (fun y => key y =? id) l = Some x -> In x l /\ key x = id.
Proof.
  intro H. apply find_some in H. destruct H as [Hin Heq].
  split; [exact Hin|]. now apply Z.eqb_eq.
Qed.

Lemma status_eqb_refl (s : EnrollmentStatus.t) :
  EnrollmentStatus.eqb s s = true.
Proof. now destruct s. Qed.

Lemma to_dict_zero (db : Tables) (e : Enrollment.t) (q : Q) :
  Enrollment.final_grade e = Some q -> (q == 0)%Q ->
  to_dict db e = to_dict db (Enrollment.set_final_grade None e).
Proof.
  intros Hq Hz. unfold to_dict. simpl.
  now rewrite Hq, (float_or_none_zero q Hz).
Qed.

Lemma gradebook_rows (db : Tables) (current_user : User.t) (class_id : Z)
    (rows : list StudentData) :
  get_class_gradebook db current_user class_id = inr rows ->
  rows
  = map (fun enrollment =>
           mkStudentData (Enrollment.student_id enrollment)
             (to_dict db enrollment)
             (map (fun evaluation =>
                     (Evaluation.id evaluation,
                      grade_cell (grade_first db (Enrollment.id enrollment)
                                    (Evaluation.id evaluation))))
                  (filter (fun ev => Evaluation.class_group_id ev =? class_id)
                          (evaluations db))))
        (filter (enrolled_in class_id) (enrollments db)).
Proof.
  unfold get_class_gradebook.
  destruct (get_class_group db class_id); [|discriminate].
  match goal with |- (if ?c then _ else _) = _ -> _ => destruct c end;
    [discriminate|].
  intro H. injection H as <-. reflexivity.
Qed.

(** C10.  An enrollment whose stored final grade is exactly 0 is
    serialised with a null final grade by [Enrollment.to_dict], by the
    student list of its class and by the gradebook of its class, exactly as
    the same enrollment without a final grade would be; and a gradebook cell
    whose Grade row has score exactly 0 shows a null score. *)
Theorem zero_reads_as_null (db : Tables) (current_user : User.t)
    (e : Enrollment.t) (q : Q) :
  In e (enrollments db) ->
  Enrollment.final_grade e = Some q ->
  (q == 0)%Q ->
  dict_final_grade (to_dict db e) = None
  /\ to_dict db e = to_dict db (Enrollment.set_final_grade None e)
  /\ (forall l,
        get_class_students db (Enrollment.class_group_id e)
                           (Enrollment.status e) = inr l ->
        In (Enrollment.student_id e, to_dict db e) l)
  /\ (forall rows,
        Enrollment.status e = EnrollmentStatus.enrolled ->
        get_class_gradebook db current_user (Enrollment.class_group_id e)
        = inr rows ->
        exists sd, In sd rows
                   /\ sd_student_id sd = Enrollment.student_id e
                   /\ sd_enrollment sd = to_dict db e)
  /\ (forall class_id rows sd evaluation_id cell g z,
        get_class_gradebook db current_user class_id = inr rows ->
        In sd rows ->
        In (evaluation_id, cell) (sd_grades sd) ->
        grade_first db (dict_id (sd_enrollment sd)) evaluation_id = Some g ->
        Grade.score g = Some z -> (z == 0)%Q ->
        cell_score cell = None).
Proof.
  intros Hin Hq Hz.
  split. { unfold to_dict. simpl. now rewrite Hq, (float_or_none_zero q Hz). }
  split. { exact (to_dict_zero db e q Hq Hz). }
  split.
  { intros l Hl. unfold get_class_students in Hl.
    destruct (get_class_group db (Enrollment.class_group_id e))
      as [cg|] eqn:Ecg; [|discriminate].
    apply find_id_eq in Ecg. destruct Ecg as [_ Hid].
    injection Hl as <-.
    apply (in_map (fun x => (Enrollment.student_id x, to_dict db x))).
    apply filter_In. split; [|apply status_eqb_refl].
    apply filter_In. split; [exact Hin|].
    rewrite Hid. apply Z.eqb_refl. }
  split.
  { intros rows Hst Hrows. apply gradebook_rows in Hrows. subst rows.
    eexists. split.
    - apply in_map. apply filter_In. split; [exact Hin|].
      unfold enrolled_in. rewrite Z.eqb_refl, Hst. reflexivity.
    - split; reflexivity. }
  intros class_id rows sd evaluation_id cell g z Hrows Hsd Hcell Hg Hs Hz'.
  apply gradebook_rows in Hrows. subst rows.
  apply in_map_iff in Hsd. destruct Hsd as [en [<- _]].
  simpl in Hcell, Hg.
  apply in_map_iff in Hcell. destruct Hcell as [ev [Hpair _]].
  injection Hpair as <- <-.
  rewrite Hg. simpl. rewrite Hs. now apply float_or_none_zero.
Qed.

Lemma zero_reads_as_null_witness :
  dict_final_grade (to_dict zero_db zero_enrollment) = None.
Proof.
  apply (zero_reads_as_null zero_db an_admin zero_enrollment (0 # 100)).
  - simpl. left. reflexivity.
  - reflexivity.
  - reflexivity.
Defined.

Example gradebook_shows_nulls :
  get_class_gradebook zero_db an_admin 1
  = inr [mkStudentData 1
           (mkEnrollmentDict 1 EnrollmentStatus.enrolled None
                             FinalStatus.in_progress 0)
           [(1, mkGradeCell None None (Some 1000))]].
Proof. reflexivity. Qed.

(** ** Transcript builder *)

Lemma transcript_fold (rows : list (Enrollment.t * Z)) :
  no_zero_grade rows = true ->
  forall t : Totals,
    let t' := fold_left transcript_step rows t in
    (total_grade_points t' == total_grade_points t + graded_points rows)%Q
    /\ total_credits_for_gpa t'
       = total_credits_for_gpa t + graded_credits rows
    /\ gpa (summary t') = gpa (summary t).
Proof.
  unfold graded_points, graded_credits, graded_rows.
  induction rows as [|[e c] rows IH]; intros Hnz t.
  - simpl. split; [ring|]. split; [lia|reflexivity].
  - simpl in Hnz. apply andb_true_iff in Hnz. destruct Hnz as [Hr Hnz].
    apply andb_true_iff in Hr. destruct Hr as [Hc Hg].
    apply Z.ltb_lt in Hc.
    cbn [fold_left]. cbv zeta.
    destruct (IH Hnz (transcript_step t (e, c))) as [H1 [H2 H3]].
    rewrite H1, H2, H3. clear H1 H2 H3 IH.
    cbn [filter fst snd].
    unfold transcript_step.
    destruct (Z.eqb_spec c 0) as [->|Hc0]; [lia|].
    destruct (Enrollment.final_grade e) as [g|] eqn:Eg.
    + simpl truthy. rewrite Hg. cbn [andb negb].
      unfold Qsum. cbn [map fold_right fst snd]. rewrite Eg.
      cbn [total_grade_points total_credits_for_gpa summary].
      split; [ring|]. split; [lia|].
      destruct (Enrollment.final_status e); reflexivity.
    + simpl truthy. cbn [andb].
      cbn [total_grade_points total_credits_for_gpa summary].
      split; [ring|]. split; [lia|].
      destruct (Enrollment.final_status e); reflexivity.
Qed.

Lemma graded_credits_pos (rows : list (Enrollment.t * Z)) :
  no_zero_grade rows = true ->
  0 <= graded_credits rows
  /\ (graded_rows rows <> [] -> 0 < graded_credits rows).
Proof.
  unfold graded_credits, graded_rows.
  induction rows as [|[e c] rows IH]; intro Hnz.
  - simpl. split; [lia|congruence].
  - simpl in Hnz. apply andb_true_iff in Hnz. destruct Hnz as [Hr Hnz].
    apply andb_true_iff in Hr. destruct Hr as [Hc _]. apply Z.ltb_lt in Hc.
    destruct (IH Hnz) as [H0 _].
    cbn [filter fst]. destruct (Enrollment.final_grade e); simpl.
    + split; [lia|]. intros _. lia.
    + exact (IH Hnz).
Qed.

(** Away from final grades equal to 0 the transcript's GPA is the
    credit-weighted mean of the specification. *)
Lemma transcript_gpa_no_zero (rows : list (Enrollment.t * Z)) :
  no_zero_grade rows = true ->
  gpa (transcript_summary rows) = specified_gpa rows.
Proof.
  intro Hnz. unfold transcript_summary, specified_gpa.
  destruct (transcript_fold rows Hnz
              (mkTotals (mkSummary 0 0 0 (length rows) 0 0) 0 0))
    as [H1 [H2 H3]].
  cbv zeta in H1, H2, H3. simpl in H1, H2, H3.
  destruct (graded_credits_pos rows Hnz) as [Hge Hpos].
  set (t := fold_left transcript_step rows
              (mkTotals (mkSummary 0 0 0 (length rows) 0 0) 0 0)) in *.
  rewrite H2.
  destruct (graded_rows rows) as [|r l] eqn:Egr.
  - assert (Hz : graded_credits rows = 0).
    { unfold graded_credits. now rewrite Egr. }
    rewrite Hz. simpl. exact H3.
  - assert (Hp : 0 < graded_credits rows) by (apply Hpos; congruence).
    destruct (Z.ltb_spec 0 (graded_credits rows)); [|lia].
    simpl gpa. apply round2_compat. rewrite H1. 
    rewrite Qplus_0_l. reflexivity.
Qed.

Lemma transcript_gpa_no_zero_witness :
  gpa (transcript_summary gpa_rows) = specified_gpa gpa_rows.
Proof. apply (transcript_gpa_no_zero gpa_rows). reflexivity. Defined.

(** The example of the specification: 7.33. *)
Example gpa_example : gpa (transcript_summary gpa_rows) = (733 # 100)%Q.
Proof. reflexivity. Qed.

(** C3, at the failing input.  A student failed a subject of 4 credits with
    final grade 0.00 and passed one of 2 credits with 6.00.  Both final
    grades are non-null, so the specified GPA is
    [round((0*4 + 6*2) / (4+2), 2) = 2.00]; the transcript reports 6.00,
    because the truth test [if enrollment.final_grade and subject.credits]
    drops the enrollment graded 0.00 from both sums. *)
Theorem transcript_gpa_drops_zero_grade :
  get_student_transcript failed_with_zero_db an_admin 1
  = inr (mkSummary 6 2 (600 # 100) 2 1 1)
  /\ transcript_rows failed_with_zero_db (enrollments failed_with_zero_db)
     = Some failed_with_zero_rows
  /\ specified_gpa failed_with_zero_rows = (200 # 100)%Q
  /\ ~ (gpa (transcript_summary failed_with_zero_rows)
        == specified_gpa failed_with_zero_rows)%Q.
Proof.
  repeat split; try reflexivity.
  intro H. vm_compute in H. discriminate.
Qed.

(** ** Enrolling a student *)

Lemma already_enrolled_first (db : Tables) (student_id class_id : Z) :
  already_enrolled db student_id class_id
  = match enrollment_first db student_id class_id with
    | Some _ => true
    | None => false
    end.
Proof. unfold already_enrolled, enrollment_first. apply find_existsb. Qed.

Lemma enrolled_students_count_eq (db : Tables) (class_group : ClassGroup.t) :
  enrolled_students_count db class_group
  = enrolled_count db (ClassGroup.id class_group).
Proof.
  unfold enrolled_students_count, enrolled_count, enrollments_of, enrolled_in.
  now rewrite filter_filter.
Qed.

(** C6, as amended.  For a call that names a class group of the store, with
    capacity [max_students], and a student of the store: if the student
    already has an enrollment in the class group, or the class group's
    number of enrollments with status enrolled is at least [max_students],
    the call fails (already enrolled, or class full) and the store is
    unchanged; otherwise a new enrollment of the student in the class group
    is appended, with status enrolled, and returned. *)
Theorem enroll_student_spec (db : Tables) (class_id student_id max_students : Z)
    (class_group : ClassGroup.t) (student : Student.t) :
  get_class_group db class_id = Some class_group ->
  ClassGroup.max_students class_group = Some max_students ->
  get_student db student_id = Some student ->
  student_id <> 0 ->
  let '(db', r) := run (enroll_student class_id (Some student_id)) db in
  if already_enrolled db student_id class_id
     || (max_students <=? enrolled_count db class_id)
  then db' = db
       /\ (already_enrolled db student_id class_id = true ->
           r = Failed AlreadyEnrolled /\ fails_with Conflict r)
       /\ (already_enrolled db student_id class_id = false ->
           r = Failed ClassFull /\ fails_with CapacityExceeded r)
  else exists enrollment,
       r = StudentEnrolled enrollment
       /\ enrollments db' = enrollments db ++ [enrollment]
       /\ db' = add_enrollment enrollment db
       /\ Enrollment.student_id enrollment = student_id
       /\ Enrollment.class_group_id enrollment = class_id
       /\ Enrollment.status enrollment = EnrollmentStatus.enrolled
       /\ Enrollment.final_grade enrollment = None.
Proof.
  intros Hcg Hmax Hst Hnz.
  unfold run, enroll_student. simpl.
  rewrite Hcg.
  destruct (Z.eqb_spec student_id 0) as [|_]; [contradiction|].
  rewrite Hst, Hmax.
  rewrite already_enrolled_first.
  destruct (enrollment_first db student_id class_id) as [existing|] eqn:Ef.
  - simpl. split; [reflexivity|]. split; [|discriminate].
    intros _. split; [reflexivity|]. now exists AlreadyEnrolled.
  - rewrite enrolled_students_count_eq.
    apply find_id_eq in Hcg. destruct Hcg as [_ Hid]. rewrite Hid.
    simpl orb.
    destruct (max_students <=? enrolled_count db class_id) eqn:Efull.
    + simpl. split; [reflexivity|]. split; [discriminate|].
      intros _. split; [reflexivity|]. now exists ClassFull.
    + simpl. eexists. repeat split.
Qed.

Lemma enroll_student_spec_witness :
  let '(db', r) := run (enroll_student 1 (Some 7)) class_db in
  db' = class_db
  /\ (already_enrolled class_db 7 1 = true ->
      r = Failed AlreadyEnrolled /\ fails_with Conflict r)
  /\ (already_enrolled class_db 7 1 = false ->
      r = Failed ClassFull /\ fails_with CapacityExceeded r).
Proof.
  apply (enroll_student_spec class_db 1 7 6
           (ClassGroup.mk 1 1 1 (Some 6) ClassStatus.active)
           (Student.mk 7 17)).
  - reflexivity.
  - reflexivity.
  - reflexivity.
  - discriminate.
Defined.

(** A call that fails leaves the store as it was. *)
Lemma enroll_student_failure_no_write (class_id : Z) (student_id : option Z)
    (db : Tables) :
  let '(db', r) := run (enroll_student class_id student_id) db in
  succeeded r = false -> db' = db.
Proof.
  unfold run, enroll_student, raise. cbn [txn begin].
  repeat case_step.
  all: simpl; try reflexivity; try discriminate.
Qed.

(** C6 as stated fails: the class has room (1 of 50) and nobody with id 99
    is enrolled in it, yet no enrollment is created, because no student has
    id 99: the call ends with NotFound. *)
Lemma enroll_unknown_student :
  let '(db', r) := run (enroll_student 1 (Some 99)) workload_db in
  already_enrolled workload_db 99 1 = false
  /\ enrolled_count workload_db 1 = 1
  /\ ClassGroup.max_students workload_class = Some 50
  /\ r = Failed StudentNotFound
  /\ enrollments db' = enrollments workload_db.
Proof. repeat split. Qed.

(** At capacity: six enrolled students, [max_students = 6]. *)
Example class_full :
  run (enroll_student 1 (Some 7)) class_db = (class_db, Failed ClassFull).
Proof. reflexivity. Qed.

(** ** Sessions *)

Lemma commit_recompute_commit (enrollment_id : Z) (s : Session) :
  store (commit (recompute_final_grade enrollment_id (commit s)))
  = settle enrollment_id (txn s).
Proof. reflexivity. Qed.


Lemma out_of_range_iff (score : option Q) (max_score : Q) :
  out_of_range score max_score = true <-> score_rejected score max_score.
Proof.
  unfold out_of_range, score_rejected. destruct score as [x|].
  - rewrite orb_true_iff, !Qlt_bool_iff. split.
    + intro H. exists x. split; [reflexivity|exact H].
    + intros [y [Hy H]]. injection Hy as ->. exact H.
  - split; [discriminate|]. intros [y [Hy _]]. discriminate.
Qed.

Section FindFacts.
Context {A : Type}.

Lemma find_map_preserved (p : A -> bool) (h : A -> A) (l : list A) :
  (forall x, p (h x) = p x) ->
  find p (map h l) = option_map h (find p l).
Proof.
  intro Hp. induction l as [|x l IH]; simpl; [reflexivity|].
  rewrite Hp. destruct (p x); [reflexivity|exact IH].
Qed.

Lemma find_app_none (p : A -> bool) (l : list A) (x : A) :
  find p l = None -> p x = true -> find p (l ++ [x]) = Some x.
Proof.
  intros Hl Hx. induction l as [|y l IH]; simpl in *.
  - now rewrite Hx.
  - destruct (p y); [discriminate|]. now apply IH.
Qed.

End FindFacts.

Lemma stamp_grader_key (db : Tables) (u : User.t) (g : Grade.t) :
  Grade.key (stamp_grader db u g) = Grade.key g
  /\ Grade.id (stamp_grader db u g) = Grade.id g
  /\ Grade.score (stamp_grader db u g) = Grade.score g
  /\ Grade.comments (stamp_grader db u g) = Grade.comments g
  /\ Grade.graded_at (stamp_grader db u g) = Grade.graded_at g.
Proof. unfold stamp_grader. destruct (Role.eqb _ _); repeat split. Qed.

(** Assignments to the columns of the matching rows keep the keys. *)
Lemma update_grade_row_keys (id : Z) (f : Grade.t -> Grade.t) (db : Tables) :
  (forall g, Grade.key (f g) = Grade.key g) ->
  map Grade.key (grades (update_grade_row id f db))
  = map Grade.key (grades db).
Proof.
  intro Hf. unfold update_grade_row. simpl. rewrite map_map.
  apply map_ext. intro g. destruct (Grade.id g =? id); [apply Hf|reflexivity].
Qed.

Lemma grade_first_update (id : Z) (f : Grade.t -> Grade.t) (db : Tables)
    (enrollment_id evaluation_id : Z) :
  (forall g, Grade.key (f g) = Grade.key g) ->
  grade_first (update_grade_row id f db) enrollment_id evaluation_id
  = option_map (fun g => if Grade.id g =? id then f g else g)
               (grade_first db enrollment_id evaluation_id).
Proof.
  intro Hf. unfold grade_first, update_grade_row. simpl.
  apply find_map_preserved. intro g.
  destruct (Grade.id g =? id); [|reflexivity].
  pose proof (Hf g) as Hk. unfold Grade.key in Hk.
  injection Hk as -> ->. reflexivity.
Qed.

Lemma grade_first_key (db : Tables) (enrollment_id evaluation_id : Z)
    (g : Grade.t) :
  grade_first db enrollment_id evaluation_id = Some g ->
  In g (grades db) /\ Grade.key g = (enrollment_id, evaluation_id).
Proof.
  intro H. apply find_some in H. destruct H as [Hin Hk].
  apply andb_true_iff in Hk. destruct Hk as [H1 H2].
  apply Z.eqb_eq in H1, H2. unfold Grade.key. now rewrite H1, H2.
Qed.

Lemma grade_first_none (db : Tables) (enrollment_id evaluation_id : Z) :
  grade_first db enrollment_id evaluation_id = None ->
  ~ In (enrollment_id, evaluation_id) (map Grade.key (grades db)).
Proof.
  intros H Hin. apply in_map_iff in Hin. destruct Hin as [g [Hk Hg]].
  pose proof (find_none _ _ H g Hg) as Hf. simpl in Hf.
  unfold Grade.key in Hk. injection Hk as H1 H2.
  rewrite H1, H2, !Z.eqb_refl in Hf. discriminate.
Qed.

Lemma unique_pairs_add (db : Tables) (g : Grade.t)
    (enrollment_id evaluation_id : Z) :
  unique_pairs db ->
  grade_first db enrollment_id evaluation_id = None ->
  Grade.key g = (enrollment_id, evaluation_id) ->
  unique_pairs (add_grade g db).
Proof.
  unfold unique_pairs, add_grade. simpl. intros Hu Hn Hk.
  rewrite map_app. simpl.
  apply NoDup_app.
  - exact Hu.
  - constructor; [simpl; tauto|constructor].
  - intros k Hin [<-|[]]. rewrite Hk in Hin.
    exact (grade_first_none _ _ _ Hn Hin).
Qed.

Lemma assign_columns (db : Tables) (u : User.t) (now : Z)
    (c : option string) (score : option Q) (g : Grade.t) :
  let g' := Grade.set_graded_at (Some now)
              (stamp_grader db u
                 (Grade.set_comments c (Grade.set_score score g))) in
  Grade.key g' = Grade.key g
  /\ Grade.id g' = Grade.id g
  /\ Grade.score g' = score
  /\ Grade.comments g' = c
  /\ Grade.graded_at g' = Some now
  /\ Grade.graded_by g'
     = if Role.eqb (User.role u) Role.teacher
       then option_map Teacher.id (teacher_of_user db (User.id u))
       else Grade.graded_by g.
Proof.
  unfold stamp_grader. destruct (Role.eqb _ _); repeat split.
Qed.

(** A call that fails leaves the store as it was: every check of
    [create_grade] precedes its first write. *)
Lemma create_grade_failure_no_write (current_user : User.t) (now : Z)
    (data : GradeData.t) (db : Tables) :
  let '(db', r) := run (create_grade current_user now data) db in
  succeeded r = false -> db' = db.
Proof.
  unfold run, create_grade, raise. cbn [txn begin].
  repeat case_step.
  all: simpl; try reflexivity; try discriminate.
Qed.

(** C9, as amended.  For a call that names an existing enrollment and an
    existing evaluation and passes the teacher check: it fails with
    InvalidInput exactly when the score is a number below 0 or above the
    evaluation's [max_score]; a failing call writes nothing; a score that
    is not rejected, a null score in particular, is stored in the Grade row
    of the pair. *)
Theorem create_grade_validation (db : Tables) (current_user : User.t)
    (now : Z) (data : GradeData.t) (enrollment_id evaluation_id : Z)
    (score : option Q) (enrollment : Enrollment.t)
    (evaluation : Evaluation.t) :
  GradeData.enrollment_id data = Some enrollment_id ->
  GradeData.evaluation_id data = Some evaluation_id ->
  GradeData.score data = Some score ->
  get_enrollment db enrollment_id = Some enrollment ->
  get_evaluation db evaluation_id = Some evaluation ->
  teacher_check db current_user (Evaluation.class_group_id evaluation)
  = Pass ->
  let '(db', r) := run (create_grade current_user now data) db in
  (fails_with InvalidInput r
   <-> score_rejected score (Evaluation.max_score evaluation))
  /\ (succeeded r = false -> db' = db)
  /\ (~ score_rejected score (Evaluation.max_score evaluation) ->
      succeeded r = true
      /\ exists g, grade_first db' enrollment_id evaluation_id = Some g
                   /\ Grade.score g = score)
  /\ (score = None ->
      succeeded r = true
      /\ exists g, grade_first db' enrollment_id evaluation_id = Some g
                   /\ Grade.score g = None).
Proof.
  intros He Hv Hs Hen Hev Hck.
  pose proof (create_grade_failure_no_write current_user now data db) as Hnw.
  revert Hnw.
  unfold run, create_grade, raise. cbn [txn begin].
  rewrite He, Hv, Hs, Hen, Hev, Hck.
  pose proof (out_of_range_iff score (Evaluation.max_score evaluation)) as Hr.
  destruct (out_of_range score (Evaluation.max_score evaluation)) eqn:Eo.
  - (* rejected *)
    intro Hnw.
    assert (Hrej : score_rejected score (Evaluation.max_score evaluation))
      by now apply Hr.
    split.
    { split; [intros _; exact Hrej|].
      intros _. eexists. split; reflexivity. }
    split; [exact Hnw|].
    split; [intro Hn; contradiction|].
    intros ->. destruct Hrej as [x [Hx _]]. discriminate.
  - (* accepted *)
    assert (Hacc : ~ score_rejected score (Evaluation.max_score evaluation)).
    { intro Hrej. apply Hr in Hrej. discriminate. }
    assert (Hgoal : forall db' r,
      succeeded r = true ->
      (exists g, grade_first db' enrollment_id evaluation_id = Some g
                 /\ Grade.score g = score) ->
      (succeeded r = false -> db' = db) ->
      (fails_with InvalidInput r
       <-> score_rejected score (Evaluation.max_score evaluation))
      /\ (succeeded r = false -> db' = db)
      /\ (~ score_rejected score (Evaluation.max_score evaluation) ->
          succeeded r = true
          /\ exists g, grade_first db' enrollment_id evaluation_id = Some g
                       /\ Grade.score g = score)
      /\ (score = None ->
          succeeded r = true
          /\ exists g, grade_first db' enrollment_id evaluation_id = Some g
                       /\ Grade.score g = None)).
    { intros db' r Hok Hrow Hnw. split.
      - split; [|intro; contradiction].
        intros [e [-> _]]. discriminate.
      - split; [exact Hnw|]. split; [intros _; now split|].
        intros ->. now split. }
    destruct (grade_first db enrollment_id evaluation_id) as [existing|] eqn:Eg.
    + intro Hnw. apply Hgoal; [reflexivity| |exact Hnw].
      rewrite commit_recompute_commit. cbn [txn modify begin].
      change (grade_first (settle ?e ?d) ?a ?b) with (grade_first d a b).
      rewrite grade_first_update, Eg by (intro g; apply assign_columns).
      simpl option_map. rewrite Z.eqb_refl.
      eexists. split; [reflexivity|]. apply assign_columns.
    + intro Hnw. apply Hgoal; [reflexivity| |exact Hnw].
      rewrite commit_recompute_commit. cbn [txn modify begin].
      change (grade_first (settle ?e ?d) ?a ?b) with (grade_first d a b).
      eexists. split.
      * unfold grade_first, add_grade. cbn [grades with_grades].
        apply find_app_none; [exact Eg|].
        destruct (stamp_grader_key db current_user
          (Grade.mk (next_id (map Grade.id (grades db))) enrollment_id
                    evaluation_id score (GradeData.get_comments data) None
                    (Some now))) as [Hk _].
        unfold Grade.key in Hk. simpl in Hk. injection Hk as -> ->.
        now rewrite !Z.eqb_refl.
      * apply stamp_grader_key.
Qed.

Lemma create_grade_validation_witness :
  let '(db', r) :=
    run (create_grade the_teacher 1000 (grade_data 1 1 11)) class_db in
  (fails_with InvalidInput r <-> score_rejected (Some 11%Q) 10)
  /\ (succeeded r = false -> db' = class_db)
  /\ (~ score_rejected (Some 11%Q) 10 ->
      succeeded r = true
      /\ exists g, grade_first db' 1 1 = Some g
                   /\ Grade.score g = Some 11%Q)
  /\ (Some 11%Q = None ->
      succeeded r = true
      /\ exists g, grade_first db' 1 1 = Some g /\ Grade.score g = None).
Proof.
  apply (create_grade_validation class_db the_teacher 1000
           (grade_data 1 1 11) 1 1 (Some 11%Q)
           (Enrollment.mk 1 1 1 EnrollmentStatus.enrolled None
                          FinalStatus.in_progress)
           (Evaluation.mk 1 1 2 10)); reflexivity.
Defined.

(** C9 as stated fails: a teacher who does not teach the class submits the
    score -1 for an existing enrollment and evaluation.  The score is below
    0, yet the call ends with PermissionDenied (403), not InvalidInput: the
    teacher check comes before the score check. *)
Lemma create_grade_denied_before_validation :
  let r := snd (run (create_grade another_teacher 1000
                       (grade_data 1 1 (-1))) class_db) in
  r = Failed PermissionDenied
  /\ score_rejected (Some (-1)%Q) 10
  /\ ~ (fails_with InvalidInput r <-> score_rejected (Some (-1)%Q) 10).
Proof.
  assert (Hrej : score_rejected (Some (-1)%Q) 10).
  { exists (-1)%Q. split; [reflexivity|]. left. reflexivity. }
  split; [reflexivity|]. split; [exact Hrej|].
  intros [_ H]. destruct (H Hrej) as [e [He Hk]].
  vm_compute in He. injection He as <-. discriminate.
Qed.

(** An accepted null score: the row of the pair is created ungraded. *)
Example create_grade_null_score :
  let data := GradeData.mk (Some 1) (Some 1) (Some None) None in
  grades (fst (run (create_grade the_teacher 1000 data) class_db))
  = [Grade.mk 1 1 1 None None (Some 1) (Some 1000)].
Proof. reflexivity. Qed.

Lemma overwritten_assign (db : Tables) (u : User.t) (now : Z)
    (c : option string) (score : option Q) (g : Grade.t) :
  Grade.set_graded_at (Some now)
    (stamp_grader db u (Grade.set_comments c (Grade.set_score score g)))
  = overwritten score c (call_grader db u) now g.
Proof.
  unfold stamp_grader, overwritten, call_grader.
  destruct (Role.eqb _ _); reflexivity.
Qed.

Lemma rows_of_pair_unique (l : list Grade.t) (g : Grade.t) :
  NoDup (map Grade.key l) -> In g l ->
  length (filter (fun h => (Grade.enrollment_id h =? Grade.enrollment_id g)
                           && (Grade.evaluation_id h =? Grade.evaluation_id g))
                 l) = 1%nat.
Proof.
  induction l as [|h l IH]; intros Hnd Hin; [contradiction|].
  simpl in Hnd. inversion Hnd as [|k ks Hk Hnd']; subst.
  assert (Hnone : ~ In (Grade.key g) (map Grade.key l) ->
    filter (fun h => (Grade.enrollment_id h =? Grade.enrollment_id g)
                     && (Grade.evaluation_id h =? Grade.evaluation_id g)) l
    = []).
  { clear. intro Hn. induction l as [|x l IH]; [reflexivity|].
    simpl. destruct (_ && _) eqn:E.
    - exfalso. apply Hn. left. apply andb_true_iff in E. destruct E as [E1 E2].
      apply Z.eqb_eq in E1, E2. unfold Grade.key. now rewrite E1, E2.
    - apply IH. intro H. apply Hn. now right. }
  simpl. destruct Hin as [->|Hin].
  - rewrite !Z.eqb_refl. simpl. now rewrite (Hnone Hk).
  - destruct (_ && _) eqn:E.
    + exfalso. apply Hk. apply andb_true_iff in E. destruct E as [E1 E2].
      apply Z.eqb_eq in E1, E2.
      replace (Grade.key h) with (Grade.key g)
        by (unfold Grade.key; now rewrite E1, E2).
      now apply in_map.
    + now apply IH.
Qed.

Lemma rows_of_pair_one (l : list Grade.t) (g : Grade.t)
    (enrollment_id evaluation_id : Z) :
  NoDup (map Grade.key l) -> In g l ->
  Grade.key g = (enrollment_id, evaluation_id) ->
  length (filter (fun h => (Grade.enrollment_id h =? enrollment_id)
                           && (Grade.evaluation_id h =? evaluation_id)) l)
  = 1%nat.
Proof.
  intros Hnd Hin Hk. unfold Grade.key in Hk. injection Hk as <- <-.
  now apply rows_of_pair_unique.
Qed.

Lemma stamp_grader_key_of (db : Tables) (u : User.t) (g : Grade.t)
    (k : Z * Z) :
  Grade.key g = k -> Grade.key (stamp_grader db u g) = k.
Proof. intros <-. apply stamp_grader_key. Qed.

Lemma create_grade_unique (current_user : User.t) (now : Z)
    (data : GradeData.t) (db : Tables) :
  unique_pairs db ->
  let '(db', r) := run (create_grade current_user now data) db in
  unique_pairs db'.
Proof.
  intro Hu. unfold run, create_grade, raise. cbn [txn begin].
  repeat case_step.
  all: try exact Hu.
  - rewrite commit_recompute_commit. cbn [txn modify begin].
    change (unique_pairs (settle ?e ?d)) with (unique_pairs d).
    unfold unique_pairs.
    rewrite update_grade_row_keys by (intro g; apply assign_columns).
    exact Hu.
  - rewrite commit_recompute_commit. cbn [txn modify begin].
    change (unique_pairs (settle ?e ?d)) with (unique_pairs d).
    eapply unique_pairs_add; [exact Hu|eassumption|].
    apply stamp_grader_key_of. reflexivity.
Qed.

Lemma unique_pairs_delete (id : Z) (db : Tables) :
  unique_pairs db -> unique_pairs (delete_grade_row id db).
Proof.
  unfold unique_pairs, delete_grade_row. simpl.
  induction (grades db) as [|g l IH]; intro Hu; [exact Hu|].
  simpl in Hu. inversion Hu as [|k ks Hk Hnd]; subst.
  simpl. destruct (negb (Grade.id g =? id)); [|now apply IH].
  simpl. constructor; [|now apply IH].
  intro Hin. apply Hk. apply in_map_iff in Hin.
  destruct Hin as [h [Hh Hin]]. apply filter_In in Hin.
  rewrite <- Hh. apply in_map. tauto.
Qed.

Lemma update_grade_unique (current_user : User.t) (now : Z) (grade_id : Z)
    (data : GradeData.t) (db : Tables) :
  unique_pairs db ->
  let '(db', r) := run (update_grade current_user now grade_id data) db in
  unique_pairs db'.
Proof.
  intro Hu. unfold run, update_grade, raise. cbv zeta. cbn [txn begin].
  repeat case_step.
  all: try exact Hu.
  all: try rewrite commit_recompute_commit.
  all: cbn [txn modify begin commit rollback store].
  all: try change (unique_pairs (settle ?e ?d)) with (unique_pairs d).
  all: unfold unique_pairs.
  all: rewrite update_grade_row_keys
         by (intro g; destruct (GradeData.comments data);
             apply stamp_grader_key_of; reflexivity).
  all: exact Hu.
Qed.

Lemma delete_grade_unique (current_user : User.t) (grade_id : Z)
    (db : Tables) :
  unique_pairs db ->
  let '(db', r) := run (delete_grade current_user grade_id) db in
  unique_pairs db'.
Proof.
  intro Hu. unfold run, delete_grade, raise. cbv zeta. cbn [txn begin].
  repeat case_step.
  all: try exact Hu.
  all: try rewrite commit_recompute_commit.
  all: cbn [txn modify begin commit rollback store].
  all: try change (unique_pairs (settle ?e ?d)) with (unique_pairs d).
  all: now apply unique_pairs_delete.
Qed.

(** *** The final grade after a single grade operation

    [create_grade], [update_grade] and [delete_grade] commit the change of
    the Grade row before they recompute: the collection is loaded afresh
    and the stored final grade is the aggregate over the rows they leave. *)




(** ** Batch submission *)

Lemma same_static_refl (a : Tables) : same_static a a.
Proof. repeat split; auto. Qed.

Lemma same_static_trans (a b c : Tables) :
  same_static a b -> same_static b c -> same_static a c.
Proof.
  intros [H1 [H2 [H3 H4]]] [K1 [K2 [K3 K4]]].
  repeat split; try congruence.
  - intro H. apply K4, H4, H.
  - intro H. apply H4, K4, H.
Qed.

Lemma same_static_update_enrollment (id : Z) (v : option Q) (db : Tables) :
  same_static (update_enrollment_row id (Enrollment.set_final_grade v) db) db.
Proof.
  repeat split; intro H.
  - unfold get_enrollment, update_enrollment_row in H. simpl in H.
    rewrite find_map_preserved in H.
    + unfold get_enrollment. now destruct (find _ (enrollments db)).
    + intro e. now destruct (Enrollment.id e =? id).
  - unfold get_enrollment, update_enrollment_row. simpl.
    rewrite find_map_preserved.
    + unfold get_enrollment in H. now rewrite H.
    + intro e. now destruct (Enrollment.id e =? id).
Qed.

Lemma same_static_with_grades (l : list Grade.t) (db : Tables) :
  same_static (with_grades l db) db.
Proof. repeat split; auto. Qed.

Lemma recompute_txn (enrollment_id : Z) (s : Session) :
  exists v,
    txn (recompute_final_grade enrollment_id s)
    = update_enrollment_row enrollment_id (Enrollment.set_final_grade v)
                            (txn s)
    /\ store (recompute_final_grade enrollment_id s) = store s.
Proof.
  unfold recompute_final_grade, enrollment_grades.
  destruct (lookup_loaded enrollment_id (loaded_grades s));
    eexists; split; reflexivity.
Qed.

Lemma item_errors_static (a b : Tables) (teacher : option Teacher.t)
    (i : nat) (item : GradeData.t) :
  same_static a b ->
  item_errors a teacher i item = item_errors b teacher i item.
Proof.
  intros [H1 [H2 [H3 H4]]]. unfold item_errors. f_equal.
  destruct (GradeData.enrollment_id item) as [eid|]; [|reflexivity].
  destruct (GradeData.evaluation_id item) as [vid|]; [|reflexivity].
  assert (Hev : get_evaluation a vid = get_evaluation b vid)
    by (unfold get_evaluation; now rewrite H1).
  assert (Hck : forall c, batch_check a teacher c = batch_check b teacher c)
    by (intro c; unfold batch_check, get_class_group; now rewrite H2).
  rewrite Hev.
  destruct (get_enrollment a eid) eqn:Ea, (get_enrollment b eid) eqn:Eb.
  - destruct (get_evaluation b vid); [|reflexivity]. now rewrite Hck.
  - apply H4 in Eb. congruence.
  - apply H4 in Ea. congruence.
  - reflexivity.
Qed.

(** One turn of the loop: nothing is committed, the tables read by the
    checks stay as they are, the pairs stay unique, and the entries added
    are those of the item. *)
Lemma batch_item_inv (teacher : option Teacher.t) (now : Z) (i : nat)
    (item : GradeData.t) (b : Batch) :
  let b' := batch_item teacher now i item b in
  store (session b') = store (session b)
  /\ same_static (txn (session b')) (txn (session b))
  /\ (unique_pairs (txn (session b)) -> unique_pairs (txn (session b')))
  /\ errors b' = errors b ++ item_errors (txn (session b)) teacher i item.
Proof.
  assert (Hskip : forall l,
    let b' := append_errors [l]
                (append_errors
                   (map (fun field => (S i, FieldRequired field))
                        (missing_fields item)) b) in
    store (session b') = store (session b)
    /\ same_static (txn (session b')) (txn (session b))
    /\ (unique_pairs (txn (session b)) -> unique_pairs (txn (session b')))
    /\ errors b' = errors b
                   ++ (map (fun field => (S i, FieldRequired field))
                           (missing_fields item) ++ [l])).
  { intro l. simpl. repeat split; auto. now rewrite app_assoc. }
  unfold batch_item, item_errors. cbv zeta.
  destruct (GradeData.enrollment_id item) as [eid|] eqn:E1; [|apply Hskip].
  destruct (GradeData.evaluation_id item) as [vid|] eqn:E2; [|apply Hskip].
  cbn [session append_errors].
  destruct (get_enrollment (txn (session b)) eid) as [enrollment|] eqn:E3;
    [|apply Hskip].
  destruct (get_evaluation (txn (session b)) vid) as [evaluation|] eqn:E4;
    [|apply Hskip].
  destruct (batch_check (txn (session b)) teacher
              (Evaluation.class_group_id evaluation)) eqn:E5;
    [|apply Hskip|apply Hskip].
  destruct (GradeData.score item) as [score|] eqn:E6; [|apply Hskip].
  destruct (out_of_range score (Evaluation.max_score evaluation)) eqn:E7;
    [apply Hskip|].
  assert (Hm : missing_fields item = []).
  { unfold missing_fields. now rewrite E1, E2, E6. }
  rewrite Hm. cbn [map app append_errors errors]. rewrite !app_nil_r.
  destruct (grade_first (txn (session b)) eid vid) as [existing|] eqn:E8;
    cbn [session errors].
  - match goal with
    | |- context [recompute_final_grade ?e ?s] =>
      destruct (recompute_txn e s) as [v [Ht Hs]]
    end.
    rewrite Ht, Hs. cbn [store txn modify].
    split; [reflexivity|]. split.
    + eapply same_static_trans; [apply same_static_update_enrollment|].
      apply same_static_with_grades.
    + split; [|reflexivity]. intro Hu.
      change (unique_pairs (update_enrollment_row ?e ?f ?d))
        with (unique_pairs d).
      unfold unique_pairs. now rewrite update_grade_row_keys.
  - match goal with
    | |- context [recompute_final_grade ?e ?s] =>
      destruct (recompute_txn e s) as [v [Ht Hs]]
    end.
    rewrite Ht, Hs. cbn [store txn modify].
    split; [reflexivity|]. split.
    + eapply same_static_trans; [apply same_static_update_enrollment|].
      apply same_static_with_grades.
    + split; [|reflexivity]. intro Hu.
      change (unique_pairs (update_enrollment_row ?e ?f ?d))
        with (unique_pairs d).
      eapply unique_pairs_add; [exact Hu|exact E8|reflexivity].
Qed.

Lemma batch_loop_inv (teacher : option Teacher.t) (now : Z)
    (items : list GradeData.t) :
  forall (i : nat) (b : Batch),
    let b' := batch_loop teacher now i items b in
    store (session b') = store (session b)
    /\ same_static (txn (session b')) (txn (session b))
    /\ (unique_pairs (txn (session b)) -> unique_pairs (txn (session b')))
    /\ errors b' = errors b ++ batch_errors (txn (session b)) teacher i items.
Proof.
  induction items as [|item rest IH]; intros i b.
  - simpl. repeat split; auto using same_static_refl. now rewrite app_nil_r.
  - cbn [batch_loop batch_errors]. cbv zeta.
    destruct (batch_item_inv teacher now i item b) as [H1 [H2 [H3 H4]]].
    destruct (IH (S i) (batch_item teacher now i item b))
      as [K1 [K2 [K3 K4]]].
    cbv zeta in H1, H2, H3, H4, K1, K2, K3, K4.
    split; [congruence|]. split; [eapply same_static_trans; eassumption|].
    split; [auto|].
    rewrite K4, H4, <- app_assoc. f_equal. f_equal.
    generalize (S i) as j. clear - H2.
    induction rest as [|x rest IHr]; intro j; [reflexivity|].
    simpl. now rewrite (item_errors_static _ _ teacher j x H2), IHr.
Qed.

Lemma item_errors_valid (db : Tables) (teacher : option Teacher.t) (i : nat)
    (item : GradeData.t) :
  item_valid db teacher item = true -> item_errors db teacher i item = [].
Proof.
  unfold item_valid, item_errors, missing_fields.
  destruct (GradeData.enrollment_id item); [|discriminate].
  destruct (GradeData.evaluation_id item); [|discriminate].
  destruct (GradeData.score item); [|discriminate].
  destruct (get_enrollment db _); [|discriminate].
  destruct (get_evaluation db _); [|discriminate].
  destruct (batch_check db teacher _); try discriminate.
  destruct (out_of_range _ _); [discriminate|reflexivity].
Qed.

Lemma item_errors_invalid (db : Tables) (teacher : option Teacher.t) (i : nat)
    (item : GradeData.t) :
  item_valid db teacher item = false ->
  (exists e, In (S i, e) (item_errors db teacher i item))
  /\ (complete item = true ->
      length (item_errors db teacher i item) = 1%nat).
Proof.
  unfold item_valid, item_errors, missing_fields, complete.
  intro H.
  assert (Hlast : forall (l : list (nat * Error)) (e : Error),
            exists e', In (S i, e') (l ++ [(S i, e)])).
  { intros l e. exists e. apply in_or_app. right. now left. }
  destruct (GradeData.enrollment_id item);
    [|split; [apply Hlast|discriminate]].
  destruct (GradeData.evaluation_id item);
    [|split; [apply Hlast|discriminate]].
  destruct (GradeData.score item) eqn:Es.
  - cbn [app map].
    destruct (get_enrollment db _); [|split; [apply (Hlast [])|reflexivity]].
    destruct (get_evaluation db _); [|split; [apply (Hlast [])|reflexivity]].
    destruct (batch_check db teacher _);
      try (split; [apply (Hlast [])|reflexivity]).
    destruct (out_of_range _ _); [|discriminate].
    split; [apply (Hlast [])|reflexivity].
  - split; [|discriminate].
    destruct (get_enrollment db _); [|apply Hlast].
    destruct (get_evaluation db _); [|apply Hlast].
    destruct (batch_check db teacher _); apply Hlast.
Qed.

Lemma item_errors_index (db : Tables) (teacher : option Teacher.t) (i : nat)
    (item : GradeData.t) (n : nat) (e : Error) :
  In (n, e) (item_errors db teacher i item) ->
  n = S i /\ item_valid db teacher item = false.
Proof.
  intro Hin. split.
  - unfold item_errors in Hin. apply in_app_or in Hin.
    destruct Hin as [Hin|Hin].
    + apply in_map_iff in Hin. destruct Hin as [f [Hf _]]. congruence.
    + repeat match type of Hin with
             | In _ (match ?x with _ => _ end) => destruct x
             end;
        simpl in Hin; intuition congruence.
  - destruct (item_valid db teacher item) eqn:Ev; [|reflexivity].
    rewrite (item_errors_valid db teacher i item Ev) in Hin. contradiction.
Qed.

Lemma batch_errors_sound (db : Tables) (teacher : option Teacher.t)
    (items : list GradeData.t) :
  forall (i n : nat) (e : Error),
    In (n, e) (batch_errors db teacher i items) ->
    exists k item, n = S (i + k)
                   /\ nth_error items k = Some item
                   /\ item_valid db teacher item = false.
Proof.
  induction items as [|item rest IH]; intros i n e Hin; [contradiction|].
  simpl in Hin. apply in_app_or in Hin. destruct Hin as [Hin|Hin].
  - apply item_errors_index in Hin. destruct Hin as [-> Hv].
    exists 0%nat, item. rewrite Nat.add_0_r. now repeat split.
  - destruct (IH (S i) n e Hin) as [k [it [Hn [Hk Hv]]]].
    exists (S k), it. repeat split; [lia|exact Hk|exact Hv].
Qed.

Lemma batch_errors_complete (db : Tables) (teacher : option Teacher.t)
    (items : list GradeData.t) :
  forall (i k : nat) (item : GradeData.t),
    nth_error items k = Some item ->
    item_valid db teacher item = false ->
    exists e, In (S (i + k), e) (batch_errors db teacher i items).
Proof.
  induction items as [|x rest IH]; intros i k item Hk Hv.
  - destruct k; discriminate.
  - destruct k as [|k]; simpl in Hk.
    + injection Hk as ->.
      destruct (item_errors_invalid db teacher i item Hv) as [[e He] _].
      exists e. simpl. apply in_or_app. left. now rewrite Nat.add_0_r.
    + destruct (IH (S i) k item Hk Hv) as [e He].
      exists e. simpl. apply in_or_app. right.
      now replace (S (i + S k)) with (S (S i + k)) by lia.
Qed.

Lemma batch_errors_length (db : Tables) (teacher : option Teacher.t)
    (items : list GradeData.t) :
  forallb complete items = true ->
  forall i,
    length (batch_errors db teacher i items)
    = length (filter (fun it => negb (item_valid db teacher it)) items).
Proof.
  induction items as [|item rest IH]; intros Hc i; [reflexivity|].
  simpl in Hc. apply andb_true_iff in Hc. destruct Hc as [Hc Hrest].
  simpl. rewrite length_app, (IH Hrest).
  destruct (item_valid db teacher item) eqn:Ev; simpl.
  - now rewrite (item_errors_valid db teacher i item Ev).
  - destruct (item_errors_invalid db teacher i item Ev) as [_ H1].
    now rewrite (H1 Hc).
Qed.

(** What a batch leaves and answers, from the entries of its items. *)
Lemma batch_outcome (current_user : User.t) (now : Z)
    (items : list GradeData.t) (db : Tables) :
  items <> [] ->
  let teacher := batch_teacher db current_user in
  let '(db', r) := run (create_grades_batch current_user now items) db in
  match batch_errors db teacher 0 items with
  | [] => succeeded r = true
  | entries => db' = db /\ r = BatchFailed entries
  end.
Proof.
  intro Hne. unfold run, create_grades_batch. cbv zeta.
  destruct items as [|item rest]; [contradiction|].
  cbn [txn begin].
  fold (batch_teacher db current_user).
  destruct (batch_loop_inv (batch_teacher db current_user) now (item :: rest)
              0 (mkBatch (begin db) 0 0 [])) as [H1 [_ [_ H4]]].
  cbv zeta in H1, H4. cbn [session errors txn begin store app] in H1, H4.
  rewrite H4.
  destruct (batch_errors db (batch_teacher db current_user) 0 (item :: rest));
    [reflexivity|].
  cbn [rollback store]. now rewrite H1.
Qed.

(** C5.  If any item of a batch fails validation (a field is missing, the
    enrollment or the evaluation does not exist, the teacher may not grade
    the class, or the score is out of range), the store after the request
    is the store before it: no Grade row is created or updated and no final
    grade changes.  The answer is a list of entries: every failing item has
    an entry under its position, every entry belongs to a failing item, and
    when no item misses a field there is exactly one entry per failing
    item. *)
Theorem batch_all_or_nothing (db : Tables) (current_user : User.t) (now : Z)
    (items : list GradeData.t) :
  let teacher := batch_teacher db current_user in
  existsb (fun item => negb (item_valid db teacher item)) items = true ->
  let '(db', r) := run (create_grades_batch current_user now items) db in
  db' = db
  /\ exists entries,
       r = BatchFailed entries
       /\ (forall k item,
             nth_error items k = Some item ->
             item_valid db teacher item = false ->
             exists e, In (S k, e) entries)
       /\ (forall n e,
             In (n, e) entries ->
             exists k item, n = S k
                            /\ nth_error items k = Some item
                            /\ item_valid db teacher item = false)
       /\ (forallb complete items = true ->
           length entries
           = length (filter (fun item => negb (item_valid db teacher item))
                            items)).
Proof.
  intros teacher Hex.
  assert (Hne : items <> []).
  { intros ->. discriminate. }
  pose proof (batch_outcome current_user now items db Hne) as Hout.
  cbv zeta in Hout. fold teacher in Hout.
  destruct (run (create_grades_batch current_user now items) db) as [db' r].
  apply existsb_exists in Hex. destruct Hex as [bad [Hin Hbad]].
  apply negb_true_iff in Hbad.
  apply In_nth_error in Hin. destruct Hin as [k Hk].
  destruct (batch_errors_complete db teacher items 0 k bad Hk Hbad)
    as [e0 He0].
  destruct (batch_errors db teacher 0 items) as [|entry entries] eqn:Eb;
    [contradiction|].
  destruct Hout as [-> ->]. split; [reflexivity|].
  exists (entry :: entries). split; [reflexivity|].
  rewrite <- Eb. split; [|split].
  - intros j item Hj Hv.
    exact (batch_errors_complete db teacher items 0 j item Hj Hv).
  - intros n e Hn.
    exact (batch_errors_sound db teacher items 0 n e Hn).
  - intro Hc. exact (batch_errors_length db teacher items Hc 0).
Qed.

Lemma batch_all_or_nothing_witness :
  let '(db', r) :=
    run (create_grades_batch the_teacher 1000 five_valid_one_invalid)
        class_db in
  db' = class_db
  /\ exists entries,
       r = BatchFailed entries
       /\ (forall k item,
             nth_error five_valid_one_invalid k = Some item ->
             item_valid class_db (batch_teacher class_db the_teacher) item
             = false ->
             exists e, In (S k, e) entries)
       /\ (forall n e,
             In (n, e) entries ->
             exists k item,
               n = S k
               /\ nth_error five_valid_one_invalid k = Some item
               /\ item_valid class_db (batch_teacher class_db the_teacher)
                             item = false)
       /\ (forallb complete five_valid_one_invalid = true ->
           length entries
           = length
               (filter (fun item =>
                          negb (item_valid class_db
                                  (batch_teacher class_db the_teacher) item))
                       five_valid_one_invalid)).
Proof.
  apply (batch_all_or_nothing class_db the_teacher 1000
           five_valid_one_invalid).
  reflexivity.
Defined.

(** One score above the maximum among five valid items: no row is
    committed and the answer holds one entry, for the third item. *)
Example five_valid_one_invalid_rejected :
  run (create_grades_batch the_teacher 1000 five_valid_one_invalid) class_db
  = (class_db, BatchFailed [(3%nat, ScoreOutOfRange 10)]).
Proof. reflexivity. Qed.

Lemma batch_unique (current_user : User.t) (now : Z)
    (items : list GradeData.t) (db : Tables) :
  unique_pairs db ->
  let '(db', r) := run (create_grades_batch current_user now items) db in
  unique_pairs db'.
Proof.
  intro Hu. unfold run, create_grades_batch. cbv zeta.
  destruct items as [|item rest]; [exact Hu|].
  cbn [txn begin].
  match goal with
  | |- context [batch_loop ?t now 0%nat (item :: rest) ?b] =>
    destruct (batch_loop_inv t now (item :: rest) 0 b) as [H1 [_ [H3 _]]]
  end.
  cbv zeta in H1, H3. cbn [session txn begin store] in H1, H3.
  destruct (errors _).
  - cbn [commit store]. exact (H3 Hu).
  - cbn [rollback store]. now rewrite H1.
Qed.

(** C7, as amended.  On a store whose Grade rows have distinct
    (enrollment_id, evaluation_id) pairs: a successful [create_grade] call
    that names a pair with a row overwrites score, comments and graded_at of
    that row in place, and its grader when the caller is a teacher (the
    column is left as it was for other callers); no row is added, and the
    pair still has one row.  The pairs stay distinct through
    [create_grade], the batch, [update_grade] and [delete_grade]. *)
Theorem upsert_updates_in_place (db : Tables) (current_user : User.t)
    (now : Z) (data : GradeData.t) (items : list GradeData.t)
    (grade_id : Z) (changes : GradeData.t) :
  unique_pairs db ->
  (forall enrollment_id evaluation_id score existing,
     GradeData.enrollment_id data = Some enrollment_id ->
     GradeData.evaluation_id data = Some evaluation_id ->
     GradeData.score data = Some score ->
     grade_first db enrollment_id evaluation_id = Some existing ->
     let '(db', r) := run (create_grade current_user now data) db in
     succeeded r = true ->
     r = GradeUpdated
           (overwritten score (GradeData.get_comments data)
                        (call_grader db current_user) now existing)
     /\ grades db'
        = map (fun g => if Grade.id g =? Grade.id existing
                        then overwritten score (GradeData.get_comments data)
                               (call_grader db current_user) now g
                        else g) (grades db)
     /\ length (grades db') = length (grades db)
     /\ rows_of_pair db' enrollment_id evaluation_id = 1%nat)
  /\ unique_pairs (fst (run (create_grade current_user now data) db))
  /\ unique_pairs (fst (run (create_grades_batch current_user now items) db))
  /\ unique_pairs
       (fst (run (update_grade current_user now grade_id changes) db))
  /\ unique_pairs (fst (run (delete_grade current_user grade_id) db)).
Proof.
  intro Hu. split.
  - intros enrollment_id evaluation_id score existing He Hv Hs Hg.
    unfold run, create_grade, raise. cbn [txn begin].
    rewrite He, Hv, Hs. cbn beta iota. rewrite Hg.
    repeat case_step; try discriminate.
    rewrite commit_recompute_commit. cbn [txn modify begin].
    intros _.
    assert (Hrows :
      grades (settle (Enrollment.id t)
                (update_grade_row (Grade.id existing)
                   (fun g => Grade.set_graded_at (Some now)
                      (stamp_grader db current_user
                         (Grade.set_comments (GradeData.get_comments data)
                            (Grade.set_score score g)))) db))
      = map (fun g => if Grade.id g =? Grade.id existing
                      then overwritten score (GradeData.get_comments data)
                             (call_grader db current_user) now g
                      else g) (grades db)).
    { cbn [settle update_enrollment_row update_grade_row grades
           with_grades with_enrollments].
      apply map_ext. intro g. now rewrite overwritten_assign. }
    split; [now rewrite overwritten_assign|].
    split; [exact Hrows|].
    split; [now rewrite Hrows, length_map|].
    unfold rows_of_pair.
    destruct (grade_first_key db _ _ _ Hg) as [Hin Hk].
    apply (rows_of_pair_one _
             (overwritten score (GradeData.get_comments data)
                (call_grader db current_user) now existing));
      [| |exact Hk].
    { rewrite Hrows, map_map.
      rewrite (map_ext _ Grade.key); [exact Hu|].
      intro g. now destruct (Grade.id g =? Grade.id existing). }
    rewrite Hrows.
    apply in_map_iff. exists existing.
    now rewrite Z.eqb_refl.
  - pose proof (create_grade_unique current_user now data db Hu) as H1.
    pose proof (batch_unique current_user now items db Hu) as H2.
    pose proof (update_grade_unique current_user now grade_id changes db Hu)
      as H3.
    pose proof (delete_grade_unique current_user grade_id db Hu) as H4.
    destruct (run (create_grade current_user now data) db).
    destruct (run (create_grades_batch current_user now items) db).
    destruct (run (update_grade current_user now grade_id changes) db).
    destruct (run (delete_grade current_user grade_id) db).
    now repeat split.
Qed.

Lemma unique_pairs_graded_db : unique_pairs graded_db.
Proof. unfold unique_pairs. simpl. repeat constructor. simpl. tauto. Qed.

Lemma upsert_updates_in_place_witness :
  unique_pairs (fst (run (create_grade the_teacher 2000 (grade_data 1 1 9))
                         graded_db))
  /\ unique_pairs
       (fst (run (create_grades_batch the_teacher 2000 two_new_grades)
                 graded_db)).
Proof.
  pose proof (upsert_updates_in_place graded_db the_teacher 2000
                (grade_data 1 1 9) two_new_grades 1 (grade_data 1 1 9)
                unique_pairs_graded_db) as H.
  split; apply H.
Defined.

(** C7 as stated fails on the grader.  Teacher 1 graded the pair (1, 1);
    an administrator, who grades on behalf of no teacher, submits a new
    score for it through [create_grade].  Score and graded_at are
    overwritten; graded_by still names teacher 1.  The batch path, on the
    same request, overwrites it with null. *)
Lemma regrade_by_admin_keeps_grader :
  let db' := fst (run (create_grade an_admin 2000 (grade_data 1 1 9))
                      graded_db) in
  grades graded_db = [Grade.mk 1 1 1 (Some 8%Q) None (Some 1) (Some 1000)]
  /\ grades db' = [Grade.mk 1 1 1 (Some 9%Q) None (Some 1) (Some 2000)]
  /\ batch_teacher graded_db an_admin = None
  /\ (forall g, In g (grades db') ->
                Grade.graded_by g
                <> option_map Teacher.id (batch_teacher graded_db an_admin))
  /\ grades (fst (run (create_grades_batch an_admin 2000 [grade_data 1 1 9])
                      graded_db))
     = [Grade.mk 1 1 1 (Some 9%Q) None None (Some 2000)].
Proof.
  repeat split.
  intros g [<-|[]]. discriminate.
Qed.

(** ** The stored final grade after a batch *)

(** C2, at the failing input.  One batch brings the first two grades of
    enrollment 1: 8 on evaluation A (weight 2) and 5 on evaluation B
    (weight 1).  The batch succeeds and both rows are committed, so the
    aggregate over the rows of the store is
    [round((8*2 + 5*1) / 3, 2) = 7.00]; the stored final grade is 8.00.
    The collection [enrollment.grades] was loaded when the first item was
    recomputed; the second [Grade], created with [enrollment_id=...] and
    added to the session, is not in it, and no commit separates the two
    items. *)
Theorem batch_final_grade_stale :
  let '(db', r) :=
    run (create_grades_batch an_admin 1000 two_new_grades) class_db in
  r = GradesProcessed 2 0
  /\ map Grade.score (grades_of db' 1) = [Some 8%Q; Some 5%Q]
  /\ option_map Enrollment.final_grade (get_enrollment db' 1)
     = Some (Some (800 # 100)%Q)
  /\ aggregate db' 1 = Some (700 # 100)%Q
  /\ ~ final_grade_current db' 1.
Proof.
  repeat split.
  intro H.
  specialize (H (Enrollment.mk 1 1 1 EnrollmentStatus.enrolled
                               (Some (800 # 100)%Q) FinalStatus.in_progress)).
  simpl in H. specialize (H (or_introl eq_refl) eq_refl).
  vm_compute in H. discriminate.
Qed.

(** The same two grades through two [create_grade] requests: 7.00. *)
Example two_requests_final_grade :
  let db1 := fst (run (create_grade an_admin 1000 (grade_data 1 1 8))
                      class_db) in
  let db2 := fst (run (create_grade an_admin 1000 (grade_data 1 2 5)) db1) in
  option_map Enrollment.final_grade (get_enrollment db2 1)
  = Some (Some (700 # 100)%Q)
  /\ aggregate db2 1 = Some (700 # 100)%Q.
Proof. split; reflexivity. Qed.

(** A batch in which every enrollment receives at most one item, here one
    grade for each of two enrollments, leaves current final grades. *)
Example batch_distinct_enrollments :
  let db' := fst (run (create_grades_batch an_admin 1000
                         [grade_data 1 1 8; grade_data 2 1 6]) class_db) in
  option_map Enrollment.final_grade (get_enrollment db' 1)
  = Some (aggregate db' 1)
  /\ option_map Enrollment.final_grade (get_enrollment db' 2)
     = Some (aggregate db' 2).
Proof. split; reflexivity. Qed.

(** * Further properties *)

(** ** Rounding is monotone *)

Lemma round_half_even_mono (x y : Q) :
  (x <= y)%Q -> round_half_even x <= round_half_even y.
Proof.
  intro Hxy.
  pose proof (Qfloor_resp_le x y Hxy) as Hf.
  pose proof (Qfloor_le x) as Hx0. pose proof (Qlt_floor x) as Hx1.
  pose proof (Qfloor_le y) as Hy0. pose proof (Qlt_floor y) as Hy1.
  unfold round_half_even.
  destruct (Z.eq_dec (Qfloor x) (Qfloor y)) as [Heq|Hne].
  - rewrite Heq in *.
    set (n := Qfloor y) in *.
    destruct (Qcompare (x - inject_Z n) (1 # 2)) eqn:Ex;
      destruct (Qcompare (y - inject_Z n) (1 # 2)) eqn:Ey;
      try rewrite <- Qeq_alt in *; try rewrite <- Qlt_alt in *;
      try rewrite <- Qgt_alt in *;
      try (destruct (Z.even n)); try lia;
      exfalso; revert Ex Ey Hxy; generalize (inject_Z n); intros q Ex Ey Hxy;
      lra.
  - assert (Hlt : Qfloor x + 1 <= Qfloor y) by lia.
    destruct (Qcompare (x - inject_Z (Qfloor x)) (1 # 2));
      destruct (Qcompare (y - inject_Z (Qfloor y)) (1 # 2));
      try (destruct (Z.even (Qfloor x))); try (destruct (Z.even (Qfloor y)));
      lia.
Qed.

Lemma round2_mono (x y : Q) : (x <= y)%Q -> (round2 x <= round2 y)%Q.
Proof.
  intro H. unfold round2, Qle. simpl.
  assert (Hm : round_half_even (x * 100) <= round_half_even (y * 100)).
  { apply round_half_even_mono. lra. }
  lia.
Qed.

(** A number of hundredths is its own rounding. *)
Lemma round2_hundredths (k : Z) : round2 (k # 100) = (k # 100)%Q.
Proof.
  unfold round2.
  rewrite (round_half_even_compat ((k # 100) * 100) (inject_Z k)).
  - now rewrite round_half_even_Z.
  - unfold Qeq. simpl. lia.
Qed.

(** ** Grade Aggregator: order, bounds and scale *)







Lemma weighted_sums_between (evaluation : Grade.t -> option Evaluation.t)
    (a b : Z) (grades : list Grade.t) :
  all_joined evaluation grades = true ->
  weights_nonnegative evaluation grades = true ->
  scores_between a b grades = true ->
  (0 <= weight_sum evaluation grades)%Q
  /\ (inject_Z a * weight_sum evaluation grades
      <= weighted_score_sum evaluation grades)%Q
  /\ (weighted_score_sum evaluation grades
      <= inject_Z b * weight_sum evaluation grades)%Q.
Proof.
  unfold weight_sum, weighted_score_sum, scored_grades, all_joined,
         weights_nonnegative, scores_between.
  induction grades as [|g grades IH]; intros Hj Hw Hs.
  - simpl. repeat split; lra.
  - simpl in Hj, Hw, Hs.
    apply andb_true_iff in Hj. destruct Hj as [Hjg Hj].
    apply andb_true_iff in Hw. destruct Hw as [Hwg Hw].
    apply andb_true_iff in Hs. destruct Hs as [Hsg Hs].
    destruct (IH Hj Hw Hs) as [H0 [H1 H2]].
    cbn [filter].
    destruct (Grade.score g) as [s|] eqn:Es.
    + assert (Hh : has_score g = true) by (unfold has_score; now rewrite Es).
      rewrite Hh. cbn [map]. unfold Qsum in *. cbn [fold_right].
      unfold score_of at 1 3, weight_of at 1 3 5 7 9. rewrite Es.
      destruct (evaluation g) as [ev|]; [|discriminate].
      apply andb_true_iff in Hsg. destruct Hsg as [Ha Hb].
      apply Qle_bool_iff in Ha, Hb, Hwg.
      revert Ha Hb H1 H2. generalize (inject_Z a) (inject_Z b).
      intros qa qb Ha Hb H1 H2.
      repeat split; nra.
    + assert (Hh : has_score g = false) by (unfold has_score; now rewrite Es).
      rewrite Hh. now repeat split.
Qed.

(** X2.  With non-negative weights, a final grade lies between any two
    integers that bound the scores it is computed from: scores in
    [a, b] give a final grade in [a, b]. *)
Theorem calculate_final_grade_between
    (evaluation : Grade.t -> option Evaluation.t) (a b : Z)
    (grades : list Grade.t) (final_grade : Q) :
  all_joined evaluation grades = true ->
  weights_nonnegative evaluation grades = true ->
  scores_between a b grades = true ->
  calculate_final_grade evaluation grades = Some final_grade ->
  (inject_Z a <= final_grade)%Q /\ (final_grade <= inject_Z b)%Q.
Proof.
  intros Hj Hw Hs Hfg.
  rewrite (calculate_final_grade_eq evaluation grades Hj) in Hfg.
  unfold weighted_mean in Hfg.
  destruct (Qlt_bool 0 (weight_sum evaluation grades)) eqn:E; [|discriminate].
  injection Hfg as <-. apply Qlt_bool_iff in E.
  destruct (weighted_sums_between evaluation a b grades Hj Hw Hs)
    as [_ [H1 H2]].
  apply round2_bounds.
  - apply Qle_shift_div_l; [exact E|exact H1].
  - apply Qle_shift_div_r; [exact E|exact H2].
Qed.

Lemma calculate_final_grade_between_witness :
  (inject_Z 0 <= 700 # 100)%Q /\ (700 # 100 <= inject_Z 10)%Q.
Proof.
  apply (calculate_final_grade_between scenario_evaluation 0 10
           scenario_grades (700 # 100)); reflexivity.
Defined.




(** ** Attendance: the extremes *)

Lemma attended_all (records : list Attendance.t) :
  all_attended records = true -> filter is_attended records = records.
Proof.
  unfold all_attended. induction records as [|a l IH]; simpl; [reflexivity|].
  intro H. apply andb_true_iff in H. destruct H as [Ha Hl].
  now rewrite Ha, IH.
Qed.

Lemma attended_none (records : list Attendance.t) :
  none_attended records = true -> filter is_attended records = [].
Proof.
  unfold none_attended. induction records as [|a l IH]; simpl; [reflexivity|].
  intro H. apply andb_true_iff in H. destruct H as [Ha Hl].
  apply negb_true_iff in Ha. now rewrite Ha, IH.
Qed.

(** X4.  An enrollment with records that are all present or late has
    attendance 100; one whose records are all absent or justified has
    attendance 0, like an enrollment without records. *)
Theorem attendance_percentage_extremes (attendance_records : list Attendance.t) :
  (attendance_records <> [] -> all_attended attendance_records = true ->
   attendance_percentage attendance_records = (10000 # 100)%Q)
  /\ (none_attended attendance_records = true ->
      (attendance_percentage attendance_records == 0)%Q).
Proof.
  split.
  - intros Hne Hall. unfold attendance_percentage.
    destruct attendance_records as [|a l]; [contradiction|].
    rewrite (attended_all _ Hall).
    assert (Hpos : 0 < Z.of_nat (length (a :: l))) by (simpl; lia).
    destruct (Z.ltb_spec 0 (Z.of_nat (length (a :: l)))); [|lia].
    rewrite (round2_compat _ (10000 # 100)); [reflexivity|].
    assert (Hq : (0 < inject_Z (Z.of_nat (length (a :: l))))%Q).
    { change 0%Q with (inject_Z 0). now rewrite <- Zlt_Qlt. }
    revert Hq. generalize (inject_Z (Z.of_nat (length (a :: l)))).
    intros q Hq. field_simplify_eq; [reflexivity|lra].
  - intro Hnone. unfold attendance_percentage.
    destruct attendance_records as [|a l]; [reflexivity|].
    rewrite (attended_none _ Hnone).
    destruct (0 <? Z.of_nat (length (a :: l))); [|reflexivity].
    rewrite (round2_compat _ 0); [reflexivity|].
    simpl length. change (inject_Z (Z.of_nat 0)) with 0%Q.
    unfold Qdiv. ring.
Qed.

Lemma attendance_percentage_extremes_witness :
  attendance_percentage
    [Attendance.mk 1 1 AttendanceStatus.present;
     Attendance.mk 2 1 AttendanceStatus.late] = (10000 # 100)%Q
  /\ (attendance_percentage
        [Attendance.mk 1 1 AttendanceStatus.absent;
         Attendance.mk 2 1 AttendanceStatus.justified] == 0)%Q.
Proof.
  split.
  - apply (attendance_percentage_extremes
             [Attendance.mk 1 1 AttendanceStatus.present;
              Attendance.mk 2 1 AttendanceStatus.late]);
      [discriminate|reflexivity].
  - apply (attendance_percentage_extremes
             [Attendance.mk 1 1 AttendanceStatus.absent;
              Attendance.mk 2 1 AttendanceStatus.justified]).
    reflexivity.
Defined.

(** ** Means of scores *)

Lemma fold_left_Qplus (l : list Q) :
  forall acc, (fold_left Qplus l acc == acc + Qsum l)%Q.
Proof.
  induction l as [|x l IH]; intro acc; simpl.
  - ring.
  - rewrite IH. ring.
Qed.

Lemma Qsum_between (a b : Z) (l : list Q) :
  valid_scores_between a b l = true ->
  (inject_Z a * inject_Z (Z.of_nat (length l)) <= Qsum l)%Q
  /\ (Qsum l <= inject_Z b * inject_Z (Z.of_nat (length l)))%Q.
Proof.
  unfold valid_scores_between.
  induction l as [|x l IH]; intro H.
  - cbn [length]. unfold Qsum. cbn [fold_right].
    change (inject_Z (Z.of_nat 0)) with 0%Q.
    generalize (inject_Z a) (inject_Z b). intros qa qb. split; lra.
  - simpl in H. apply andb_true_iff in H. destruct H as [Hx Hl].
    apply andb_true_iff in Hx. destruct Hx as [Ha Hb].
    apply Qle_bool_iff in Ha, Hb.
    destruct (IH Hl) as [H1 H2].
    cbn [length]. unfold Qsum in *. cbn [fold_right]. rewrite Nat2Z.inj_succ.
    unfold Z.succ. rewrite inject_Z_plus. change (inject_Z 1) with 1%Q.
    revert Ha Hb H1 H2. generalize (fold_right Qplus 0%Q l).
    intro sum.
    generalize (inject_Z a) (inject_Z b) (inject_Z (Z.of_nat (length l))).
    intros qa qb n Ha Hb H1 H2. split; nra.
Qed.

(** The rounded mean of a non-empty list lies between any two integers
    that bound its elements. *)
Lemma rounded_mean_between (a b : Z) (l : list Q) :
  l <> [] ->
  valid_scores_between a b l = true ->
  (inject_Z a <= rounded_mean l)%Q /\ (rounded_mean l <= inject_Z b)%Q.
Proof.
  intros Hne Hb. unfold rounded_mean.
  destruct (Qsum_between a b l Hb) as [H1 H2].
  assert (Hn : (0 < inject_Z (Z.of_nat (length l)))%Q).
  { change 0%Q with (inject_Z 0). rewrite <- Zlt_Qlt.
    destruct l; [contradiction|simpl; lia]. }
  pose proof (fold_left_Qplus l 0) as Hs. rewrite Qplus_0_l in Hs.
  apply round2_bounds.
  - apply Qle_shift_div_l; [exact Hn|]. now rewrite Hs.
  - apply Qle_shift_div_r; [exact Hn|]. now rewrite Hs.
Qed.

Lemma valid_scores_scored (grades : list Grade.t) :
  valid_scores grades = [] <-> scored_grades grades = [].
Proof.
  unfold valid_scores, scored_grades.
  induction grades as [|g l IH]; simpl; [tauto|].
  unfold has_score at 1. destruct (Grade.score g); simpl.
  - split; discriminate.
  - exact IH.
Qed.

(** X5.  [Evaluation.average_score] is null exactly when no grade of the
    evaluation carries a score, and otherwise lies between any two integers
    that bound the scores. *)
Theorem average_score_spec (a b : Z) (grades : list Grade.t) :
  (average_score grades = None <-> scored_grades grades = [])
  /\ (valid_scores_between a b (valid_scores grades) = true ->
      forall m, average_score grades = Some m ->
                (inject_Z a <= m)%Q /\ (m <= inject_Z b)%Q).
Proof.
  split.
  - rewrite <- valid_scores_scored. unfold average_score.
    destruct grades as [|g l]; [simpl; tauto|].
    destruct (valid_scores (g :: l)); [tauto|].
    split; discriminate.
  - intros Hb m Hm. unfold average_score in Hm.
    destruct grades as [|g l]; [discriminate|].
    destruct (valid_scores (g :: l)) as [|s scores] eqn:E; [discriminate|].
    injection Hm as <-. apply rounded_mean_between; [discriminate|exact Hb].
Qed.

Lemma average_score_spec_witness :
  (inject_Z 0 <= 650 # 100)%Q /\ (650 # 100 <= inject_Z 10)%Q.
Proof.
  apply (average_score_spec 0 10 scenario_grades); reflexivity.
Defined.

(** X6.  For a grade with a score between 0 and the maximum of its
    evaluation, [Grade.percentage_score] lies between 0 and 100; it is null
    only when that maximum is 0. *)
Theorem percentage_score_between
    (evaluation : Grade.t -> option Evaluation.t) (grade : Grade.t)
    (score : Q) (ev : Evaluation.t) :
  Grade.score grade = Some score ->
  evaluation grade = Some ev ->
  (0 <= score)%Q ->
  (score <= Evaluation.max_score ev)%Q ->
  match percentage_score evaluation grade with
  | Some p => (0 <= p)%Q /\ (p <= 100)%Q
  | None => (Evaluation.max_score ev == 0)%Q
  end.
Proof.
  intros Hs He H0 Hm. unfold percentage_score. rewrite Hs, He.
  simpl truthy.
  destruct (Qeq_bool (Evaluation.max_score ev) 0) eqn:Ez; simpl.
  - now apply Qeq_bool_iff.
  - assert (Hne : ~ (Evaluation.max_score ev == 0)%Q).
    { intro H. apply Qeq_bool_iff in H. congruence. }
    assert (Hpos : (0 < Evaluation.max_score ev)%Q) by lra.
    assert (H1 : (0 <= score / Evaluation.max_score ev)%Q).
    { apply Qle_shift_div_l; [exact Hpos|]. lra. }
    assert (H2 : (score / Evaluation.max_score ev <= 1)%Q).
    { apply Qle_shift_div_r; [exact Hpos|]. lra. }
    apply (round2_bounds 0 100).
    + change (inject_Z 0) with 0%Q. lra.
    + change (inject_Z 100) with 100%Q. lra.
Qed.

Lemma percentage_score_between_witness :
  match percentage_score scenario_evaluation
          (Grade.mk 1 1 1 (Some 8%Q) None None None) with
  | Some p => (0 <= p)%Q /\ (p <= 100)%Q
  | None => (10 == 0)%Q
  end.
Proof.
  apply (percentage_score_between scenario_evaluation
           (Grade.mk 1 1 1 (Some 8%Q) None None None) 8
           (Evaluation.mk 1 1 2 10)); try reflexivity.
  - discriminate.
  - discriminate.
Defined.

(** ** Role gates *)

(** X7.  The three role gates are nested: whoever passes
    [admin_required] passes [coordinator_or_admin_required], and whoever
    passes that passes [teacher_or_above_required]; a student and an
    unknown user pass none of them, and a teacher passes only the last. *)
Theorem role_gates_nested (user : option User.t) :
  (admin_required user = true -> coordinator_or_admin_required user = true)
  /\ (coordinator_or_admin_required user = true ->
      teacher_or_above_required user = true)
  /\ (teacher_or_above_required user = true <->
      exists u, user = Some u /\ User.role u <> Role.student)
  /\ (coordinator_or_admin_required user = true <->
      exists u, user = Some u
                /\ (User.role u = Role.admin
                    \/ User.role u = Role.coordinator))
  /\ (admin_required user = true <->
      exists u, user = Some u /\ User.role u = Role.admin).
Proof.
  destruct user as [[id role]|]; simpl.
  - destruct role; simpl; repeat split; try congruence; try discriminate;
      try (intros _; eexists; split; [reflexivity|simpl; intuition congruence]);
      try (intros [u [Hu Hr]]; injection Hu as <-; simpl in Hr;
           intuition congruence).
  - repeat split; try congruence; intros [u [Hu _]]; discriminate.
Qed.

(** ** Enrolling, leaving, cancelling *)

Lemma enrollment_first_none (db : Tables) (student_id class_id : Z) :
  enrollment_first db student_id class_id = None ->
  ~ In (student_id, class_id) (map enrollment_key (enrollments db)).
Proof.
  intros H Hin. apply in_map_iff in Hin. destruct Hin as [e [Hk He]].
  pose proof (find_none _ _ H e He) as Hf. simpl in Hf.
  unfold enrollment_key in Hk. injection Hk as H1 H2.
  rewrite H1, H2, !Z.eqb_refl in Hf. discriminate.
Qed.

Lemma filter_length_app_one {A : Type} (p : A -> bool) (l : list A) (x : A) :
  length (filter p (l ++ [x]))
  = (length (filter p l) + if p x then 1 else 0)%nat.
Proof.
  rewrite filter_app, length_app. simpl. now destruct (p x).
Qed.

(** X8.  A successful [enroll_student] raises the class's count of
    enrolled students by exactly one and leaves it within [max_students];
    repeating the same request is then refused as already enrolled and
    changes nothing. *)
Theorem enroll_student_capacity (db : Tables) (class_id : Z)
    (student_id : option Z) :
  let '(db', r) := run (enroll_student class_id student_id) db in
  succeeded r = true ->
  exists class_group max_students,
    get_class_group db class_id = Some class_group
    /\ ClassGroup.max_students class_group = Some max_students
    /\ enrolled_count db' class_id = enrolled_count db class_id + 1
    /\ enrolled_count db' class_id <= max_students
    /\ run (enroll_student class_id student_id) db'
       = (db', Failed AlreadyEnrolled).
Proof.
  unfold run at 1, enroll_student at 1, raise. cbn [txn begin].
  repeat case_step; try discriminate.
  intros _. cbn [commit modify store txn begin].
  match goal with
  | H : get_class_group db class_id = Some ?c |- _ =>
    exists c; pose proof (find_id_eq _ _ _ _ H) as [_ Hid]
  end.
  eexists. split; [reflexivity|]. split; [eassumption|].
  match goal with
  | H : (_ <=? enrolled_students_count db _) = false |- _ =>
    rewrite enrolled_students_count_eq, Hid in H; apply Z.leb_gt in H;
    rename H into Hroom
  end.
  assert (Hcount : enrolled_count (add_enrollment (new_enrollment db z class_id) db)
                     class_id = enrolled_count db class_id + 1).
  { unfold enrolled_count, add_enrollment. cbn [enrollments with_enrollments].
    rewrite filter_length_app_one.
    unfold enrolled_in at 2, new_enrollment. simpl.
    rewrite Z.eqb_refl. simpl. lia. }
  split; [exact Hcount|]. split; [lia|].
  unfold run, enroll_student. cbn [txn begin].
  change (get_class_group (add_enrollment ?e db) ?c)
    with (get_class_group db c).
  change (get_student (add_enrollment ?e db) ?c) with (get_student db c).
  repeat match goal with
         | H : _ = _ |- _ => rewrite H
         end.
  unfold enrollment_first, add_enrollment. cbn [enrollments with_enrollments].
  rewrite (find_app_none _ _ (new_enrollment db z class_id)).
  - reflexivity.
  - assumption.
  - unfold new_enrollment. simpl. now rewrite !Z.eqb_refl.
Qed.

Lemma enroll_student_capacity_witness :
  exists class_group max_students,
    get_class_group open_class_db 1 = Some class_group
    /\ ClassGroup.max_students class_group = Some max_students
    /\ enrolled_count
         (add_enrollment (new_enrollment open_class_db 7 1) open_class_db) 1
       = enrolled_count open_class_db 1 + 1
    /\ enrolled_count
         (add_enrollment (new_enrollment open_class_db 7 1) open_class_db) 1
       <= max_students
    /\ run (enroll_student 1 (Some 7))
           (add_enrollment (new_enrollment open_class_db 7 1) open_class_db)
       = (add_enrollment (new_enrollment open_class_db 7 1) open_class_db,
          Failed AlreadyEnrolled).
Proof.
  apply (enroll_student_capacity open_class_db 1 (Some 7)). reflexivity.
Defined.

Lemma set_status_keys (id : Z) (v : EnrollmentStatus.t)
    (l : list Enrollment.t) :
  map enrollment_key
      (map (fun e => if Enrollment.id e =? id
                     then set_enrollment_status v e else e) l)
  = map enrollment_key l.
Proof.
  rewrite map_map. apply map_ext. intro e.
  now destruct (Enrollment.id e =? id).
Qed.

(** X9.  [enroll_student] and [unenroll_student] keep the pairs
    (student_id, class_group_id) of the enrollments distinct. *)
Theorem enrollments_stay_unique (db : Tables) (class_id : Z)
    (student_id : option Z) (leaving : Z) :
  unique_enrollments db ->
  unique_enrollments (fst (run (enroll_student class_id student_id) db))
  /\ unique_enrollments
       (fst (run_outcome (unenroll_student class_id leaving) db)).
Proof.
  intro Hu. split.
  - assert (H : let '(db', r) := run (enroll_student class_id student_id) db in
                unique_enrollments db').
    { unfold run, enroll_student, raise. cbn [txn begin].
      repeat case_step; try exact Hu.
      cbn [commit modify store txn begin].
      unfold unique_enrollments, add_enrollment.
      cbn [enrollments with_enrollments]. rewrite map_app. simpl.
      apply NoDup_app.
      - exact Hu.
      - constructor; [simpl; tauto|constructor].
      - intros k Hin [<-|[]]. unfold enrollment_key, new_enrollment in Hin.
        simpl in Hin.
        eapply enrollment_first_none; eassumption. }
    now destruct (run (enroll_student class_id student_id) db).
  - unfold run_outcome, unenroll_student. cbn [txn begin].
    destruct (enrollment_first db leaving class_id); [|exact Hu].
    cbn [commit modify store txn begin fst].
    unfold unique_enrollments, update_enrollment_row.
    cbn [enrollments with_enrollments]. now rewrite set_status_keys.
Qed.

Lemma enrollments_stay_unique_witness :
  unique_enrollments (fst (run (enroll_student 1 (Some 7)) open_class_db))
  /\ unique_enrollments
       (fst (run_outcome (unenroll_student 1 3) open_class_db)).
Proof.
  apply (enrollments_stay_unique open_class_db 1 (Some 7) 3).
  unfold unique_enrollments. cbv.
  repeat (apply NoDup_cons; [simpl; intuition discriminate|]).
  apply NoDup_nil.
Defined.

Lemma filter_map_length_le {A : Type} (p : A -> bool) (h : A -> A)
    (l : list A) :
  (forall x, p (h x) = true -> p x = true) ->
  (length (filter p (map h l)) <= length (filter p l))%nat.
Proof.
  intro Hp. induction l as [|x l IH]; simpl; [lia|].
  destruct (p (h x)) eqn:E.
  - rewrite (Hp x E). simpl. lia.
  - destruct (p x); simpl; lia.
Qed.

(** X10.  [unenroll_student] keeps the enrollment row, marked dropped, so
    the class's count of enrolled students does not grow, and a later
    [enroll_student] of the same student in the same class is refused as
    already enrolled: a student who left cannot be enrolled again. *)
Theorem unenroll_then_enroll_refused (db : Tables) (class_id student_id : Z)
    (enrollment : Enrollment.t) (class_group : ClassGroup.t)
    (student : Student.t) :
  enrollment_first db student_id class_id = Some enrollment ->
  get_class_group db class_id = Some class_group ->
  get_student db student_id = Some student ->
  student_id <> 0 ->
  let '(db', r) :=
    run_outcome (unenroll_student class_id student_id) db in
  r = Done "Student unenrolled successfully"
  /\ enrollment_first db' student_id class_id
     = Some (set_enrollment_status EnrollmentStatus.dropped enrollment)
  /\ length (enrollments db') = length (enrollments db)
  /\ enrolled_count db' class_id <= enrolled_count db class_id
  /\ run (enroll_student class_id (Some student_id)) db'
     = (db', Failed AlreadyEnrolled).
Proof.
  intros He Hc Hs Hnz.
  unfold run_outcome, unenroll_student. cbn [txn begin]. rewrite He.
  cbn [commit modify store txn begin].
  assert (Hfirst :
    enrollment_first
      (update_enrollment_row (Enrollment.id enrollment)
         (set_enrollment_status EnrollmentStatus.dropped) db)
      student_id class_id
    = Some (set_enrollment_status EnrollmentStatus.dropped enrollment)).
  { unfold enrollment_first, update_enrollment_row.
    cbn [enrollments with_enrollments].
    rewrite find_map_preserved.
    - unfold enrollment_first in He. rewrite He. simpl.
      now rewrite Z.eqb_refl.
    - intro e. now destruct (Enrollment.id e =? Enrollment.id enrollment). }
  split; [reflexivity|]. split; [exact Hfirst|]. split.
  { unfold update_enrollment_row. cbn [enrollments with_enrollments].
    apply length_map. }
  split.
  { unfold enrolled_count, update_enrollment_row.
    cbn [enrollments with_enrollments].
    apply Nat2Z.inj_le, filter_map_length_le.
    intro e. destruct (Enrollment.id e =? Enrollment.id enrollment);
      [|tauto].
    unfold enrolled_in, set_enrollment_status. simpl.
    rewrite andb_false_r. discriminate. }
  unfold run, enroll_student. cbn [txn begin].
  change (get_class_group (update_enrollment_row ?i ?f db) ?c)
    with (get_class_group db c).
  change (get_student (update_enrollment_row ?i ?f db) ?c)
    with (get_student db c).
  rewrite Hc, Hs, Hfirst.
  destruct (Z.eqb_spec student_id 0); [contradiction|reflexivity].
Qed.

Lemma unenroll_then_enroll_refused_witness :
  let '(db', r) := run_outcome (unenroll_student 1 3) class_db in
  r = Done "Student unenrolled successfully"
  /\ enrollment_first db' 3 1
     = Some (set_enrollment_status EnrollmentStatus.dropped
               (Enrollment.mk 3 3 1 EnrollmentStatus.enrolled None
                              FinalStatus.in_progress))
  /\ length (enrollments db') = length (enrollments class_db)
  /\ enrolled_count db' 1 <= enrolled_count class_db 1
  /\ run (enroll_student 1 (Some 3)) db' = (db', Failed AlreadyEnrolled).
Proof.
  apply (unenroll_then_enroll_refused class_db 1 3
           (Enrollment.mk 3 3 1 EnrollmentStatus.enrolled None
                          FinalStatus.in_progress)
           (ClassGroup.mk 1 1 1 (Some 6) ClassStatus.active)
           (Student.mk 3 13)); try reflexivity.
  discriminate.
Defined.

Lemma get_class_group_set_status (id : Z) (v : ClassStatus.t) (db : Tables)
    (class_id : Z) :
  get_class_group (update_class_group_row id (set_class_status v) db) class_id
  = option_map (fun c => if ClassGroup.id c =? id
                         then set_class_status v c else c)
               (get_class_group db class_id).
Proof.
  unfold get_class_group, update_class_group_row.
  cbn [class_groups with_class_groups].
  apply find_map_preserved. intro c. now destruct (ClassGroup.id c =? id).
Qed.

(** X11.  [delete_class] is refused while the class has an enrolled
    student and otherwise only marks the class cancelled: no row of any
    table is removed, the enrollments are untouched, and deleting again
    changes nothing more. *)
Theorem delete_class_soft (db : Tables) (class_id : Z) :
  let '(db', r) := run_outcome (delete_class class_id) db in
  match get_class_group db class_id with
  | None => r = NotDone ClassNotFound /\ db' = db
  | Some class_group =>
    if 0 <? enrolled_count db class_id
    then r = CannotDelete (enrolled_count db class_id) /\ db' = db
    else r = Done "Class deleted successfully"
         /\ get_class_group db' class_id
            = Some (set_class_status ClassStatus.cancelled class_group)
         /\ map ClassGroup.id (class_groups db')
            = map ClassGroup.id (class_groups db)
         /\ enrollments db' = enrollments db
         /\ grades db' = grades db
         /\ run_outcome (delete_class class_id) db'
            = (db', Done "Class deleted successfully")
  end.
Proof.
  unfold run_outcome at 1, delete_class at 1. cbn [txn begin].
  destruct (get_class_group db class_id) as [c|] eqn:Ec; [|now split].
  pose proof (find_id_eq _ _ _ _ Ec) as [_ Hid].
  rewrite enrolled_students_count_eq, Hid.
  destruct (0 <? enrolled_count db class_id) eqn:En; [now split|].
  cbn [commit modify store txn begin].
  assert (Hget :
    get_class_group
      (update_class_group_row class_id
         (set_class_status ClassStatus.cancelled) db) class_id
    = Some (set_class_status ClassStatus.cancelled c)).
  { rewrite get_class_group_set_status, Ec. simpl. now rewrite Hid, Z.eqb_refl. }
  split; [reflexivity|]. split; [exact Hget|].
  split.
  { unfold update_class_group_row. cbn [class_groups with_class_groups].
    rewrite map_map. apply map_ext. intro x.
    now destruct (ClassGroup.id x =? class_id). }
  split; [reflexivity|]. split; [reflexivity|].
  unfold run_outcome, delete_class. cbn [txn begin].
  rewrite Hget.
  rewrite enrolled_students_count_eq.
  change (ClassGroup.id (set_class_status ClassStatus.cancelled c))
    with (ClassGroup.id c).
  rewrite Hid.
  change (enrolled_count (update_class_group_row ?i ?f db) ?k)
    with (enrolled_count db k).
  rewrite En. cbn [commit modify store txn begin].
  f_equal. unfold update_class_group_row.
  cbn [class_groups with_class_groups]. unfold with_class_groups.
  cbn [students teachers subjects enrollments evaluations grades attendance].
  f_equal. rewrite map_map. apply map_ext. intro x.
  destruct (ClassGroup.id x =? class_id) eqn:Ex; simpl; now rewrite Ex.
Qed.

(** X12.  [enroll_student] does not read the status of the class: on a
    store where the status of a class has been changed, a cancelled class
    included, it answers as on the original store and appends the same
    enrollment. *)
Theorem enroll_student_ignores_status (db : Tables) (id : Z)
    (v : ClassStatus.t) (class_id : Z) (student_id : option Z) :
  let changed := update_class_group_row id (set_class_status v) in
  run (enroll_student class_id student_id) (changed db)
  = (changed (fst (run (enroll_student class_id student_id) db)),
     snd (run (enroll_student class_id student_id) db)).
Proof.
  cbv zeta. unfold run, enroll_student, raise. cbn [txn begin].
  rewrite get_class_group_set_status.
  destruct (get_class_group db class_id) as [c|]; [|reflexivity].
  cbn [option_map].
  destruct student_id as [sid|]; [|reflexivity].
  destruct (sid =? 0); [reflexivity|].
  change (get_student (update_class_group_row ?i ?f db) ?k)
    with (get_student db k).
  destruct (get_student db sid); [|reflexivity].
  change (enrollment_first (update_class_group_row ?i ?f db) ?a ?b)
    with (enrollment_first db a b).
  destruct (enrollment_first db sid class_id); [reflexivity|].
  assert (Hm : ClassGroup.max_students
                 (if ClassGroup.id c =? id then set_class_status v c else c)
               = ClassGroup.max_students c)
    by now destruct (ClassGroup.id c =? id).
  assert (Hn : enrolled_students_count
                 (update_class_group_row id (set_class_status v) db)
                 (if ClassGroup.id c =? id then set_class_status v c else c)
               = enrolled_students_count db c)
    by now destruct (ClassGroup.id c =? id).
  rewrite Hm, Hn.
  destruct (ClassGroup.max_students c); [|reflexivity].
  destruct (_ <=? _); reflexivity.
Qed.

(** ** Writing grades *)

(** X13.  The four handlers that write grades keep the pairs
    (enrollment_id, evaluation_id) of the Grade rows distinct. *)
Theorem grade_writers_keep_pairs_unique (db : Tables) (current_user : User.t)
    (now : Z) (data : GradeData.t) (items : list GradeData.t)
    (grade_id : Z) :
  unique_pairs db ->
  unique_pairs (fst (run (create_grade current_user now data) db))
  /\ unique_pairs
       (fst (run (create_grades_batch current_user now items) db))
  /\ unique_pairs
       (fst (run (update_grade current_user now grade_id data) db))
  /\ unique_pairs (fst (run (delete_grade current_user grade_id) db)).
Proof.
  intro Hu.
  pose proof (create_grade_unique current_user now data db Hu) as H1.
  pose proof (batch_unique current_user now items db Hu) as H2.
  pose proof (update_grade_unique current_user now grade_id data db Hu) as H3.
  pose proof (delete_grade_unique current_user grade_id db Hu) as H4.
  destruct (run (create_grade current_user now data) db).
  destruct (run (create_grades_batch current_user now items) db).
  destruct (run (update_grade current_user now grade_id data) db).
  destruct (run (delete_grade current_user grade_id) db).
  now repeat split.
Qed.

Lemma grade_writers_keep_pairs_unique_witness :
  unique_pairs
    (fst (run (create_grade the_teacher 2000 (grade_data 1 2 4)) graded_db))
  /\ unique_pairs
       (fst (run (create_grades_batch the_teacher 2000 two_new_grades)
                 graded_db))
  /\ unique_pairs
       (fst (run (update_grade the_teacher 2000 1 (grade_data 1 2 4))
                 graded_db))
  /\ unique_pairs (fst (run (delete_grade the_teacher 1) graded_db)).
Proof.
  apply (grade_writers_keep_pairs_unique graded_db the_teacher 2000
           (grade_data 1 2 4) two_new_grades 1).
  unfold unique_pairs. cbv.
  apply NoDup_cons; [simpl; tauto|apply NoDup_nil].
Defined.



(** X15.  A refusal of [create_grade], [update_grade] or [delete_grade]
    with a status other than 500 comes before the first write: the store
    is as it was. *)
Theorem refused_grade_write_changes_nothing (db : Tables)
    (current_user : User.t) (now : Z) (data : GradeData.t) (grade_id : Z)
    (e : Error) :
  status_code e <> 500 ->
  (snd (run (create_grade current_user now data) db) = Failed e ->
   fst (run (create_grade current_user now data) db) = db)
  /\ (snd (run (update_grade current_user now grade_id data) db) = Failed e ->
      fst (run (update_grade current_user now grade_id data) db) = db)
  /\ (snd (run (delete_grade current_user grade_id) db) = Failed e ->
      fst (run (delete_grade current_user grade_id) db) = db).
Proof.
  intro Hs. split; [|split].
  - pose proof (create_grade_failure_no_write current_user now data db) as H.
    destruct (run (create_grade current_user now data) db) as [db' r].
    simpl. intros ->. now apply H.
  - assert (H : let '(db', r) :=
                  run (update_grade current_user now grade_id data) db in
                r = Failed e -> db' = db).
    { unfold run, update_grade, raise. cbv zeta. cbn [txn begin].
      repeat case_step.
      all: try reflexivity.
      all: intro Hr; inversion Hr; subst; now elim Hs. }
    now destruct (run (update_grade current_user now grade_id data) db).
  - assert (H : let '(db', r) := run (delete_grade current_user grade_id) db in
                r = Failed e -> db' = db).
    { unfold run, delete_grade, raise. cbv zeta. cbn [txn begin].
      repeat case_step.
      all: try reflexivity.
      all: intro Hr; inversion Hr; subst; now elim Hs. }
    now destruct (run (delete_grade current_user grade_id) db).
Qed.

Lemma refused_grade_write_changes_nothing_witness :
  (snd (run (create_grade another_teacher 2000 (grade_data 1 2 4)) graded_db)
   = Failed PermissionDenied ->
   fst (run (create_grade another_teacher 2000 (grade_data 1 2 4)) graded_db)
   = graded_db)
  /\ (snd (run (update_grade another_teacher 2000 1 (grade_data 1 2 4))
               graded_db) = Failed PermissionDenied ->
      fst (run (update_grade another_teacher 2000 1 (grade_data 1 2 4))
               graded_db) = graded_db)
  /\ (snd (run (delete_grade another_teacher 1) graded_db)
      = Failed PermissionDenied ->
      fst (run (delete_grade another_teacher 1) graded_db) = graded_db).
Proof.
  apply (refused_grade_write_changes_nothing graded_db another_teacher 2000
           (grade_data 1 2 4) 1 PermissionDenied).
  discriminate.
Defined.

(** X16.  [update_grade] and [delete_grade] commit the change of the Grade
    row before they read [grade.enrollment]: for a grade whose enrollment
    row is missing, requested by a user who is not a teacher, with no score
    in the request, the answer is a 500 and the store keeps the change. *)
Theorem write_kept_on_missing_enrollment (db : Tables)
    (current_user : User.t) (now : Z) (grade_id : Z) (data : GradeData.t)
    (grade : Grade.t) :
  get_grade db grade_id = Some grade ->
  get_enrollment db (Grade.enrollment_id grade) = None ->
  Role.eqb (User.role current_user) Role.teacher = false ->
  GradeData.score data = None ->
  run (delete_grade current_user grade_id) db
  = (delete_grade_row grade_id db, Failed (Exception "enrollment"))
  /\ run (update_grade current_user now grade_id data) db
     = (update_grade_row grade_id
          (fun g => Grade.set_graded_at (Some now)
                      (match GradeData.comments data with
                       | Some c => Grade.set_comments c g
                       | None => g
                       end)) db,
        Failed (Exception "enrollment")).
Proof.
  intros Hg He Hr Hd. split.
  - unfold run, delete_grade, raise. cbv zeta. cbn [txn begin].
    rewrite Hg, Hr, He. reflexivity.
  - unfold run, update_grade, raise. cbv zeta. cbn [txn begin].
    rewrite Hg, Hr, Hd. cbn [commit modify store txn begin].
    change (get_enrollment (update_grade_row ?i ?f db) ?k)
      with (get_enrollment db k).
    rewrite He. cbn [rollback commit modify store txn begin]. f_equal.
    unfold update_grade_row. f_equal. apply map_ext. intro g.
    unfold stamp_grader. rewrite Hr.
    now destruct (GradeData.comments data).
Qed.

Lemma write_kept_on_missing_enrollment_witness :
  run (delete_grade an_admin 2) orphan_db
  = (delete_grade_row 2 orphan_db, Failed (Exception "enrollment"))
  /\ run (update_grade an_admin 2000 2 (comment_only "late")) orphan_db
     = (update_grade_row 2
          (fun g => Grade.set_graded_at (Some 2000)
                      (match GradeData.comments (comment_only "late") with
                       | Some c => Grade.set_comments c g
                       | None => g
                       end)) orphan_db,
        Failed (Exception "enrollment")).
Proof.
  apply (write_kept_on_missing_enrollment orphan_db an_admin 2000 2
           (comment_only "late")
           (Grade.mk 2 99 1 (Some 5%Q) None None (Some 1000)));
    reflexivity.
Defined.

Lemma get_grade_update_row (id j : Z) (f : Grade.t -> Grade.t) (db : Tables) :
  (forall g, Grade.id (f g) = Grade.id g) ->
  get_grade (update_grade_row id f db) j
  = option_map (fun g => if Grade.id g =? id then f g else g)
               (get_grade db j).
Proof.
  intro Hf. unfold get_grade, update_grade_row. cbn [grades with_grades].
  apply find_map_preserved. intro g.
  destruct (Grade.id g =? id); [now rewrite Hf|reflexivity].
Qed.

Lemma get_grade_update_other (id j : Z) (f : Grade.t -> Grade.t)
    (db : Tables) :
  (forall g, Grade.id (f g) = Grade.id g) -> j <> id ->
  get_grade (update_grade_row id f db) j = get_grade db j.
Proof.
  intros Hf Hj. rewrite get_grade_update_row by exact Hf.
  destruct (get_grade db j) as [g|] eqn:E; [|reflexivity].
  apply find_id_eq in E. destruct E as [_ E]. simpl.
  destruct (Z.eqb_spec (Grade.id g) id); [congruence|reflexivity].
Qed.

Lemma get_grade_update_same (id : Z) (f : Grade.t -> Grade.t) (db : Tables)
    (g : Grade.t) :
  (forall g, Grade.id (f g) = Grade.id g) ->
  get_grade db id = Some g ->
  get_grade (update_grade_row id f db) id = Some (f g).
Proof.
  intros Hf Hg. rewrite get_grade_update_row by exact Hf. rewrite Hg.
  apply find_id_eq in Hg. destruct Hg as [_ Hg]. simpl.
  now rewrite Hg, Z.eqb_refl.
Qed.

Lemma stamp_grader_id (db : Tables) (u : User.t) (g : Grade.t) :
  Grade.id (stamp_grader db u g) = Grade.id g.
Proof. unfold stamp_grader. now destruct (Role.eqb _ _). Qed.

(** X17.  A successful [update_grade] changes, in the row of the grade,
    only the columns named by the request, the time of grading and, for a
    teacher, the grader; the row keeps its id and its pair, every other
    Grade row is as it was and no row is added or removed. *)
Theorem update_grade_columns (db : Tables) (current_user : User.t)
    (now : Z) (grade_id : Z) (data : GradeData.t) :
  let '(db', r) := run (update_grade current_user now grade_id data) db in
  forall updated, r = GradeUpdated updated ->
  exists grade,
    get_grade db grade_id = Some grade
    /\ get_grade db' grade_id = Some updated
    /\ Grade.id updated = grade_id
    /\ Grade.key updated = Grade.key grade
    /\ Grade.score updated
       = match GradeData.score data with
         | Some score => score
         | None => Grade.score grade
         end
    /\ Grade.comments updated
       = match GradeData.comments data with
         | Some comments => comments
         | None => Grade.comments grade
         end
    /\ Grade.graded_at updated = Some now
    /\ Grade.graded_by updated
       = (if Role.eqb (User.role current_user) Role.teacher
          then option_map Teacher.id
                 (teacher_of_user db (User.id current_user))
          else Grade.graded_by grade)
    /\ (forall other, other <> grade_id ->
          get_grade db' other = get_grade db other)
    /\ length (grades db') = length (grades db).
Proof.
  unfold run, update_grade, raise. cbv zeta. cbn [txn begin].
  repeat case_step.
  all: intros updated Hr; try discriminate Hr.
  all: injection Hr as <-.
  all: rewrite commit_recompute_commit; cbn [txn modify begin].
  all: change (get_grade (settle ?e ?d)) with (get_grade d).
  all: change (grades (settle ?e ?d)) with (grades d).
  all: match goal with
       | H : get_grade _ _ = Some ?g |- _ =>
         exists g; pose proof (find_id_eq _ _ _ _ H) as [_ Hid]
       end.
  all: split; [reflexivity|].
  all: match goal with
       | |- context [update_grade_row _ ?f _] =>
         assert (Hf : forall g, Grade.id (f g) = Grade.id g)
           by (intro; rewrite stamp_grader_id;
               destruct (GradeData.comments _); reflexivity)
       end.
  all: split; [now apply (get_grade_update_same _ _ _ _ Hf)|].
  all: split; [rewrite stamp_grader_id; destruct (GradeData.comments _);
               exact Hid|].
  all: split; [apply stamp_grader_key_of;
               destruct (GradeData.comments _); reflexivity|].
  all: unfold stamp_grader at 1 2 3 4.
  all: match goal with
       | H : Role.eqb _ _ = _ |- _ => rewrite H
       end.
  all: try match goal with
           | H : teacher_of_user _ _ = _ |- _ => rewrite H
           end.
  all: split; [destruct (GradeData.comments _); reflexivity|].
  all: split; [destruct (GradeData.comments _); reflexivity|].
  all: split; [destruct (GradeData.comments _); reflexivity|].
  all: split; [destruct (GradeData.comments _); reflexivity|].
  all: split; [intros other Ho;
               now apply (get_grade_update_other _ _ _ _ Hf)|].
  all: unfold update_grade_row; cbn [grades with_grades]; apply length_map.
Qed.

Lemma update_grade_columns_witness :
  let db' := fst (run (update_grade the_teacher 2000 1 (comment_only "late"))
                      graded_db) in
  exists grade,
    get_grade graded_db 1 = Some grade
    /\ get_grade db' 1 = Some commented_grade
    /\ Grade.id commented_grade = 1
    /\ Grade.key commented_grade = Grade.key grade
    /\ Grade.score commented_grade = Grade.score grade
    /\ Grade.comments commented_grade = Some "late"%string
    /\ Grade.graded_at commented_grade = Some 2000
    /\ Grade.graded_by commented_grade
       = option_map Teacher.id (teacher_of_user graded_db 21)
    /\ (forall other, other <> 1 ->
          get_grade db' other = get_grade graded_db other)
    /\ length (grades db') = length (grades graded_db).
Proof.
  apply (update_grade_columns graded_db the_teacher 2000 1
           (comment_only "late") commented_grade).
  reflexivity.
Defined.

(** ** Composition of grade calls *)

Lemma next_id_fresh (ids : list Z) (x : Z) : In x ids -> x < next_id ids.
Proof.
  unfold next_id. induction ids as [|y l IH]; simpl; [tauto|].
  intros [->|H]; [lia|]. specialize (IH H). lia.
Qed.

Lemma delete_added_row (l : list Grade.t) (g : Grade.t) :
  Grade.id g = next_id (map Grade.id l) ->
  filter (fun h => negb (Grade.id h =? Grade.id g)) (l ++ [g]) = l.
Proof.
  intro Hg. rewrite filter_app. simpl. rewrite Z.eqb_refl. simpl.
  rewrite app_nil_r. apply forallb_filter_id. apply forallb_forall.
  intros h Hh. apply negb_true_iff, Z.eqb_neq.
  pose proof (next_id_fresh (map Grade.id l) (Grade.id h)
                (in_map Grade.id l h Hh)). lia.
Qed.

Lemma with_grades_same (l : list Grade.t) (db : Tables) :
  with_grades (grades db) (with_grades l db) = db.
Proof. now destruct db. Qed.

Lemma with_grades_id (db : Tables) : with_grades (grades db) db = db.
Proof. now destruct db. Qed.

(** Recomputing the final grade over other Grade rows forgets an earlier
    recomputation. *)
Lemma settle_over (enrollment_id : Z) (db : Tables) (l : list Grade.t) :
  settle enrollment_id (with_grades l (settle enrollment_id db))
  = settle enrollment_id (with_grades l db).
Proof.
  unfold settle, update_enrollment_row, with_enrollments, with_grades.
  cbn [students teachers subjects class_groups enrollments evaluations
       grades attendance].
  f_equal. rewrite map_map. apply map_ext. intro e.
  change (Enrollment.id (if Enrollment.id e =? enrollment_id
                         then Enrollment.set_final_grade ?v e else e))
    with (Enrollment.id (if Enrollment.id e =? enrollment_id
                         then Enrollment.set_final_grade v e else e)).
  destruct (Enrollment.id e =? enrollment_id) eqn:E; simpl; now rewrite E.
Qed.

Lemma get_enrollment_settle (enrollment_id j : Z) (db : Tables) :
  get_enrollment (settle enrollment_id db) j
  = option_map (fun e => if Enrollment.id e =? enrollment_id
                         then Enrollment.set_final_grade
                                (aggregate db enrollment_id) e
                         else e)
               (get_enrollment db j).
Proof.
  unfold get_enrollment, settle, update_enrollment_row.
  cbn [enrollments with_enrollments].
  apply find_map_preserved. intro e.
  now destruct (Enrollment.id e =? enrollment_id).
Qed.

Lemma get_enrollment_settle_id (enrollment_id j : Z) (db : Tables)
    (e : Enrollment.t) :
  get_enrollment db j = Some e ->
  exists e', get_enrollment (settle enrollment_id db) j = Some e'
             /\ Enrollment.id e' = Enrollment.id e.
Proof.
  intro H. rewrite get_enrollment_settle, H. simpl. eexists. split; eauto.
  now destruct (Enrollment.id e =? enrollment_id).
Qed.

(** The teacher check of a handler that looks a grade's evaluation up. *)
Lemma teacher_check_teacher (db : Tables) (u : User.t) (class_id : Z) :
  teacher_check db u class_id = Pass ->
  Role.eqb (User.role u) Role.teacher = true ->
  exists t, teacher_of_user db (User.id u) = Some t.
Proof.
  unfold teacher_check. intros H Hr. rewrite Hr in H.
  destruct (teacher_of_user db (User.id u)); [eauto|discriminate].
Qed.

(** X18.  Deleting the grade that a [create_grade] has just created, by
    the same user, brings the Grade rows back to what they were: the store
    is the original one with the final grade of the enrollment recomputed
    over the original rows. *)
Theorem create_then_delete_grade (db : Tables) (current_user : User.t)
    (now : Z) (data : GradeData.t) :
  let '(db1, r) := run (create_grade current_user now data) db in
  forall grade, r = GradeCreated grade ->
  exists enrollment_id,
    GradeData.enrollment_id data = Some enrollment_id
    /\ get_grade db (Grade.id grade) = None
    /\ get_grade db1 (Grade.id grade) = Some grade
    /\ run (delete_grade current_user (Grade.id grade)) db1
       = (settle enrollment_id db, GradeDeleted).
Proof.
  unfold run at 1, create_grade, raise. cbn [txn begin].
  destruct (GradeData.enrollment_id data) as [eid|] eqn:Heid;
    [|intros g H; discriminate H].
  destruct (GradeData.evaluation_id data) as [vid|] eqn:Hvid;
    [|intros g H; discriminate H].
  destruct (GradeData.score data) as [score|] eqn:Hscore;
    [|intros g H; discriminate H].
  destruct (get_enrollment db eid) as [enr|] eqn:Henr;
    [|intros g H; discriminate H].
  destruct (get_evaluation db vid) as [ev|] eqn:Hev;
    [|intros g H; discriminate H].
  destruct (teacher_check db current_user (Evaluation.class_group_id ev))
    eqn:Htc; try (intros g H; discriminate H).
  destruct (out_of_range score (Evaluation.max_score ev)) eqn:Hrange;
    [intros g H; discriminate H|].
  destruct (grade_first db eid vid) as [existing|] eqn:Hfirst;
    [intros g H; discriminate H|].
  cbn beta iota. rewrite commit_recompute_commit. cbn [txn modify begin].
  pose proof (find_id_eq _ _ _ _ Henr) as [_ Hid]. rewrite Hid.
  intros grade H. injection H as <-.
  set (grade := stamp_grader db current_user _).
  assert (Hgid : Grade.id grade = next_id (map Grade.id (grades db)))
    by (unfold grade; now rewrite stamp_grader_id).
  assert (Hgk : Grade.enrollment_id grade = eid
                /\ Grade.evaluation_id grade = vid).
  { assert (K : Grade.key grade = (eid, vid))
      by (unfold grade; now apply stamp_grader_key_of).
    unfold Grade.key in K. now inversion K. }
  destruct Hgk as [Hge Hgv].
  assert (Hnone : get_grade db (Grade.id grade) = None).
  { unfold get_grade.
    destruct (find _ (grades db)) as [h|] eqn:Eh; [|reflexivity].
    apply find_some in Eh. destruct Eh as [Hin Eq].
    apply Z.eqb_eq in Eq.
    pose proof (next_id_fresh (map Grade.id (grades db)) (Grade.id h)
                  (in_map Grade.id _ h Hin)). lia. }
  assert (Hsome : get_grade (settle eid (add_grade grade db)) (Grade.id grade)
                  = Some grade).
  { change (get_grade (settle eid ?d)) with (get_grade d).
    unfold get_grade, add_grade. cbn [grades with_grades].
    apply find_app_none; [exact Hnone|apply Z.eqb_refl]. }
  exists eid. split; [reflexivity|]. split; [exact Hnone|].
  split; [exact Hsome|].
  unfold run, delete_grade, raise. cbv zeta. cbn [txn begin].
  rewrite Hsome.
  change (teacher_of_user (settle eid ?d)) with (teacher_of_user db).
  change (get_evaluation (settle eid ?d)) with (get_evaluation db).
  change (teacher_check (settle eid ?d)) with (teacher_check db).
  rewrite Hgv, Hev, Htc, Hge.
  destruct (get_enrollment_settle_id eid eid (add_grade grade db) enr Henr)
    as [enr' [Henr' Hid']].
  rewrite Henr'.
  assert (Hpass :
    (if Role.eqb (User.role current_user) Role.teacher
     then match teacher_of_user db (User.id current_user) with
          | Some _ => Pass
          | None => Deny
          end
     else Pass) = Pass).
  { destruct (Role.eqb (User.role current_user) Role.teacher) eqn:Hr;
      [|reflexivity].
    destruct (teacher_check_teacher _ _ _ Htc Hr) as [t ->]. reflexivity. }
  rewrite Hpass. rewrite commit_recompute_commit. cbn [txn modify begin].
  rewrite Hid', Hid. f_equal.
  change (delete_grade_row ?i (settle eid ?d))
    with (with_grades (filter (fun g => negb (Grade.id g =? i)) (grades d))
                      (settle eid d)).
  rewrite settle_over. unfold add_grade at 1. cbn [grades with_grades].
  rewrite (delete_added_row _ _ Hgid). unfold add_grade.
  now rewrite with_grades_same.
Qed.

Lemma create_then_delete_grade_witness :
  exists enrollment_id,
    GradeData.enrollment_id (grade_data 1 2 4) = Some enrollment_id
    /\ get_grade graded_db (Grade.id second_grade) = None
    /\ get_grade
         (fst (run (create_grade the_teacher 2000 (grade_data 1 2 4))
                   graded_db))
         (Grade.id second_grade) = Some second_grade
    /\ run (delete_grade the_teacher (Grade.id second_grade))
           (fst (run (create_grade the_teacher 2000 (grade_data 1 2 4))
                     graded_db))
       = (settle enrollment_id graded_db, GradeDeleted).
Proof.
  apply (create_then_delete_grade graded_db the_teacher 2000
           (grade_data 1 2 4) second_grade).
  reflexivity.
Defined.

Lemma assign_twice (db : Tables) (u : User.t) (now : Z) (c : option string)
    (score : option Q) (g : Grade.t) :
  let assign := fun g =>
    Grade.set_graded_at (Some now)
      (stamp_grader db u (Grade.set_comments c (Grade.set_score score g))) in
  assign (assign g) = assign g.
Proof.
  cbv zeta. unfold stamp_grader. now destruct (Role.eqb _ _).
Qed.

Lemma assign_created (db : Tables) (u : User.t) (now : Z) (c : option string)
    (score : option Q) (id enrollment_id evaluation_id : Z) :
  let grade := stamp_grader db u
                 (Grade.mk id enrollment_id evaluation_id score c None
                           (Some now)) in
  Grade.set_graded_at (Some now)
    (stamp_grader db u (Grade.set_comments c (Grade.set_score score grade)))
  = grade.
Proof.
  cbv zeta. unfold stamp_grader. now destruct (Role.eqb _ _).
Qed.

Lemma map_update_twice (id : Z) (f : Grade.t -> Grade.t) (l : list Grade.t) :
  (forall g, Grade.id (f g) = Grade.id g) ->
  (forall g, f (f g) = f g) ->
  map (fun g => if Grade.id g =? id then f g else g)
      (map (fun g => if Grade.id g =? id then f g else g) l)
  = map (fun g => if Grade.id g =? id then f g else g) l.
Proof.
  intros Hid Hf. rewrite map_map. apply map_ext. intro g.
  destruct (Grade.id g =? id) eqn:E; [|now rewrite E].
  now rewrite Hid, E, Hf.
Qed.

Lemma map_update_added (l : list Grade.t) (g : Grade.t)
    (f : Grade.t -> Grade.t) :
  Grade.id g = next_id (map Grade.id l) -> f g = g ->
  map (fun h => if Grade.id h =? Grade.id g then f h else h) (l ++ [g])
  = l ++ [g].
Proof.
  intros Hg Hf. rewrite map_app. simpl. rewrite Z.eqb_refl, Hf. f_equal.
  rewrite <- (map_id l) at 2. apply map_ext_in. intros h Hh.
  pose proof (next_id_fresh (map Grade.id l) (Grade.id h)
                (in_map Grade.id l h Hh)).
  destruct (Z.eqb_spec (Grade.id h) (Grade.id g)); [lia|reflexivity].
Qed.

(** X19.  [create_grade] is idempotent: repeating a call that succeeded,
    with the same request at the same time, answers with an update to the
    same row and leaves the store as the first call left it. *)
Theorem create_grade_idempotent (db : Tables) (current_user : User.t)
    (now : Z) (data : GradeData.t) :
  let '(db1, r) := run (create_grade current_user now data) db in
  forall grade, r = GradeCreated grade \/ r = GradeUpdated grade ->
  run (create_grade current_user now data) db1 = (db1, GradeUpdated grade).
Proof.
  unfold run at 1, create_grade at 1, raise. cbn [txn begin].
  destruct (GradeData.enrollment_id data) as [eid|] eqn:Heid;
    [|intros g [H|H]; discriminate H].
  destruct (GradeData.evaluation_id data) as [vid|] eqn:Hvid;
    [|intros g [H|H]; discriminate H].
  destruct (GradeData.score data) as [score|] eqn:Hscore;
    [|intros g [H|H]; discriminate H].
  destruct (get_enrollment db eid) as [enr|] eqn:Henr;
    [|intros g [H|H]; discriminate H].
  destruct (get_evaluation db vid) as [ev|] eqn:Hev;
    [|intros g [H|H]; discriminate H].
  destruct (teacher_check db current_user (Evaluation.class_group_id ev))
    eqn:Htc; try (intros g [H|H]; discriminate H).
  destruct (out_of_range score (Evaluation.max_score ev)) eqn:Hrange;
    [intros g [H|H]; discriminate H|].
  pose proof (find_id_eq _ _ _ _ Henr) as [_ Hid].
  destruct (grade_first db eid vid) as [existing|] eqn:Hfirst.
  - cbn beta iota. rewrite commit_recompute_commit. cbn [txn modify begin].
    rewrite Hid. intros grade [H|H]; [discriminate H|]. injection H as <-.
    set (assign := fun g : Grade.t => Grade.set_graded_at (Some now) _).
    assert (Haid : forall g, Grade.id (assign g) = Grade.id g)
      by (intro g; apply assign_columns).
    assert (Hakey : forall g, Grade.key (assign g) = Grade.key g)
      by (intro g; apply assign_columns).
    unfold run, create_grade, raise. cbn [txn begin].
    rewrite Heid, Hvid, Hscore.
    destruct (get_enrollment_settle_id eid eid
                (update_grade_row (Grade.id existing) assign db) enr Henr)
      as [enr' [Henr' Hid']].
    rewrite Henr'.
    change (get_evaluation (settle eid ?d)) with (get_evaluation db).
    change (teacher_check (settle eid ?d)) with (teacher_check db).
    rewrite Hev, Htc, Hrange.
    change (grade_first (settle eid ?d)) with (grade_first d).
    rewrite (grade_first_update _ _ _ _ _ Hakey), Hfirst.
    cbn [option_map]. rewrite Z.eqb_refl, Haid.
    rewrite commit_recompute_commit. cbn [txn modify begin].
    change (stamp_grader (settle eid ?d)) with (stamp_grader db).
    fold assign. rewrite Hid', Hid.
    assert (Htw : forall g, assign (assign g) = assign g)
      by (intro g; apply assign_twice).
    f_equal; [|exact (f_equal GradeUpdated (Htw existing))].
    change (update_grade_row ?i ?f (settle eid ?d))
      with (with_grades
              (map (fun g => if Grade.id g =? i then f g else g) (grades d))
              (settle eid d)).
    rewrite settle_over. unfold update_grade_row at 1.
    cbn [grades with_grades].
    rewrite (map_update_twice _ _ _ Haid Htw).
    change (with_grades ?l (update_grade_row ?i ?f db))
      with (with_grades l db).
    reflexivity.
  - cbn beta iota. rewrite commit_recompute_commit. cbn [txn modify begin].
    rewrite Hid. intros grade [H|H]; [|discriminate H]. injection H as <-.
    set (grade := stamp_grader db current_user _).
    assert (Hgid : Grade.id grade = next_id (map Grade.id (grades db)))
      by (unfold grade; now rewrite stamp_grader_id).
    assert (Hkey : Grade.key grade = (eid, vid))
      by (unfold grade; now apply stamp_grader_key_of).
    unfold run, create_grade, raise. cbn [txn begin].
    rewrite Heid, Hvid, Hscore.
    destruct (get_enrollment_settle_id eid eid (add_grade grade db) enr Henr)
      as [enr' [Henr' Hid']].
    rewrite Henr'.
    change (get_evaluation (settle eid ?d)) with (get_evaluation db).
    change (teacher_check (settle eid ?d)) with (teacher_check db).
    rewrite Hev, Htc, Hrange.
    change (grade_first (settle eid ?d)) with (grade_first d).
    assert (Hnew : grade_first (add_grade grade db) eid vid = Some grade).
    { unfold grade_first, add_grade. cbn [grades with_grades].
      apply find_app_none; [exact Hfirst|].
      unfold Grade.key in Hkey. inversion Hkey. now rewrite !Z.eqb_refl. }
    rewrite Hnew.
    rewrite commit_recompute_commit. cbn [txn modify begin].
    change (stamp_grader (settle eid ?d)) with (stamp_grader db).
    rewrite Hid', Hid.
    assert (Hfix :
      Grade.set_graded_at (Some now)
        (stamp_grader db current_user
           (Grade.set_comments (GradeData.get_comments data)
              (Grade.set_score score grade))) = grade)
      by apply assign_created.
    rewrite Hfix. f_equal.
    change (update_grade_row ?i ?f (settle eid ?d))
      with (with_grades
              (map (fun g => if Grade.id g =? i then f g else g) (grades d))
              (settle eid d)).
    rewrite settle_over. unfold add_grade at 1. cbn [grades with_grades].
    rewrite (map_update_added _ _ _ Hgid Hfix).
    reflexivity.
Qed.

Lemma create_grade_idempotent_witness :
  run (create_grade the_teacher 2000 (grade_data 1 2 4))
      (fst (run (create_grade the_teacher 2000 (grade_data 1 2 4)) graded_db))
  = (fst (run (create_grade the_teacher 2000 (grade_data 1 2 4)) graded_db),
     GradeUpdated second_grade).
Proof.
  apply (create_grade_idempotent graded_db the_teacher 2000
           (grade_data 1 2 4) second_grade).
  left. reflexivity.
Defined.

(** ** The batch *)

(** One turn of the loop either appends an entry to the errors or processes
    the item: it counts it as created or updated, and adds a Grade row
    exactly when it counts it as created. *)
Lemma batch_item_progress (teacher : option Teacher.t) (now : Z) (i : nat)
    (item : GradeData.t) (b : Batch) :
  let b' := batch_item teacher now i item b in
  (exists e l, errors b' = errors b ++ e :: l)
  \/ (errors b' = errors b
      /\ (created_grades b' + updated_grades b'
          = S (created_grades b + updated_grades b))%nat
      /\ (length (grades (txn (session b'))) + created_grades b
          = length (grades (txn (session b))) + created_grades b')%nat).
Proof.
  assert (Hskip : forall l,
    let b' := append_errors [l]
                (append_errors
                   (map (fun field => (S i, FieldRequired field))
                        (missing_fields item)) b) in
    (exists e l, errors b' = errors b ++ e :: l)
    \/ (errors b' = errors b
        /\ (created_grades b' + updated_grades b'
            = S (created_grades b + updated_grades b))%nat
        /\ (length (grades (txn (session b'))) + created_grades b
            = length (grades (txn (session b))) + created_grades b')%nat)).
  { intro l. left. cbn [append_errors errors]. rewrite <- app_assoc.
    destruct (map _ (missing_fields item)) as [|x xs]; simpl; eauto. }
  unfold batch_item. cbv zeta.
  destruct (GradeData.enrollment_id item) as [eid|] eqn:E1; [|apply Hskip].
  destruct (GradeData.evaluation_id item) as [vid|] eqn:E2; [|apply Hskip].
  cbn [session append_errors].
  destruct (get_enrollment (txn (session b)) eid) as [enrollment|] eqn:E3;
    [|apply Hskip].
  destruct (get_evaluation (txn (session b)) vid) as [evaluation|] eqn:E4;
    [|apply Hskip].
  destruct (batch_check (txn (session b)) teacher
              (Evaluation.class_group_id evaluation)) eqn:E5;
    [|apply Hskip|apply Hskip].
  destruct (GradeData.score item) as [score|] eqn:E6; [|apply Hskip].
  destruct (out_of_range score (Evaluation.max_score evaluation)) eqn:E7;
    [apply Hskip|].
  assert (Hm : missing_fields item = []).
  { unfold missing_fields. now rewrite E1, E2, E6. }
  rewrite Hm. cbn [map app append_errors errors]. rewrite !app_nil_r.
  right.
  destruct (grade_first (txn (session b)) eid vid) as [existing|] eqn:E8;
    cbn [append_errors session errors created_grades updated_grades].
  all: match goal with
       | |- context [recompute_final_grade ?e ?s] =>
         destruct (recompute_txn e s) as [v [Ht _]]
       end.
  all: rewrite Ht; cbn [txn modify].
  all: change (grades (update_enrollment_row ?e ?f ?d)) with (grades d).
  - unfold update_grade_row. cbn [grades with_grades]. rewrite length_map.
    split; [reflexivity|]. split; lia.
  - unfold add_grade. cbn [grades with_grades]. rewrite length_app. simpl.
    split; [reflexivity|]. split; lia.
Qed.

Lemma batch_loop_progress (teacher : option Teacher.t) (now : Z)
    (items : list GradeData.t) :
  forall (i : nat) (b : Batch),
    let b' := batch_loop teacher now i items b in
    errors b' = [] ->
    (created_grades b' + updated_grades b'
     = created_grades b + updated_grades b + length items)%nat
    /\ (length (grades (txn (session b'))) + created_grades b
        = length (grades (txn (session b))) + created_grades b')%nat.
Proof.
  induction items as [|item rest IH]; intros i b; cbn [batch_loop length].
  - intros _. split; lia.
  - intro Hnil. specialize (IH (S i) (batch_item teacher now i item b)).
    cbv zeta in IH. specialize (IH Hnil).
    destruct (batch_loop_inv teacher now rest (S i)
                (batch_item teacher now i item b)) as [_ [_ [_ Herr]]].
    cbv zeta in Herr. rewrite Hnil in Herr.
    destruct (batch_item_progress teacher now i item b)
      as [[e [l He]]|[_ [Hc Hl]]].
    + rewrite He in Herr. symmetry in Herr.
      apply app_eq_nil in Herr. destruct Herr as [Herr _].
      apply app_eq_nil in Herr. destruct Herr as [_ Herr]. discriminate Herr.
    + destruct IH as [IH1 IH2]. split; lia.
Qed.

(** X20.  A batch that is accepted has processed every item once: the two
    counts of the answer add up to the number of items, and the store holds
    one more Grade row for each item counted as created. *)
Theorem batch_counts (db : Tables) (current_user : User.t) (now : Z)
    (items : list GradeData.t) :
  let '(db', r) := run (create_grades_batch current_user now items) db in
  forall created updated, r = GradesProcessed created updated ->
  (created + updated = length items)%nat
  /\ length (grades db') = (length (grades db) + created)%nat.
Proof.
  unfold run, create_grades_batch. cbv zeta.
  destruct items as [|item rest]; [intros c u H; discriminate H|].
  cbn [txn begin].
  set (teacher := if Role.eqb _ _ then _ else None).
  pose proof (batch_loop_progress teacher now (item :: rest) 0
                (mkBatch (begin db) 0 0 [])) as H.
  cbv zeta in H. cbn [session created_grades updated_grades txn begin] in H.
  remember (batch_loop teacher now 0 (item :: rest)
              (mkBatch (begin db) 0 0 [])) as b' eqn:Hb.
  clear Hb. destruct (errors b') as [|e l];
    [|intros c u Hr; discriminate Hr].
  intros c u Hr. injection Hr as <- <-.
  destruct (H eq_refl) as [H1 H2]. cbn [commit store]. split; lia.
Qed.

Lemma batch_counts_witness :
  (2 + 0 = length two_new_grades)%nat
  /\ length (grades (fst (run (create_grades_batch the_teacher 2000
                                 two_new_grades) class_db)))
     = (length (grades class_db) + 2)%nat.
Proof.
  apply (batch_counts class_db the_teacher 2000 two_new_grades 2%nat 0%nat).
  reflexivity.
Defined.

(** ** Scores stay in range *)

Lemma unique_id_row (l : list Grade.t) (g h : Grade.t) :
  NoDup (map Grade.id l) -> In g l -> In h l -> Grade.id g = Grade.id h ->
  g = h.
Proof.
  induction l as [|x l IH]; simpl; [tauto|].
  intros Hnd Hg Hh Heq. inversion Hnd as [|i ids Hx Hl]; subst.
  destruct Hg as [->|Hg], Hh as [->|Hh]; auto.
  - exfalso. apply Hx. rewrite Heq. now apply in_map.
  - exfalso. apply Hx. rewrite <- Heq. now apply in_map.
Qed.

Lemma well_formed_update (db : Tables) (i : Z) (f : Grade.t -> Grade.t)
    (g : Grade.t) :
  grades_well_formed db ->
  In g (grades db) -> Grade.id g = i ->
  (forall h, Grade.id (f h) = Grade.id h) ->
  score_in_range db (f g) = true ->
  grades_well_formed (update_grade_row i f db).
Proof.
  intros [Hnd Hr] Hin Hid Hfid Hfg. split.
  - unfold update_grade_row. cbn [grades with_grades]. rewrite map_map.
    erewrite map_ext; [exact Hnd|]. intro h. simpl.
    destruct (Grade.id h =? i); [apply Hfid|reflexivity].
  - unfold scores_in_range, update_grade_row. cbn [grades with_grades].
    change (score_in_range (with_grades ?l db)) with (score_in_range db).
    unfold scores_in_range in Hr. rewrite forallb_forall in Hr.
    apply forallb_forall. intros h' Hh'. apply in_map_iff in Hh'.
    destruct Hh' as [h [<- Hh]].
    destruct (Z.eqb_spec (Grade.id h) i) as [E|E]; [|now apply Hr].
    assert (h = g) as -> by (apply (unique_id_row (grades db)); congruence).
    exact Hfg.
Qed.

Lemma well_formed_add (db : Tables) (g : Grade.t) :
  grades_well_formed db ->
  Grade.id g = next_id (map Grade.id (grades db)) ->
  score_in_range db g = true ->
  grades_well_formed (add_grade g db).
Proof.
  intros [Hnd Hr] Hid Hg. split.
  - unfold add_grade. cbn [grades with_grades]. rewrite map_app. simpl.
    apply NoDup_app; [exact Hnd|constructor; [simpl; tauto|constructor]|].
    intros k Hk [<-|[]].
    pose proof (next_id_fresh _ _ Hk). lia.
  - unfold scores_in_range, add_grade. cbn [grades with_grades].
    change (score_in_range (with_grades ?l db)) with (score_in_range db).
    rewrite forallb_app. unfold scores_in_range in Hr. rewrite Hr. simpl.
    now rewrite Hg.
Qed.

Lemma well_formed_delete (db : Tables) (i : Z) :
  grades_well_formed db -> grades_well_formed (delete_grade_row i db).
Proof.
  intros [Hnd Hr]. split.
  - unfold delete_grade_row. cbn [grades with_grades].
    induction (grades db) as [|g l IH]; simpl; [constructor|].
    simpl in Hnd. inversion Hnd as [|k ks Hk Hl]; subst.
    destruct (negb (Grade.id g =? i)); [|now apply IH].
    simpl. constructor; [|now apply IH].
    intro Hin. apply Hk. apply in_map_iff in Hin.
    destruct Hin as [h [Hh Hin]]. apply filter_In in Hin.
    rewrite <- Hh. apply in_map. tauto.
  - unfold scores_in_range, delete_grade_row. cbn [grades with_grades].
    change (score_in_range (with_grades ?l db)) with (score_in_range db).
    unfold scores_in_range in Hr. rewrite forallb_forall in Hr.
    apply forallb_forall. intros h Hh. apply filter_In in Hh. now apply Hr.
Qed.

Lemma score_in_range_checked (db : Tables) (g : Grade.t) (ev : Evaluation.t)
    (score : option Q) :
  get_evaluation db (Grade.evaluation_id g) = Some ev ->
  Grade.score g = score ->
  out_of_range score (Evaluation.max_score ev) = false ->
  score_in_range db g = true.
Proof.
  intros He Hs Ho. unfold score_in_range. now rewrite He, Hs, Ho.
Qed.

Lemma create_grade_well_formed (current_user : User.t) (now : Z)
    (data : GradeData.t) (db : Tables) :
  grades_well_formed db ->
  grades_well_formed (fst (run (create_grade current_user now data) db)).
Proof.
  intro Hwf. unfold run, create_grade, raise. cbn [txn begin].
  destruct (GradeData.enrollment_id data) as [eid|]; [|exact Hwf].
  destruct (GradeData.evaluation_id data) as [vid|]; [|exact Hwf].
  destruct (GradeData.score data) as [score|]; [|exact Hwf].
  destruct (get_enrollment db eid) as [enr|]; [|exact Hwf].
  destruct (get_evaluation db vid) as [ev|] eqn:Hev; [|exact Hwf].
  destruct (teacher_check db current_user (Evaluation.class_group_id ev));
    try exact Hwf.
  destruct (out_of_range score (Evaluation.max_score ev)) eqn:Hrange;
    [exact Hwf|].
  destruct (grade_first db eid vid) as [existing|] eqn:Hfirst.
  - cbn beta iota. rewrite commit_recompute_commit. cbn [txn modify begin fst].
    change (grades_well_formed (settle ?e ?d)) with (grades_well_formed d).
    apply grade_first_key in Hfirst. destruct Hfirst as [Hin Hkey].
    unfold Grade.key in Hkey. inversion Hkey as [[Hke Hkv]].
    apply (well_formed_update db _ _ existing Hwf Hin eq_refl).
    + intro h. apply assign_columns.
    + apply (score_in_range_checked db _ ev score).
      * unfold stamp_grader. destruct (Role.eqb _ _); simpl;
          now rewrite Hkv, Hev.
      * unfold stamp_grader. now destruct (Role.eqb _ _).
      * exact Hrange.
  - cbn beta iota. rewrite commit_recompute_commit. cbn [txn modify begin fst].
    change (grades_well_formed (settle ?e ?d)) with (grades_well_formed d).
    apply (well_formed_add db _ Hwf).
    + now rewrite stamp_grader_id.
    + apply (score_in_range_checked db _ ev score).
      * unfold stamp_grader. now destruct (Role.eqb _ _).
      * unfold stamp_grader. now destruct (Role.eqb _ _).
      * exact Hrange.
Qed.

Lemma update_grade_well_formed (current_user : User.t) (now : Z)
    (grade_id : Z) (data : GradeData.t) (db : Tables) :
  grades_well_formed db ->
  grades_well_formed
    (fst (run (update_grade current_user now grade_id data) db)).
Proof.
  intro Hwf.
  assert (H : let '(db', r) :=
                run (update_grade current_user now grade_id data) db in
              grades_well_formed db').
  { unfold run, update_grade, raise. cbv zeta. cbn [txn begin].
    destruct (get_grade db grade_id) as [grade|] eqn:Hg; [|exact Hwf].
    pose proof (find_id_eq _ _ _ _ Hg) as [Hin Hid].
    assert (Hold : score_in_range db grade = true).
    { destruct Hwf as [_ Hr]. unfold scores_in_range in Hr.
      rewrite forallb_forall in Hr. now apply Hr. }
    repeat case_step.
    all: try exact Hwf.
    all: try rewrite commit_recompute_commit.
    all: cbn [txn modify begin commit rollback store].
    all: try change (grades_well_formed (settle ?e ?d))
           with (grades_well_formed d).
    all: apply (well_formed_update db _ _ _ Hwf Hin Hid);
      [intro h; rewrite stamp_grader_id;
       destruct (GradeData.comments _); reflexivity|].
    all: unfold score_in_range, stamp_grader.
    all: unfold score_in_range in Hold.
    all: destruct (Role.eqb _ _); destruct (GradeData.comments _).
    all: cbn [Grade.evaluation_id Grade.score Grade.set_score
              Grade.set_comments Grade.set_graded_at Grade.set_graded_by].
    all: try match goal with
             | H : get_evaluation _ _ = _ |- _ =>
               rewrite ?H; rewrite ?H in Hold
             end.
    all: try match goal with
             | H : out_of_range _ _ = _ |- _ => rewrite H
             end.
    all: try reflexivity.
    all: try exact Hold.
    all: try (destruct (get_evaluation _ _); reflexivity). }
  now destruct (run (update_grade current_user now grade_id data) db).
Qed.

Lemma delete_grade_well_formed (current_user : User.t) (grade_id : Z)
    (db : Tables) :
  grades_well_formed db ->
  grades_well_formed (fst (run (delete_grade current_user grade_id) db)).
Proof.
  intro Hwf.
  assert (H : let '(db', r) := run (delete_grade current_user grade_id) db in
              grades_well_formed db').
  { unfold run, delete_grade, raise. cbv zeta. cbn [txn begin].
    repeat case_step.
    all: try exact Hwf.
    all: try rewrite commit_recompute_commit.
    all: cbn [txn modify begin commit rollback store].
    all: try change (grades_well_formed (settle ?e ?d))
           with (grades_well_formed d).
    all: now apply well_formed_delete. }
  now destruct (run (delete_grade current_user grade_id) db).
Qed.

Lemma batch_item_well_formed (teacher : option Teacher.t) (now : Z) (i : nat)
    (item : GradeData.t) (b : Batch) :
  grades_well_formed (txn (session b)) ->
  grades_well_formed (txn (session (batch_item teacher now i item b))).
Proof.
  intro Hwf. unfold batch_item. cbv zeta.
  destruct (GradeData.enrollment_id item) as [eid|]; [|exact Hwf].
  destruct (GradeData.evaluation_id item) as [vid|]; [|exact Hwf].
  cbn [session append_errors].
  destruct (get_enrollment (txn (session b)) eid) as [enrollment|];
    [|exact Hwf].
  destruct (get_evaluation (txn (session b)) vid) as [evaluation|] eqn:Hev;
    [|exact Hwf].
  destruct (batch_check (txn (session b)) teacher
              (Evaluation.class_group_id evaluation)); try exact Hwf.
  destruct (GradeData.score item) as [score|]; [|exact Hwf].
  destruct (out_of_range score (Evaluation.max_score evaluation)) eqn:Hrange;
    [exact Hwf|].
  destruct (grade_first (txn (session b)) eid vid) as [existing|] eqn:Hfirst;
    cbn [session].
  all: match goal with
       | |- context [recompute_final_grade ?e ?s] =>
         destruct (recompute_txn e s) as [v [Ht _]]
       end.
  all: rewrite Ht; cbn [txn modify].
  all: change (grades_well_formed (update_enrollment_row ?e ?f ?d))
         with (grades_well_formed d).
  - apply grade_first_key in Hfirst. destruct Hfirst as [Hin Hkey].
    unfold Grade.key in Hkey. inversion Hkey as [[Hke Hkv]].
    apply (well_formed_update _ _ _ existing Hwf Hin eq_refl).
    + reflexivity.
    + apply (score_in_range_checked _ _ evaluation score);
        [simpl; now rewrite Hkv, Hev|reflexivity|exact Hrange].
  - apply (well_formed_add _ _ Hwf); [reflexivity|].
    now apply (score_in_range_checked _ _ evaluation score).
Qed.

Lemma batch_loop_well_formed (teacher : option Teacher.t) (now : Z)
    (items : list GradeData.t) :
  forall (i : nat) (b : Batch),
    grades_well_formed (txn (session b)) ->
    grades_well_formed (txn (session (batch_loop teacher now i items b))).
Proof.
  induction items as [|item rest IH]; intros i b Hwf; cbn [batch_loop].
  - exact Hwf.
  - apply IH. now apply batch_item_well_formed.
Qed.

Lemma batch_well_formed (current_user : User.t) (now : Z)
    (items : list GradeData.t) (db : Tables) :
  grades_well_formed db ->
  grades_well_formed
    (fst (run (create_grades_batch current_user now items) db)).
Proof.
  intro Hwf. unfold run, create_grades_batch. cbv zeta.
  destruct items as [|item rest]; [exact Hwf|].
  cbn [txn begin].
  set (teacher := if Role.eqb _ _ then _ else None).
  pose proof (batch_loop_well_formed teacher now (item :: rest) 0
                (mkBatch (begin db) 0 0 []) Hwf) as H.
  destruct (batch_loop_inv teacher now (item :: rest) 0
              (mkBatch (begin db) 0 0 [])) as [Hs _].
  cbv zeta in Hs. cbn [session store begin] in Hs.
  remember (batch_loop teacher now 0 (item :: rest)
              (mkBatch (begin db) 0 0 [])) as b' eqn:Hb.
  clear Hb. destruct (errors b').
  - exact H.
  - cbn [fst rollback store]. now rewrite Hs.
Qed.

(** X21.  On a store whose Grade rows have distinct ids and whose scores
    are null or within [0, max_score] of their evaluation, each of the four
    handlers that write grades leaves a store of the same kind, whatever
    the request and whatever the answer. *)
Theorem scores_stay_in_range (db : Tables) (current_user : User.t)
    (now : Z) (data : GradeData.t) (items : list GradeData.t)
    (grade_id : Z) :
  grades_well_formed db ->
  grades_well_formed (fst (run (create_grade current_user now data) db))
  /\ grades_well_formed
       (fst (run (create_grades_batch current_user now items) db))
  /\ grades_well_formed
       (fst (run (update_grade current_user now grade_id data) db))
  /\ grades_well_formed (fst (run (delete_grade current_user grade_id) db)).
Proof.
  intro Hwf. split; [|split; [|split]].
  - now apply create_grade_well_formed.
  - now apply batch_well_formed.
  - now apply update_grade_well_formed.
  - now apply delete_grade_well_formed.
Qed.

Lemma scores_stay_in_range_witness :
  grades_well_formed
    (fst (run (create_grade the_teacher 2000 (grade_data 1 2 4)) graded_db))
  /\ grades_well_formed
       (fst (run (create_grades_batch the_teacher 2000 two_new_grades)
                 graded_db))
  /\ grades_well_formed
       (fst (run (update_grade the_teacher 2000 1 (grade_data 1 2 4))
                 graded_db))
  /\ grades_well_formed (fst (run (delete_grade the_teacher 1) graded_db)).
Proof.
  apply (scores_stay_in_range graded_db the_teacher 2000 (grade_data 1 2 4)
           two_new_grades 1).
  split; [|reflexivity].
  cbv. apply NoDup_cons; [simpl; tauto|apply NoDup_nil].
Defined.

Lemma settle_moved (enrollment_id moved_id class_id : Z) (db : Tables) :
  settle enrollment_id
    (update_enrollment_row moved_id (set_enrollment_class class_id) db)
  = update_enrollment_row moved_id (set_enrollment_class class_id)
      (settle enrollment_id db).
Proof.
  unfold settle.
  change (aggregate (update_enrollment_row ?i ?f db)) with (aggregate db).
  unfold update_enrollment_row, with_enrollments.
  cbn [students teachers subjects class_groups enrollments evaluations
       grades attendance].
  f_equal. rewrite !map_map. apply map_ext. intro e.
  destruct (Enrollment.id e =? moved_id) eqn:E1;
    destruct (Enrollment.id e =? enrollment_id) eqn:E2;
    cbn [Enrollment.id set_enrollment_class Enrollment.set_final_grade];
    rewrite ?E1, ?E2; reflexivity.
Qed.

(** X22.  [create_grade] never reads the class group of the enrollment:
    with any enrollment moved to any class group, it gives the same answer
    and writes the same rows.  In particular it records a grade for an
    enrollment on an evaluation of a class group the enrollment is not in. *)
Theorem create_grade_ignores_enrollment_class (db : Tables)
    (current_user : User.t) (now : Z) (data : GradeData.t)
    (moved_id class_id : Z) :
  let moved :=
    update_enrollment_row moved_id (set_enrollment_class class_id) in
  run (create_grade current_user now data) (moved db)
  = (moved (fst (run (create_grade current_user now data) db)),
     snd (run (create_grade current_user now data) db)).
Proof.
  cbv zeta. unfold run, create_grade, raise. cbn [txn begin].
  destruct (GradeData.enrollment_id data) as [eid|]; [|reflexivity].
  destruct (GradeData.evaluation_id data) as [vid|]; [|reflexivity].
  destruct (GradeData.score data) as [score|]; [|reflexivity].
  assert (He : get_enrollment
                 (update_enrollment_row moved_id
                    (set_enrollment_class class_id) db) eid
               = option_map (fun e => if Enrollment.id e =? moved_id
                                      then set_enrollment_class class_id e
                                      else e)
                            (get_enrollment db eid)).
  { unfold get_enrollment, update_enrollment_row.
    cbn [enrollments with_enrollments]. apply find_map_preserved.
    intro e. now destruct (Enrollment.id e =? moved_id). }
  rewrite He.
  destruct (get_enrollment db eid) as [enr|]; [|reflexivity].
  cbn [option_map].
  change (get_evaluation (update_enrollment_row ?i ?f db))
    with (get_evaluation db).
  destruct (get_evaluation db vid) as [ev|]; [|reflexivity].
  change (teacher_check (update_enrollment_row ?i ?f db))
    with (teacher_check db).
  destruct (teacher_check db current_user (Evaluation.class_group_id ev));
    try reflexivity.
  destruct (out_of_range score (Evaluation.max_score ev)); [reflexivity|].
  change (grade_first (update_enrollment_row ?i ?f db))
    with (grade_first db).
  assert (Hid : Enrollment.id (if Enrollment.id enr =? moved_id
                               then set_enrollment_class class_id enr
                               else enr) = Enrollment.id enr)
    by now destruct (Enrollment.id enr =? moved_id).
  rewrite Hid.
  destruct (grade_first db eid vid) as [existing|].
  - rewrite !commit_recompute_commit. cbn [txn modify begin fst snd].
    change (stamp_grader (update_enrollment_row ?i ?f db))
      with (stamp_grader db).
    f_equal.
    change (update_grade_row ?i ?f (update_enrollment_row ?j ?g db))
      with (update_enrollment_row j g (update_grade_row i f db)).
    apply settle_moved.
  - rewrite !commit_recompute_commit. cbn [txn modify begin fst snd].
    change (stamp_grader (update_enrollment_row ?i ?f db))
      with (stamp_grader db).
    change (grades (update_enrollment_row ?i ?f db)) with (grades db).
    f_equal.
    change (add_grade ?x (update_enrollment_row ?j ?g db))
      with (update_enrollment_row j g (add_grade x db)).
    apply settle_moved.
Qed.

(** ** Reports *)

Lemma rate_bounds (count total : nat) :
  (0 < total)%nat -> (count <= total)%nat ->
  (0 <= rate count total)%Q /\ (rate count total <= 100)%Q.
Proof.
  intros Ht Hc. unfold rate.
  assert (Hn : (0 < inject_Z (Z.of_nat total))%Q).
  { change 0%Q with (inject_Z 0). rewrite <- Zlt_Qlt. lia. }
  assert (H0 : (0 <= inject_Z (Z.of_nat count))%Q).
  { change 0%Q with (inject_Z 0). rewrite <- Zle_Qle. lia. }
  assert (H1 : (inject_Z (Z.of_nat count) <= inject_Z (Z.of_nat total))%Q).
  { rewrite <- Zle_Qle. lia. }
  revert Hn H0 H1.
  generalize (inject_Z (Z.of_nat count)) (inject_Z (Z.of_nat total)).
  intros c t Hn H0 H1.
  assert (Hq0 : (0 <= c / t)%Q).
  { apply Qle_shift_div_l; [exact Hn|]. lra. }
  assert (Hq1 : (c / t <= 1)%Q).
  { apply Qle_shift_div_r; [exact Hn|]. lra. }
  revert Hq0 Hq1. generalize (c / t)%Q. intros q Hq0 Hq1.
  apply (round2_bounds 0 100).
  - change (inject_Z 0) with 0%Q. lra.
  - change (inject_Z 100) with 100%Q. lra.
Qed.


(** What one turn of the loop of the transcript keeps, after [k] rows. *)
Lemma transcript_step_bounds (a b : Z) (row : Enrollment.t * Z) (t : Totals)
    (k : nat) :
  transcript_rows_between a b [row] = true ->
  (approved_subjects (summary t) + failed_subjects (summary t) <= k)%nat ->
  0 <= total_credits_earned (summary t)
    <= total_credits_attempted (summary t) ->
  0 <= total_credits_for_gpa t ->
  (inject_Z a * inject_Z (total_credits_for_gpa t)
   <= total_grade_points t)%Q ->
  (total_grade_points t
   <= inject_Z b * inject_Z (total_credits_for_gpa t))%Q ->
  let t' := transcript_step t row in
  (approved_subjects (summary t') + failed_subjects (summary t') <= S k)%nat
  /\ 0 <= total_credits_earned (summary t')
     <= total_credits_attempted (summary t')
  /\ 0 <= total_credits_for_gpa t'
  /\ (inject_Z a * inject_Z (total_credits_for_gpa t')
      <= total_grade_points t')%Q
  /\ (total_grade_points t'
      <= inject_Z b * inject_Z (total_credits_for_gpa t'))%Q
  /\ total_subjects (summary t') = total_subjects (summary t)
  /\ gpa (summary t') = gpa (summary t).
Proof.
  destruct row as [e c]. unfold transcript_rows_between. simpl.
  rewrite andb_true_r. intro H. apply andb_true_iff in H.
  destruct H as [Hc Hg]. apply Z.leb_le in Hc.
  intros H1 H2 H3 H4 H5.
  assert (Hcq : (0 <= inject_Z c)%Q)
    by (change 0%Q with (inject_Z 0); now rewrite <- Zle_Qle).
  unfold transcript_step.
  destruct (truthy (Enrollment.final_grade e) && negb (c =? 0)) eqn:Ht.
  - destruct (Enrollment.final_grade e) as [g|]; [|discriminate Ht].
    apply andb_true_iff in Hg. destruct Hg as [Ha Hb].
    apply Qle_bool_iff in Ha, Hb.
    destruct (Enrollment.final_status e); cbn [summary total_grade_points
      total_credits_for_gpa approved_subjects failed_subjects
      total_credits_earned total_credits_attempted total_subjects gpa].
    all: rewrite inject_Z_plus.
    all: revert Ha Hb H4 H5 Hcq.
    all: generalize (inject_Z a) (inject_Z b) (inject_Z c)
           (inject_Z (total_credits_for_gpa t)) (total_grade_points t).
    all: intros qa qb qc qf qp Ha Hb H4 H5 Hcq.
    all: repeat split; try lia; try reflexivity; nra.
  - destruct (Enrollment.final_status e); cbn [summary total_grade_points
      total_credits_for_gpa approved_subjects failed_subjects
      total_credits_earned total_credits_attempted total_subjects gpa].
    all: repeat split; try lia; try reflexivity; assumption.
Qed.

Lemma transcript_fold_bounds (a b : Z) (rows : list (Enrollment.t * Z)) :
  transcript_rows_between a b rows = true ->
  forall (t : Totals) (k : nat),
    (approved_subjects (summary t) + failed_subjects (summary t) <= k)%nat ->
    0 <= total_credits_earned (summary t)
      <= total_credits_attempted (summary t) ->
    0 <= total_credits_for_gpa t ->
    (inject_Z a * inject_Z (total_credits_for_gpa t)
     <= total_grade_points t)%Q ->
    (total_grade_points t
     <= inject_Z b * inject_Z (total_credits_for_gpa t))%Q ->
    let t' := fold_left transcript_step rows t in
    (approved_subjects (summary t') + failed_subjects (summary t')
     <= k + length rows)%nat
    /\ 0 <= total_credits_earned (summary t')
       <= total_credits_attempted (summary t')
    /\ 0 <= total_credits_for_gpa t'
    /\ (inject_Z a * inject_Z (total_credits_for_gpa t')
        <= total_grade_points t')%Q
    /\ (total_grade_points t'
        <= inject_Z b * inject_Z (total_credits_for_gpa t'))%Q
    /\ total_subjects (summary t') = total_subjects (summary t)
    /\ gpa (summary t') = gpa (summary t).
Proof.
  induction rows as [|row rows IH]; intros Hb t k H1 H2 H3 H4 H5.
  - simpl. rewrite Nat.add_0_r. repeat split; tauto || lia || assumption.
  - assert (Hrow : transcript_rows_between a b [row] = true
                   /\ transcript_rows_between a b rows = true).
    { unfold transcript_rows_between in *. simpl in *.
      apply andb_true_iff in Hb. destruct Hb as [Hr Hl].
      now rewrite Hr, Hl. }
    destruct Hrow as [Hrow Hrest].
    destruct (transcript_step_bounds a b row t k Hrow H1 H2 H3 H4 H5)
      as [S1 [S2 [S3 [S4 [S5 [S6 S7]]]]]].
    cbn [fold_left length].
    destruct (IH Hrest (transcript_step t row) (S k) S1 S2 S3 S4 S5)
      as [F1 [F2 [F3 [F4 [F5 [F6 F7]]]]]].
    cbv zeta in *. rewrite F6, F7, S6, S7.
    repeat split; tauto || lia || assumption.
Qed.

(** X24.  On a transcript whose credits are not negative and whose final
    grades lie between [a] and [b], with [a <= 0 <= b]: the subjects count
    the rows, approved and failed subjects are among them, the credits
    earned are part of the credits attempted, and the GPA lies between [a]
    and [b]. *)
Theorem transcript_summary_bounds (a b : Z) (rows : list (Enrollment.t * Z)) :
  a <= 0 <= b ->
  transcript_rows_between a b rows = true ->
  let sm := transcript_summary rows in
  total_subjects sm = length rows
  /\ (approved_subjects sm + failed_subjects sm <= total_subjects sm)%nat
  /\ 0 <= total_credits_earned sm <= total_credits_attempted sm
  /\ (inject_Z a <= gpa sm)%Q /\ (gpa sm <= inject_Z b)%Q.
Proof.
  intros Hab Hb.
  destruct (transcript_fold_bounds a b rows Hb
              (mkTotals (mkSummary 0 0 0 (length rows) 0 0) 0 0) 0%nat)
    as [F1 [F2 [F3 [F4 [F5 [F6 F7]]]]]];
    cbn [summary approved_subjects failed_subjects total_credits_earned
         total_credits_attempted total_credits_for_gpa total_grade_points];
    try lia; try (change (inject_Z 0) with 0%Q; lra).
  cbv zeta in *.
  cbn [summary total_subjects gpa] in F6, F7.
  unfold transcript_summary.
  remember (fold_left transcript_step rows
              (mkTotals (mkSummary 0 0 0 (length rows) 0 0) 0 0)) as t.
  clear Heqt.
  destruct (0 <? total_credits_for_gpa t) eqn:Hpos;
    cbn [total_subjects approved_subjects failed_subjects
         total_credits_earned total_credits_attempted gpa];
    rewrite ?F6, ?F7.
  - apply Z.ltb_lt in Hpos.
    assert (Hq : (0 < inject_Z (total_credits_for_gpa t))%Q)
      by (change 0%Q with (inject_Z 0); now rewrite <- Zlt_Qlt).
    split; [reflexivity|]. split; [lia|]. split; [lia|].
    apply round2_bounds.
    + apply Qle_shift_div_l; [exact Hq|exact F4].
    + apply Qle_shift_div_r; [exact Hq|exact F5].
  - split; [reflexivity|]. split; [lia|]. split; [lia|].
    change 0%Q with (inject_Z 0). rewrite <- !Zle_Qle. lia.
Qed.

Lemma transcript_summary_bounds_witness :
  let sm := transcript_summary gpa_rows in
  total_subjects sm = length gpa_rows
  /\ (approved_subjects sm + failed_subjects sm <= total_subjects sm)%nat
  /\ 0 <= total_credits_earned sm <= total_credits_attempted sm
  /\ (inject_Z 0 <= gpa sm)%Q /\ (gpa sm <= inject_Z 10)%Q.
Proof.
  apply (transcript_summary_bounds 0 10 gpa_rows); [lia|reflexivity].
Defined.

(** *** The summary of a class *)

Lemma grade_distribution_counts (l : list Enrollment.t) :
  forall d : nat * nat * nat,
    match grade_distribution l d with
    | None =>
      existsb (fun e => FinalStatus.eqb (Enrollment.final_status e)
                          FinalStatus.incomplete) l = true
    | Some (approved, failed, in_progress) =>
      existsb (fun e => FinalStatus.eqb (Enrollment.final_status e)
                          FinalStatus.incomplete) l = false
      /\ (approved + failed
          = fst (fst d) + snd (fst d) + length (filter is_completed l))%nat
      /\ (approved + failed + in_progress
          = fst (fst d) + snd (fst d) + snd d + length l)%nat
    end.
Proof.
  induction l as [|e l IH]; intros [[a f] i].
  - simpl. repeat split; lia.
  - cbn [grade_distribution count_final_status existsb filter length].
    unfold is_completed.
    destruct (Enrollment.final_status e); cbn [FinalStatus.eqb orb].
    + specialize (IH (S a, f, i)).
      destruct (grade_distribution l (S a, f, i)) as [[[a' f'] i']|];
        [|exact IH].
      cbn [fst snd length] in *. destruct IH as [H1 [H2 H3]].
      unfold is_completed in H2. repeat split; [exact H1|lia|lia].
    + specialize (IH (a, S f, i)).
      destruct (grade_distribution l (a, S f, i)) as [[[a' f'] i']|];
        [|exact IH].
      cbn [fst snd length] in *. destruct IH as [H1 [H2 H3]].
      unfold is_completed in H2. repeat split; [exact H1|lia|lia].
    + reflexivity.
    + specialize (IH (a, f, S i)).
      destruct (grade_distribution l (a, f, S i)) as [[[a' f'] i']|];
        [|exact IH].
      cbn [fst snd length] in *. destruct IH as [H1 [H2 H3]].
      unfold is_completed in H2. repeat split; [exact H1|lia|lia].
Qed.

(** X25.  For a class that exists and a user who is not a teacher,
    [get_class_summary] answers with a summary exactly when the class has a
    maximum number of students and no enrollment of the class has the final
    status incomplete; otherwise it raises and the answer is a 500. *)
Theorem get_class_summary_failure (db : Tables) (current_user : User.t)
    (class_id : Z) (class_group : ClassGroup.t) :
  get_class_group db class_id = Some class_group ->
  Role.eqb (User.role current_user) Role.teacher = false ->
  match get_class_summary db current_user class_id with
  | inr _ =>
    ClassGroup.max_students class_group <> None
    /\ has_incomplete db class_id = false
  | inl error =>
    status_code error = 500
    /\ (ClassGroup.max_students class_group = None
        \/ has_incomplete db class_id = true)
  end.
Proof.
  intros Hc Hr. unfold get_class_summary, has_incomplete. rewrite Hc, Hr.
  destruct (ClassGroup.max_students class_group) as [m|]; [|simpl; auto].
  pose proof (grade_distribution_counts (enrollments_of db class_id)
                (0, 0, 0)%nat) as H.
  destruct (grade_distribution (enrollments_of db class_id) (0, 0, 0)%nat)
    as [[[a f] i]|].
  - destruct H as [H _]. split; [discriminate|exact H].
  - simpl. auto.
Qed.

Lemma get_class_summary_failure_witness :
  match get_class_summary incomplete_db an_admin 1 with
  | inr _ =>
    ClassGroup.max_students (ClassGroup.mk 1 1 1 (Some 6) ClassStatus.active)
    <> None
    /\ has_incomplete incomplete_db 1 = false
  | inl error =>
    status_code error = 500
    /\ (ClassGroup.max_students
          (ClassGroup.mk 1 1 1 (Some 6) ClassStatus.active) = None
        \/ has_incomplete incomplete_db 1 = true)
  end.
Proof.
  apply (get_class_summary_failure incomplete_db an_admin 1
           (ClassGroup.mk 1 1 1 (Some 6) ClassStatus.active));
    reflexivity.
Defined.

Lemma attendance_percentage_bounds (records : list Attendance.t) :
  (0 <= attendance_percentage records)%Q
  /\ (attendance_percentage records <= 100)%Q.
Proof.
  unfold attendance_percentage. destruct records as [|r l]; [split; lra|].
  remember (r :: l) as records.
  assert (Hlen : (0 < length records)%nat) by (subst; simpl; lia).
  assert (Hz : (0 <? Z.of_nat (length records)) = true)
    by (apply Z.ltb_lt; lia).
  rewrite Hz. apply (rate_bounds _ _ Hlen). apply filter_length_le.
Qed.

(** X26.  In a summary of a class, the three counts of the grade
    distribution add up to the enrollments of the class, of any status, and
    the completed students are the approved and the failed ones; the
    enrolled students are those [enroll_student] counts; the capacity
    percentage is 0 for a maximum that is not positive and never negative;
    the average attendance rate lies between 0 and 100. *)
Theorem get_class_summary_counts (db : Tables) (current_user : User.t)
    (class_id : Z) :
  match get_class_summary db current_user class_id with
  | inl _ => True
  | inr s =>
    (grade_distribution_approved s + grade_distribution_failed s
     + grade_distribution_in_progress s
     = length (enrollments_of db class_id))%nat
    /\ (completed_students s
        = grade_distribution_approved s + grade_distribution_failed s)%nat
    /\ Z.of_nat (total_enrolled s) = enrolled_count db class_id
    /\ (0 <= capacity_percentage s)%Q
    /\ (max_capacity s <= 0 -> capacity_percentage s = 0%Q)
    /\ (0 <= average_attendance_rate s)%Q
    /\ (average_attendance_rate s <= 100)%Q
  end.
Proof.
  unfold get_class_summary.
  destruct (get_class_group db class_id) as [c|]; [|exact I].
  match goal with |- match (if ?d then _ else _) with _ => _ end =>
    destruct d end; [exact I|].
  destruct (ClassGroup.max_students c) as [m|]; [|exact I].
  pose proof (grade_distribution_counts (enrollments_of db class_id)
                (0, 0, 0)%nat) as H.
  destruct (grade_distribution (enrollments_of db class_id) (0, 0, 0)%nat)
    as [[[a f] i]|]; [|exact I].
  destruct H as [_ [H2 H3]]. cbn [fst snd] in H2, H3.
  cbn [grade_distribution_approved grade_distribution_failed
       grade_distribution_in_progress completed_students total_enrolled
       capacity_percentage max_capacity average_attendance_rate].
  split; [lia|]. split; [lia|]. split.
  { unfold enrolled_count, enrollments_of. now rewrite filter_filter. }
  split.
  { destruct (0 <? m) eqn:Hm; [|lra]. apply Z.ltb_lt in Hm.
    set (n := length _).
    assert (Hq : (0 < inject_Z m)%Q)
      by (change 0%Q with (inject_Z 0); now rewrite <- Zlt_Qlt).
    assert (Hn : (0 <= inject_Z (Z.of_nat n))%Q)
      by (change 0%Q with (inject_Z 0); rewrite <- Zle_Qle; lia).
    assert (Hd : (0 <= inject_Z (Z.of_nat n) / inject_Z m)%Q).
    { apply Qle_shift_div_l; [exact Hq|]. lra. }
    revert Hd. generalize (inject_Z (Z.of_nat n) / inject_Z m)%Q.
    intros q Hd.
    assert (Hr : (round2 0 <= round2 (q * 100))%Q)
      by (apply round2_mono; lra).
    apply Qle_trans with (round2 0); [|exact Hr].
    vm_compute. discriminate. }
  split.
  { intro Hm. destruct (Z.ltb_spec 0 m); [lia|reflexivity]. }
  set (enrolled := filter _ (enrollments_of db class_id)).
  destruct enrolled as [|e l] eqn:He; [split; lra|].
  rewrite <- He.
  change 0%Q with (inject_Z 0). change 100%Q with (inject_Z 100).
  apply rounded_mean_between.
  - rewrite He. discriminate.
  - unfold valid_scores_between. apply forallb_forall. intros x Hx.
    apply in_map_iff in Hx. destruct Hx as [e' [<- _]].
    destruct (attendance_percentage_bounds
                (attendance_of db (Enrollment.id e'))) as [H0 H1].
    apply andb_true_iff. split; now apply Qle_bool_iff.
Qed.

Lemma get_class_summary_counts_witness :
  match get_class_summary class_db an_admin 1 with
  | inl _ => True
  | inr s =>
    (grade_distribution_approved s + grade_distribution_failed s
     + grade_distribution_in_progress s
     = length (enrollments_of class_db 1))%nat
    /\ (completed_students s
        = grade_distribution_approved s + grade_distribution_failed s)%nat
    /\ Z.of_nat (total_enrolled s) = enrolled_count class_db 1
    /\ (0 <= capacity_percentage s)%Q
    /\ (max_capacity s <= 0 -> capacity_percentage s = 0%Q)
    /\ (0 <= average_attendance_rate s)%Q
    /\ (average_attendance_rate s <= 100)%Q
  end.
Proof.
  apply (get_class_summary_counts class_db an_admin 1).
Defined.

(** *** The academic performance report *)











(** *** The gradebook and the student list *)



(** *** Pending grades after a new grade *)

Lemma NoDup_map_filter {A B : Type} (key : A -> B) (p : A -> bool)
    (l : list A) :
  NoDup (map key l) -> NoDup (map key (filter p l)).
Proof.
  induction l as [|x l IH]; simpl; intro H; [constructor|].
  inversion H as [|k ks Hk Hl]; subst.
  destruct (p x); [|now apply IH].
  simpl. constructor; [|now apply IH].
  intro Hin. apply Hk. apply in_map_iff in Hin.
  destruct Hin as [y [Hy Hin]]. apply filter_In in Hin.
  rewrite <- Hy. apply in_map. tauto.
Qed.

Lemma filter_map_swap {A : Type} (p : A -> bool) (h : A -> A) (l : list A) :
  (forall x, p (h x) = p x) ->
  filter p (map h l) = map h (filter p l).
Proof.
  intro Hp. induction l as [|x l IH]; simpl; [reflexivity|].
  rewrite Hp. destruct (p x); simpl; now rewrite IH.
Qed.

(** Removing the one element of a key from a count. *)
Lemma filter_one_less {A : Type} (key : A -> Z) (k : Z) (p : A -> bool)
    (l : list A) (x : A) :
  NoDup (map key l) -> In x l -> key x = k -> p x = true ->
  (length (filter (fun y => p y && negb (key y =? k)%Z) l) + 1
   = length (filter p l))%nat.
Proof.
  induction l as [|y l IH]; simpl; [tauto|].
  intros Hnd Hin Hk Hp. inversion Hnd as [|k' ks Hy Hl]; subst.
  destruct Hin as [->|Hin].
  - rewrite Hp, Z.eqb_refl. simpl. f_equal.
    rewrite Nat.add_1_r. f_equal. f_equal. apply filter_ext_in.
    intros z Hz. destruct (Z.eqb_spec (key z) (key x)) as [E|E].
    + exfalso. apply Hy. rewrite <- E. now apply in_map.
    + simpl. now rewrite andb_true_r.
  - destruct (Z.eqb_spec (key y) (key x)) as [E|E].
    + exfalso. apply Hy. rewrite E. now apply in_map.
    + simpl. rewrite andb_true_r.
      specialize (IH Hl Hin eq_refl Hp).
      destruct (p y); simpl; lia.
Qed.

Lemma sum_one_less {A : Type} (key : A -> Z) (k : Z) (f f' : A -> nat)
    (l : list A) (x : A) :
  NoDup (map key l) -> In x l -> key x = k ->
  (forall y, In y l -> key y = k -> (f' y + 1 = f y)%nat) ->
  (forall y, In y l -> key y <> k -> f' y = f y) ->
  (fold_right Nat.add 0%nat (map f' l) + 1
   = fold_right Nat.add 0%nat (map f l))%nat.
Proof.
  induction l as [|y l IH]; simpl; [tauto|].
  intros Hnd Hin Hk H1 H2. inversion Hnd as [|k' ks Hy Hl]; subst.
  destruct Hin as [->|Hin].
  - rewrite <- (H1 x (or_introl eq_refl) eq_refl).
    assert (E : map f' l = map f l).
    { apply map_ext_in. intros z Hz. apply H2; [now right|].
      intro Hz'. apply Hy. rewrite <- Hz'. now apply in_map. }
    rewrite E. lia.
  - assert (Hne : key y <> key x).
    { intro E. apply Hy. rewrite E. now apply in_map. }
    rewrite (H2 y (or_introl eq_refl) Hne).
    specialize (IH Hl Hin eq_refl).
    rewrite <- IH; [lia| |].
    + intros z Hz. apply H1. now right.
    + intros z Hz. apply H2. now right.
Qed.

Lemma has_grade_row_add (db : Tables) (g : Grade.t)
    (enrollment_id evaluation_id : Z) :
  has_grade_row (add_grade g db) enrollment_id evaluation_id
  = has_grade_row db enrollment_id evaluation_id
    || ((Grade.enrollment_id g =? enrollment_id)
        && (Grade.evaluation_id g =? evaluation_id)).
Proof.
  unfold has_grade_row, add_grade. cbn [grades with_grades].
  rewrite existsb_app. simpl. now rewrite orb_false_r.
Qed.

(** The pairs without a row, counted evaluation by evaluation. *)
Lemma pairs_without_row_sum (db : Tables) (class_id : Z) :
  pairs_without_row db class_id
  = fold_right Nat.add 0%nat
      (map (fun ev =>
              length
                (filter (fun e => negb (has_grade_row db (Enrollment.id e)
                                                      (Evaluation.id ev)))
                        (filter (enrolled_in class_id) (enrollments db))))
           (filter (fun ev => Evaluation.class_group_id ev =? class_id)
                   (evaluations db))).
Proof.
  unfold pairs_without_row, class_pairs.
  now rewrite filter_list_prod_length.
Qed.

Lemma create_grade_created (db db' : Tables) (current_user : User.t)
    (now : Z) (data : GradeData.t) (grade : Grade.t) :
  run (create_grade current_user now data) db = (db', GradeCreated grade) ->
  db' = settle (Grade.enrollment_id grade) (add_grade grade db)
  /\ grade_first db (Grade.enrollment_id grade) (Grade.evaluation_id grade)
     = None.
Proof.
  unfold run, create_grade, raise. cbn [txn begin].
  destruct (GradeData.enrollment_id data) as [eid|]; [|discriminate].
  destruct (GradeData.evaluation_id data) as [vid|]; [|discriminate].
  destruct (GradeData.score data) as [score|]; [|discriminate].
  destruct (get_enrollment db eid) as [enr|] eqn:Henr; [|discriminate].
  destruct (get_evaluation db vid) as [ev|]; [|discriminate].
  destruct (teacher_check db current_user (Evaluation.class_group_id ev));
    try discriminate.
  destruct (out_of_range score (Evaluation.max_score ev)); [discriminate|].
  pose proof (find_id_eq _ _ _ _ Henr) as [_ Hid].
  destruct (grade_first db eid vid) as [existing|] eqn:Hfirst;
    [discriminate|].
  cbn beta iota. rewrite commit_recompute_commit. cbn [txn modify begin].
  set (created := stamp_grader db current_user _).
  assert (K : Grade.key created = (eid, vid))
    by (unfold created; now apply stamp_grader_key_of).
  unfold Grade.key in K. injection K as K1 K2.
  intro H. injection H as <- <-. now rewrite K1, K2, Hid.
Qed.

(** X29.  With distinct ids of evaluations and of enrollments: when
    [create_grade] creates the grade of an enrolled student on an
    evaluation of the student's class, the pending grades reported for
    that class go down by exactly one. *)
Theorem create_grade_clears_pending (db db' : Tables) (current_user : User.t)
    (now : Z) (data : GradeData.t) (grade : Grade.t)
    (class_group : ClassGroup.t) (enrollment : Enrollment.t)
    (evaluation : Evaluation.t) :
  NoDup (map Evaluation.id (evaluations db)) ->
  NoDup (map Enrollment.id (enrollments db)) ->
  get_enrollment db (Grade.enrollment_id grade) = Some enrollment ->
  get_evaluation db (Grade.evaluation_id grade) = Some evaluation ->
  enrolled_in (ClassGroup.id class_group) enrollment = true ->
  Evaluation.class_group_id evaluation = ClassGroup.id class_group ->
  run (create_grade current_user now data) db = (db', GradeCreated grade) ->
  (pending_grades db' class_group + 1 = pending_grades db class_group)%nat.
Proof.
  intros Hev Hen Henr Heval Hin Hclass Hrun.
  destruct (create_grade_created _ _ _ _ _ _ Hrun) as [-> Hnone].
  rewrite !pending_grades_count, !pairs_without_row_sum.
  set (c := ClassGroup.id class_group) in *.
  set (eid := Grade.enrollment_id grade) in *.
  set (vid := Grade.evaluation_id grade) in *.
  change (evaluations (settle eid (add_grade grade db)))
    with (evaluations db).
  pose proof (find_id_eq _ _ _ _ Henr) as [Henr_in Henr_id].
  pose proof (find_id_eq _ _ _ _ Heval) as [Heval_in Heval_id].
  set (f := fun e => if Enrollment.id e =? eid
                     then Enrollment.set_final_grade
                            (aggregate (add_grade grade db) eid) e
                     else e).
  assert (Hf : forall e, Enrollment.id (f e) = Enrollment.id e)
    by (intro e; unfold f; now destruct (Enrollment.id e =? eid)).
  assert (Hfi : forall e, enrolled_in c (f e) = enrolled_in c e)
    by (intro e; unfold f; now destruct (Enrollment.id e =? eid)).
  change (enrollments (settle eid (add_grade grade db)))
    with (map f (enrollments db)).
  rewrite (filter_map_swap _ f _ Hfi).
  apply (sum_one_less Evaluation.id vid _ _ _ evaluation).
  - now apply NoDup_map_filter.
  - apply filter_In. split; [exact Heval_in|]. now apply Z.eqb_eq.
  - exact Heval_id.
  - intros ev _ Hv.
    rewrite (filter_map_swap _ f _)
      by (intro e; now rewrite Hf).
    rewrite length_map.
    erewrite filter_ext;
      [apply (filter_one_less Enrollment.id eid _ _ enrollment)|].
    + now apply NoDup_map_filter.
    + apply filter_In. split; [exact Henr_in|exact Hin].
    + exact Henr_id.
    + rewrite Henr_id, Hv, grade_first_has_row. fold eid vid.
      now rewrite Hnone.
    + intro e. cbv beta.
      change (has_grade_row (settle eid ?d)) with (has_grade_row d).
      rewrite has_grade_row_add. fold eid vid. rewrite Hv, Z.eqb_refl.
      rewrite andb_true_r, negb_orb. now rewrite (Z.eqb_sym eid).
  - intros ev _ Hv.
    rewrite (filter_map_swap _ f _)
      by (intro e; now rewrite Hf).
    rewrite length_map. f_equal. apply filter_ext. intro e.
    change (has_grade_row (settle eid ?d)) with (has_grade_row d).
    rewrite has_grade_row_add. fold eid vid.
    destruct (Z.eqb_spec vid (Evaluation.id ev)) as [E|E];
      [congruence|].
    now rewrite andb_false_r, orb_false_r.
Qed.

Lemma create_grade_clears_pending_witness :
  (pending_grades
     (fst (run (create_grade the_teacher 2000 (grade_data 1 2 4)) graded_db))
     the_class + 1
   = pending_grades graded_db the_class)%nat.
Proof.
  apply (create_grade_clears_pending graded_db _ the_teacher 2000
           (grade_data 1 2 4) second_grade the_class first_enrollment
           (Evaluation.mk 2 1 1 5)).
  - cbv. repeat (apply NoDup_cons; [simpl; intuition discriminate|]).
    apply NoDup_nil.
  - cbv. repeat (apply NoDup_cons; [simpl; intuition discriminate|]).
    apply NoDup_nil.
  - reflexivity.
  - reflexivity.
  - reflexivity.
  - reflexivity.
  - reflexivity.
Defined.

(** *** One gate for a teacher's reading and writing *)

(** X30.  For a class that exists, the gradebook, the class summary and
    [create_grade] apply the same test to a teacher: a user who is denied
    the gradebook of the class is denied its summary, and a grade request
    of that user on an evaluation of the class is refused with
    PermissionDenied and writes nothing; a user who is not denied the
    gradebook passes the teacher check of [create_grade]. *)
Theorem teacher_gate_agrees (db : Tables) (current_user : User.t)
    (class_id : Z) (class_group : ClassGroup.t) :
  get_class_group db class_id = Some class_group ->
  (get_class_gradebook db current_user class_id = inl PermissionDenied
   <-> teacher_check db current_user class_id = Deny)
  /\ (get_class_gradebook db current_user class_id <> inl PermissionDenied
      <-> teacher_check db current_user class_id = Pass)
  /\ (get_class_summary db current_user class_id = inl PermissionDenied
      <-> teacher_check db current_user class_id = Deny)
  /\ (forall now data enrollment_id evaluation_id score enrollment evaluation,
        GradeData.enrollment_id data = Some enrollment_id ->
        GradeData.evaluation_id data = Some evaluation_id ->
        GradeData.score data = Some score ->
        get_enrollment db enrollment_id = Some enrollment ->
        get_evaluation db evaluation_id = Some evaluation ->
        Evaluation.class_group_id evaluation = class_id ->
        get_class_gradebook db current_user class_id = inl PermissionDenied ->
        run (create_grade current_user now data) db
        = (db, Failed PermissionDenied)).
Proof.
  intro Hc.
  assert (Hbook :
    get_class_gradebook db current_user class_id = inl PermissionDenied
    <-> teacher_check db current_user class_id = Deny).
  { unfold get_class_gradebook, teacher_check. rewrite Hc.
    destruct (Role.eqb (User.role current_user) Role.teacher).
    - destruct (teacher_of_user db (User.id current_user)) as [t|];
        [|tauto].
      destruct (ClassGroup.teacher_id class_group =? Teacher.id t);
        simpl; split; intro H; reflexivity || discriminate H.
    - split; discriminate. }
  split; [exact Hbook|]. split; [|split].
  - rewrite Hbook. unfold teacher_check. rewrite Hc.
    destruct (Role.eqb (User.role current_user) Role.teacher).
    + destruct (teacher_of_user db (User.id current_user)) as [t|].
      * destruct (ClassGroup.teacher_id class_group =? Teacher.id t);
          split; congruence.
      * split; congruence.
    + split; congruence.
  - unfold get_class_summary, teacher_check. rewrite Hc.
    destruct (Role.eqb (User.role current_user) Role.teacher).
    + destruct (teacher_of_user db (User.id current_user)) as [t|];
        [|tauto].
      destruct (ClassGroup.teacher_id class_group =? Teacher.id t);
        simpl; [|tauto].
      destruct (ClassGroup.max_students class_group);
        [|split; discriminate].
      destruct (grade_distribution _ _) as [[[a f] i]|]; split; discriminate.
    + destruct (ClassGroup.max_students class_group);
        [|split; discriminate].
      destruct (grade_distribution _ _) as [[[a f] i]|]; split; discriminate.
  - intros now data eid vid score enr ev He Hv Hs Henr Hev Hclass Hdenied.
    apply Hbook in Hdenied.
    unfold run, create_grade. cbn [txn begin].
    now rewrite He, Hv, Hs, Henr, Hev, Hclass, Hdenied.
Qed.

Lemma teacher_gate_agrees_witness :
  (get_class_gradebook class_db another_teacher 1 = inl PermissionDenied
   <-> teacher_check class_db another_teacher 1 = Deny)
  /\ (get_class_gradebook class_db another_teacher 1 <> inl PermissionDenied
      <-> teacher_check class_db another_teacher 1 = Pass)
  /\ (get_class_summary class_db another_teacher 1 = inl PermissionDenied
      <-> teacher_check class_db another_teacher 1 = Deny)
  /\ (forall now data enrollment_id evaluation_id score enrollment evaluation,
        GradeData.enrollment_id data = Some enrollment_id ->
        GradeData.evaluation_id data = Some evaluation_id ->
        GradeData.score data = Some score ->
        get_enrollment class_db enrollment_id = Some enrollment ->
        get_evaluation class_db evaluation_id = Some evaluation ->
        Evaluation.class_group_id evaluation = 1 ->
        get_class_gradebook class_db another_teacher 1
        = inl PermissionDenied ->
        run (create_grade another_teacher now data) class_db
        = (class_db, Failed PermissionDenied)).
Proof.
  apply (teacher_gate_agrees class_db another_teacher 1 the_class).
  reflexivity.
Defined.
